(** * A shallow embedding of the expense-ledger assistant

    The development follows the three Python modules of the repository:

    - [tools.py]: the ledger handlers ([append_to_sheet],
      [delete_specific_row], [delete_last_row], [update_specific_row],
      [get_sheet_url], [calculate_total]);
    - [ai_engine.py]: the two-round orchestration [get_agent_response];
    - [main.py]: the per-user conversation store ([start],
      [handle_message], [load_memory], [save_memory]).

    Text is a [string] of bytes, the UTF-8 encoding of the Python text;
    where the code looks at characters (the regular expressions, [float],
    [int], slicing, [repr]) the bytes are read as code points. *)

From Stdlib Require Import ZArith Lia Bool Ascii String List DecimalString DecimalPos.
From Stdlib Require Import Floats.SpecFloat.
From stdpp Require Import base option list strings gmap.

Local Open Scope Z_scope.

(** ** Text helpers *)

Module Text.

(** [str(n)] for a Python integer. *)
Definition str_Z (z : Z) : string := NilZero.string_of_int (Z.to_int z).

(** Two-digit, zero-padded rendering ([%m], [%d], [%H], [%M], [%S]). *)
Definition pad2 (z : Z) : string :=
  if z <? 10 then String "0" (str_Z z) else str_Z z.

(** Four-digit, zero-padded rendering ([%Y]). *)
Definition pad4 (z : Z) : string :=
  if z <? 10 then "000" +:+ str_Z z
  else if z <? 100 then "00" +:+ str_Z z
  else if z <? 1000 then String "0" (str_Z z)
  else str_Z z.

Definition ascii_eqb (a b : ascii) : bool := Ascii.eqb a b.

Definition chars (s : string) : list ascii := list_ascii_of_string s.

Definition of_chars (l : list ascii) : string := string_of_list_ascii l.

(** *** Characters

    A Python text is a sequence of code points; [re], [float], [int],
    slicing and [repr] work on them.  [code_points] reads them off the
    UTF-8 bytes.  (Bytes that are not UTF-8 stand for no Python text;
    each reads as U+FFFD.) *)

Definition byte (a : ascii) : Z := Z.of_N (N_of_ascii a).

Definition continuation (b : Z) : bool := (128 <=? b) && (b <? 192).

Fixpoint decode (l : list Z) : list Z :=
  match l with
  | [] => []
  | b0 :: r0 =>
      if b0 <? 128 then b0 :: decode r0
      else
        match r0 with
        | [] => [65533]
        | b1 :: r1 =>
            if (192 <=? b0) && (b0 <? 224) && continuation b1
            then (b0 - 192) * 64 + (b1 - 128) :: decode r1
            else
              match r1 with
              | [] => 65533 :: decode r0
              | b2 :: r2 =>
                  if (224 <=? b0) && (b0 <? 240) && continuation b1
                     && continuation b2
                  then (b0 - 224) * 4096 + (b1 - 128) * 64 + (b2 - 128)
                         :: decode r2
                  else
                    match r2 with
                    | [] => 65533 :: decode r0
                    | b3 :: r3 =>
                        if (240 <=? b0) && (b0 <? 248) && continuation b1
                           && continuation b2 && continuation b3
                        then (b0 - 240) * 262144 + (b1 - 128) * 4096
                               + (b2 - 128) * 64 + (b3 - 128) :: decode r3
                        else 65533 :: decode r0
                    end
              end
        end
  end.

Definition code_points (s : string) : list Z := decode (map byte (chars s)).

(** The UTF-8 bytes of a code point. *)
Definition encode (c : Z) : list Z :=
  if c <? 128 then [c]
  else if c <? 2048 then [192 + c / 64; 128 + c mod 64]
  else if c <? 65536
  then [224 + c / 4096; 128 + (c / 64) mod 64; 128 + c mod 64]
  else [240 + c / 262144; 128 + (c / 4096) mod 64; 128 + (c / 64) mod 64;
        128 + c mod 64].

Definition of_code_points (l : list Z) : string :=
  of_chars (map (fun b => ascii_of_N (Z.to_N b)) (flat_map encode l)).

(** The decimal digits of Unicode 14.0 (category Nd, the [\d] of [re]
    and the digits [int] and [float] read): 66 runs of ten code
    points, each from its zero to its nine.  These are the zeros. *)
Definition decimal_zeros : list Z :=
  [
    48; 1632; 1776; 1984; 2406; 2534; 2662; 2790; 2918; 3046; 3174; 3302;
    3430; 3558; 3664; 3792; 3872; 4160; 4240; 6112; 6160; 6470; 6608; 6784;
    6800; 6992; 7088; 7232; 7248; 42528; 43216; 43264; 43472; 43504; 43600;
    44016; 65296; 66720; 68912; 69734; 69872; 69942; 70096; 70384; 70736;
    70864; 71248; 71360; 71472; 71904; 72016; 72784; 73040; 73120; 92768;
    92864; 93008; 120782; 120792; 120802; 120812; 120822; 123200; 123632;
    125264; 130032
  ].

(** The value of a decimal digit. *)
Definition decimal (c : Z) : option Z :=
  match filter (fun z => (z <=? c) && (c <? z + 10) = true) decimal_zeros with
  | z :: _ => Some (c - z)
  | [] => None
  end.

(** [\d] *)
Definition is_decimal (c : Z) : bool :=
  match decimal c with Some _ => true | None => false end.

Definition decimal_val (c : Z) : Z := default 0 (decimal c).

(** A character class of ASCII characters, as [[1-9]]. *)
Definition between (lo hi : ascii) (c : Z) : bool :=
  (byte lo <=? c) && (c <=? byte hi).

(** One ASCII character. *)
Definition is_char (a : ascii) (c : Z) : bool := c =? byte a.

(** [int(s)] on a run of decimal digits, most significant first. *)
Definition digits_val (l : list Z) : Z :=
  fold_left (fun acc c => 10 * acc + decimal_val c) l 0.

(** [s[:n]] *)
Definition prefix (n : nat) (s : string) : list Z := take n (code_points s).

(** *** [repr]

    The code points from U+0080 on that [str.isprintable] refuses
    (Unicode 14.0), as inclusive ranges. *)
Definition unprintable : list (Z * Z) :=
  [
    (128, 160); (173, 173); (888, 889); (896, 899); (907, 907); (909, 909);
    (930, 930); (1328, 1328); (1367, 1368); (1419, 1420); (1424, 1424);
    (1480, 1487); (1515, 1518); (1525, 1541); (1564, 1564); (1757, 1757);
    (1806, 1807); (1867, 1868); (1970, 1983); (2043, 2044); (2094, 2095);
    (2111, 2111); (2140, 2141); (2143, 2143); (2155, 2159); (2191, 2199);
    (2274, 2274); (2436, 2436); (2445, 2446); (2449, 2450); (2473, 2473);
    (2481, 2481); (2483, 2485); (2490, 2491); (2501, 2502); (2505, 2506);
    (2511, 2518); (2520, 2523); (2526, 2526); (2532, 2533); (2559, 2560);
    (2564, 2564); (2571, 2574); (2577, 2578); (2601, 2601); (2609, 2609);
    (2612, 2612); (2615, 2615); (2618, 2619); (2621, 2621); (2627, 2630);
    (2633, 2634); (2638, 2640); (2642, 2648); (2653, 2653); (2655, 2661);
    (2679, 2688); (2692, 2692); (2702, 2702); (2706, 2706); (2729, 2729);
    (2737, 2737); (2740, 2740); (2746, 2747); (2758, 2758); (2762, 2762);
    (2766, 2767); (2769, 2783); (2788, 2789); (2802, 2808); (2816, 2816);
    (2820, 2820); (2829, 2830); (2833, 2834); (2857, 2857); (2865, 2865);
    (2868, 2868); (2874, 2875); (2885, 2886); (2889, 2890); (2894, 2900);
    (2904, 2907); (2910, 2910); (2916, 2917); (2936, 2945); (2948, 2948);
    (2955, 2957); (2961, 2961); (2966, 2968); (2971, 2971); (2973, 2973);
    (2976, 2978); (2981, 2983); (2987, 2989); (3002, 3005); (3011, 3013);
    (3017, 3017); (3022, 3023); (3025, 3030); (3032, 3045); (3067, 3071);
    (3085, 3085); (3089, 3089); (3113, 3113); (3130, 3131); (3141, 3141);
    (3145, 3145); (3150, 3156); (3159, 3159); (3163, 3164); (3166, 3167);
    (3172, 3173); (3184, 3190); (3213, 3213); (3217, 3217); (3241, 3241);
    (3252, 3252); (3258, 3259); (3269, 3269); (3273, 3273); (3278, 3284);
    (3287, 3292); (3295, 3295); (3300, 3301); (3312, 3312); (3315, 3327);
    (3341, 3341); (3345, 3345); (3397, 3397); (3401, 3401); (3408, 3411);
    (3428, 3429); (3456, 3456); (3460, 3460); (3479, 3481); (3506, 3506);
    (3516, 3516); (3518, 3519); (3527, 3529); (3531, 3534); (3541, 3541);
    (3543, 3543); (3552, 3557); (3568, 3569); (3573, 3584); (3643, 3646);
    (3676, 3712); (3715, 3715); (3717, 3717); (3723, 3723); (3748, 3748);
    (3750, 3750); (3774, 3775); (3781, 3781); (3783, 3783); (3790, 3791);
    (3802, 3803); (3808, 3839); (3912, 3912); (3949, 3952); (3992, 3992);
    (4029, 4029); (4045, 4045); (4059, 4095); (4294, 4294); (4296, 4300);
    (4302, 4303); (4681, 4681); (4686, 4687); (4695, 4695); (4697, 4697);
    (4702, 4703); (4745, 4745); (4750, 4751); (4785, 4785); (4790, 4791);
    (4799, 4799); (4801, 4801); (4806, 4807); (4823, 4823); (4881, 4881);
    (4886, 4887); (4955, 4956); (4989, 4991); (5018, 5023); (5110, 5111);
    (5118, 5119); (5760, 5760); (5789, 5791); (5881, 5887); (5910, 5918);
    (5943, 5951); (5972, 5983); (5997, 5997); (6001, 6001); (6004, 6015);
    (6110, 6111); (6122, 6127); (6138, 6143); (6158, 6158); (6170, 6175);
    (6265, 6271); (6315, 6319); (6390, 6399); (6431, 6431); (6444, 6447);
    (6460, 6463); (6465, 6467); (6510, 6511); (6517, 6527); (6572, 6575);
    (6602, 6607); (6619, 6621); (6684, 6685); (6751, 6751); (6781, 6782);
    (6794, 6799); (6810, 6815); (6830, 6831); (6863, 6911); (6989, 6991);
    (7039, 7039); (7156, 7163); (7224, 7226); (7242, 7244); (7305, 7311);
    (7355, 7356); (7368, 7375); (7419, 7423); (7958, 7959); (7966, 7967);
    (8006, 8007); (8014, 8015); (8024, 8024); (8026, 8026); (8028, 8028);
    (8030, 8030); (8062, 8063); (8117, 8117); (8133, 8133); (8148, 8149);
    (8156, 8156); (8176, 8177); (8181, 8181); (8191, 8207); (8232, 8239);
    (8287, 8303); (8306, 8307); (8335, 8335); (8349, 8351); (8385, 8399);
    (8433, 8447); (8588, 8591); (9255, 9279); (9291, 9311); (11124, 11125);
    (11158, 11158); (11508, 11512); (11558, 11558); (11560, 11564);
    (11566, 11567); (11624, 11630); (11633, 11646); (11671, 11679);
    (11687, 11687); (11695, 11695); (11703, 11703); (11711, 11711);
    (11719, 11719); (11727, 11727); (11735, 11735); (11743, 11743);
    (11870, 11903); (11930, 11930); (12020, 12031); (12246, 12271);
    (12284, 12288); (12352, 12352); (12439, 12440); (12544, 12548);
    (12592, 12592); (12687, 12687); (12772, 12783); (12831, 12831);
    (42125, 42127); (42183, 42191); (42540, 42559); (42744, 42751);
    (42955, 42959); (42962, 42962); (42964, 42964); (42970, 42993);
    (43053, 43055); (43066, 43071); (43128, 43135); (43206, 43213);
    (43226, 43231); (43348, 43358); (43389, 43391); (43470, 43470);
    (43482, 43485); (43519, 43519); (43575, 43583); (43598, 43599);
    (43610, 43611); (43715, 43738); (43767, 43776); (43783, 43784);
    (43791, 43792); (43799, 43807); (43815, 43815); (43823, 43823);
    (43884, 43887); (44014, 44015); (44026, 44031); (55204, 55215);
    (55239, 55242); (55292, 63743); (64110, 64111); (64218, 64255);
    (64263, 64274); (64280, 64284); (64311, 64311); (64317, 64317);
    (64319, 64319); (64322, 64322); (64325, 64325); (64451, 64466);
    (64912, 64913); (64968, 64974); (64976, 65007); (65050, 65055);
    (65107, 65107); (65127, 65127); (65132, 65135); (65141, 65141);
    (65277, 65280); (65471, 65473); (65480, 65481); (65488, 65489);
    (65496, 65497); (65501, 65503); (65511, 65511); (65519, 65531);
    (65534, 65535); (65548, 65548); (65575, 65575); (65595, 65595);
    (65598, 65598); (65614, 65615); (65630, 65663); (65787, 65791);
    (65795, 65798); (65844, 65846); (65935, 65935); (65949, 65951);
    (65953, 65999); (66046, 66175); (66205, 66207); (66257, 66271);
    (66300, 66303); (66340, 66348); (66379, 66383); (66427, 66431);
    (66462, 66462); (66500, 66503); (66518, 66559); (66718, 66719);
    (66730, 66735); (66772, 66775); (66812, 66815); (66856, 66863);
    (66916, 66926); (66939, 66939); (66955, 66955); (66963, 66963);
    (66966, 66966); (66978, 66978); (66994, 66994); (67002, 67002);
    (67005, 67071); (67383, 67391); (67414, 67423); (67432, 67455);
    (67462, 67462); (67505, 67505); (67515, 67583); (67590, 67591);
    (67593, 67593); (67638, 67638); (67641, 67643); (67645, 67646);
    (67670, 67670); (67743, 67750); (67760, 67807); (67827, 67827);
    (67830, 67834); (67868, 67870); (67898, 67902); (67904, 67967);
    (68024, 68027); (68048, 68049); (68100, 68100); (68103, 68107);
    (68116, 68116); (68120, 68120); (68150, 68151); (68155, 68158);
    (68169, 68175); (68185, 68191); (68256, 68287); (68327, 68330);
    (68343, 68351); (68406, 68408); (68438, 68439); (68467, 68471);
    (68498, 68504); (68509, 68520); (68528, 68607); (68681, 68735);
    (68787, 68799); (68851, 68857); (68904, 68911); (68922, 69215);
    (69247, 69247); (69290, 69290); (69294, 69295); (69298, 69375);
    (69416, 69423); (69466, 69487); (69514, 69551); (69580, 69599);
    (69623, 69631); (69710, 69713); (69750, 69758); (69821, 69821);
    (69827, 69839); (69865, 69871); (69882, 69887); (69941, 69941);
    (69960, 69967); (70007, 70015); (70112, 70112); (70133, 70143);
    (70162, 70162); (70207, 70271); (70279, 70279); (70281, 70281);
    (70286, 70286); (70302, 70302); (70314, 70319); (70379, 70383);
    (70394, 70399); (70404, 70404); (70413, 70414); (70417, 70418);
    (70441, 70441); (70449, 70449); (70452, 70452); (70458, 70458);
    (70469, 70470); (70473, 70474); (70478, 70479); (70481, 70486);
    (70488, 70492); (70500, 70501); (70509, 70511); (70517, 70655);
    (70748, 70748); (70754, 70783); (70856, 70863); (70874, 71039);
    (71094, 71095); (71134, 71167); (71237, 71247); (71258, 71263);
    (71277, 71295); (71354, 71359); (71370, 71423); (71451, 71452);
    (71468, 71471); (71495, 71679); (71740, 71839); (71923, 71934);
    (71943, 71944); (71946, 71947); (71956, 71956); (71959, 71959);
    (71990, 71990); (71993, 71994); (72007, 72015); (72026, 72095);
    (72104, 72105); (72152, 72153); (72165, 72191); (72264, 72271);
    (72355, 72367); (72441, 72703); (72713, 72713); (72759, 72759);
    (72774, 72783); (72813, 72815); (72848, 72849); (72872, 72872);
    (72887, 72959); (72967, 72967); (72970, 72970); (73015, 73017);
    (73019, 73019); (73022, 73022); (73032, 73039); (73050, 73055);
    (73062, 73062); (73065, 73065); (73103, 73103); (73106, 73106);
    (73113, 73119); (73130, 73439); (73465, 73647); (73649, 73663);
    (73714, 73726); (74650, 74751); (74863, 74863); (74869, 74879);
    (75076, 77711); (77811, 77823); (78895, 82943); (83527, 92159);
    (92729, 92735); (92767, 92767); (92778, 92781); (92863, 92863);
    (92874, 92879); (92910, 92911); (92918, 92927); (92998, 93007);
    (93018, 93018); (93026, 93026); (93048, 93052); (93072, 93759);
    (93851, 93951); (94027, 94030); (94088, 94094); (94112, 94175);
    (94181, 94191); (94194, 94207); (100344, 100351); (101590, 101631);
    (101641, 110575); (110580, 110580); (110588, 110588); (110591, 110591);
    (110883, 110927); (110931, 110947); (110952, 110959); (111356, 113663);
    (113771, 113775); (113789, 113791); (113801, 113807); (113818, 113819);
    (113824, 118527); (118574, 118575); (118599, 118607); (118724, 118783);
    (119030, 119039); (119079, 119080); (119155, 119162); (119275, 119295);
    (119366, 119519); (119540, 119551); (119639, 119647); (119673, 119807);
    (119893, 119893); (119965, 119965); (119968, 119969); (119971, 119972);
    (119975, 119976); (119981, 119981); (119994, 119994); (119996, 119996);
    (120004, 120004); (120070, 120070); (120075, 120076); (120085, 120085);
    (120093, 120093); (120122, 120122); (120127, 120127); (120133, 120133);
    (120135, 120137); (120145, 120145); (120486, 120487); (120780, 120781);
    (121484, 121498); (121504, 121504); (121520, 122623); (122655, 122879);
    (122887, 122887); (122905, 122906); (122914, 122914); (122917, 122917);
    (122923, 123135); (123181, 123183); (123198, 123199); (123210, 123213);
    (123216, 123535); (123567, 123583); (123642, 123646); (123648, 124895);
    (124903, 124903); (124908, 124908); (124911, 124911); (124927, 124927);
    (125125, 125126); (125143, 125183); (125260, 125263); (125274, 125277);
    (125280, 126064); (126133, 126208); (126270, 126463); (126468, 126468);
    (126496, 126496); (126499, 126499); (126501, 126502); (126504, 126504);
    (126515, 126515); (126520, 126520); (126522, 126522); (126524, 126529);
    (126531, 126534); (126536, 126536); (126538, 126538); (126540, 126540);
    (126544, 126544); (126547, 126547); (126549, 126550); (126552, 126552);
    (126554, 126554); (126556, 126556); (126558, 126558); (126560, 126560);
    (126563, 126563); (126565, 126566); (126571, 126571); (126579, 126579);
    (126584, 126584); (126589, 126589); (126591, 126591); (126602, 126602);
    (126620, 126624); (126628, 126628); (126634, 126634); (126652, 126703);
    (126706, 126975); (127020, 127023); (127124, 127135); (127151, 127152);
    (127168, 127168); (127184, 127184); (127222, 127231); (127406, 127461);
    (127491, 127503); (127548, 127551); (127561, 127567); (127570, 127583);
    (127590, 127743); (128728, 128732); (128749, 128751); (128765, 128767);
    (128884, 128895); (128985, 128991); (129004, 129007); (129009, 129023);
    (129036, 129039); (129096, 129103); (129114, 129119); (129160, 129167);
    (129198, 129199); (129202, 129279); (129620, 129631); (129646, 129647);
    (129653, 129655); (129661, 129663); (129671, 129679); (129709, 129711);
    (129723, 129727); (129734, 129743); (129754, 129759); (129768, 129775);
    (129783, 129791); (129939, 129939); (129995, 130031); (130042, 131071);
    (173792, 173823); (177977, 177983); (178206, 178207); (183970, 183983);
    (191457, 194559); (195102, 196607); (201547, 917759); (918000, 1114111)
  ].

Definition printable (c : Z) : bool :=
  negb (existsb (fun r => (fst r <=? c) && (c <=? snd r)) unprintable).

Definition hex_digit (n : Z) : ascii :=
  ascii_of_N (Z.to_N (if n <? 10 then 48 + n else 87 + n)).

(** [n] as [k] lower-case hexadecimal digits. *)
Fixpoint hex (k : nat) (n : Z) : string :=
  match k with
  | O => EmptyString
  | S k' => hex k' (n / 16) +:+ String (hex_digit (n mod 16)) EmptyString
  end.

Definition repr_char (quote : Z) (c : Z) : string :=
  if (c =? quote) || (c =? 92) then String "\" (of_code_points [c])
  else if c =? 9 then "\t"
  else if c =? 10 then "\n"
  else if c =? 13 then "\r"
  else if (c <? 32) || (c =? 127) then "\x" +:+ hex 2 c
  else if c <? 127 then of_code_points [c]
  else if printable c then of_code_points [c]
  else if c <=? 255 then "\x" +:+ hex 2 c
  else if c <=? 65535 then "\u" +:+ hex 4 c
  else "\U" +:+ hex 8 c.

(** [repr(s)] *)
Definition repr (s : string) : string :=
  let l := code_points s in
  let quote :=
    if existsb (Z.eqb 39) l && negb (existsb (Z.eqb 34) l) then 34 else 39 in
  let q := of_code_points [quote] in
  q +:+ fold_right (fun c acc => repr_char quote c +:+ acc) q l.

(** [s.split(' ')[0]]: the text before the first space. *)
Fixpoint before_space (s : string) : string :=
  match s with
  | EmptyString => EmptyString
  | String c rest =>
      if ascii_eqb c " " then EmptyString else String c (before_space rest)
  end.

(** Python truthiness of a text value. *)
Definition nonempty (s : string) : bool :=
  match s with EmptyString => false | String _ _ => true end.

End Text.

(** ** Binary64 numbers, as [calculate_total] uses them

    Python floats are IEEE 754 binary64 values; [spec_float] with
    precision 53 and maximal exponent 1024 is their specification. *)

Module Float.

Definition prec : Z := 53.
Definition emax : Z := 1024.

Definition zero : spec_float := S754_zero false.

(** [x + y] on floats. *)
Definition add (x y : spec_float) : spec_float := SFadd prec emax x y.

(** The binary64 number nearest to [n / 10^k] (ties to even), for
    [n >= 0]; the sign is given apart so that [-0] keeps its sign. *)
Definition of_decimal (neg : bool) (n : Z) (k : nat) : spec_float :=
  match n with
  | Zpos p =>
      let '(q, e, l) :=
        SFdiv_core_binary prec emax (Zpos p) 0 (10 ^ Z.of_nat k) 0 in
      binary_round_aux prec emax neg q e l
  | _ => S754_zero neg
  end.

(** [float(s)] for a text [s] over the alphabet the cleaning step of
    [calculate_total] leaves: decimal digits (of any script; [float]
    reads each by its value), dots and minus signs.  The accepted
    shape is an optional leading minus, then digits with at most one
    dot and at least one digit; anything else is the [ValueError] of
    Python, here [None]. *)
Definition split_dot (l : list Z) : list Z * option (list Z) :=
  (fix go (l : list Z) : list Z * option (list Z) :=
     match l with
     | [] => ([], None)
     | c :: rest =>
         if Text.is_char "." c then ([], Some rest)
         else let '(a, b) := go rest in (c :: a, b)
     end) l.

Definition parse_unsigned (neg : bool) (l : list Z) : option spec_float :=
  let '(ip, fp) := split_dot l in
  let fr := default [] fp in
  if forallb Text.is_decimal ip && forallb Text.is_decimal fr
     && negb (Nat.eqb (length ip + length fr) 0)
  then Some (of_decimal neg (Text.digits_val (ip ++ fr)) (length fr))
  else None.

Definition parse (l : list Z) : option spec_float :=
  match l with
  | c :: rest =>
      if Text.is_char "-" c then parse_unsigned true rest
      else parse_unsigned false (c :: rest)
  | [] => None
  end.

(** [f"{x:.2f}"]: the exact value of [x] rounded to two decimals,
    ties to even, with the sign kept even when the digits are zero. *)
Definition hundredths (m : positive) (e : Z) : Z :=
  let n := Zpos m * 100 in
  if 0 <=? e then n * 2 ^ e
  else
    let d := 2 ^ (- e) in
    let q := n / d in
    let r := n mod d in
    match Z.compare (2 * r) d with
    | Lt => q
    | Gt => q + 1
    | Eq => if Z.even q then q else q + 1
    end.

Definition fixed2 (h : Z) : string :=
  Text.str_Z (h / 100) +:+ String "." (Text.pad2 (h mod 100)).

Definition sign_text (s : bool) : string :=
  if s then String "-" EmptyString else EmptyString.

Definition format_2f (x : spec_float) : string :=
  match x with
  | S754_nan => "nan"
  | S754_infinity s => sign_text s +:+ "inf"
  | S754_zero s => sign_text s +:+ "0.00"
  | S754_finite s m e => sign_text s +:+ fixed2 (hundredths m e)
  end.

End Float.

(** ** Dates and the wall clock *)

Module Date.

(** A [datetime.datetime] value (to the second). *)
Record datetime := mk_datetime {
  year : Z; month : Z; day : Z; hour : Z; minute : Z; second : Z
}.

Definition is_leap (y : Z) : bool :=
  (y mod 4 =? 0) && (negb (y mod 100 =? 0) || (y mod 400 =? 0)).

Definition days_in_month (y m : Z) : Z :=
  if m =? 2 then (if is_leap y then 29 else 28)
  else if (m =? 4) || (m =? 6) || (m =? 9) || (m =? 11) then 30
  else 31.

(** *** [strptime(s, "%Y-%m-%d")]

    The format compiles to the regular expression
    [(?P<Y>\d\d\d\d)-(?P<m>1[0-2]|0[1-9]|[1-9])-(?P<d>3[0-1]|[1-2]\d|0[1-9]|[1-9]| [1-9])],
    matched at the start of the text.  Each function below matches one
    group and gives its value and the text left. *)

(** [\d\d\d\d], read by [int]. *)
Definition year_group (l : list Z) : option (Z * list Z) :=
  match l with
  | y1 :: y2 :: y3 :: y4 :: rest =>
      if forallb Text.is_decimal [y1; y2; y3; y4]
      then Some (Text.digits_val [y1; y2; y3; y4], rest)
      else None
  | _ => None
  end.

(** [1[0-2]|0[1-9]|[1-9]]: the alternatives in their order.  Where an
    earlier one matches, the later ones cannot make the rest match. *)
Definition month_group (l : list Z) : option (Z * list Z) :=
  match l with
  | a :: rest =>
      match rest with
      | b :: rest' =>
          if Text.is_char "1" a && Text.between "0" "2" b
          then Some (10 + Text.decimal_val b, rest')
          else if Text.is_char "0" a && Text.between "1" "9" b
          then Some (Text.decimal_val b, rest')
          else if Text.between "1" "9" a then Some (Text.decimal_val a, rest)
          else None
      | [] =>
          if Text.between "1" "9" a then Some (Text.decimal_val a, rest)
          else None
      end
  | [] => None
  end.

(** [3[0-1]|[1-2]\d|0[1-9]|[1-9]| [1-9]]: the last group of the
    expression, so the first alternative that matches is taken. *)
Definition day_group (l : list Z) : option (Z * list Z) :=
  match l with
  | a :: rest =>
      match rest with
      | b :: rest' =>
          if Text.is_char "3" a && Text.between "0" "1" b
          then Some (30 + Text.decimal_val b, rest')
          else if Text.between "1" "2" a && Text.is_decimal b
          then Some (10 * Text.decimal_val a + Text.decimal_val b, rest')
          else if Text.is_char "0" a && Text.between "1" "9" b
          then Some (Text.decimal_val b, rest')
          else if Text.between "1" "9" a then Some (Text.decimal_val a, rest)
          else if Text.is_char " " a && Text.between "1" "9" b
          then Some (Text.decimal_val b, rest')
          else None
      | [] =>
          if Text.between "1" "9" a then Some (Text.decimal_val a, rest)
          else None
      end
  | [] => None
  end.

(** A literal minus sign. *)
Definition minus (l : list Z) : option (list Z) :=
  match l with
  | c :: rest => if Text.is_char "-" c then Some rest else None
  | [] => None
  end.

(** The match of the whole expression: year, month, day and the text
    the match leaves. *)
Definition match_ymd (l : list Z) : option (Z * Z * Z * list Z) :=
  match year_group l with
  | Some (y, l1) =>
      match minus l1 with
      | Some l2 =>
          match month_group l2 with
          | Some (m, l3) =>
              match minus l3 with
              | Some l4 =>
                  match day_group l4 with
                  | Some (d, rest) => Some (y, m, d, rest)
                  | None => None
                  end
              | None => None
              end
          | None => None
          end
      | None => None
      end
  | None => None
  end.

(** The ways [strptime] raises [ValueError]. *)
Inductive failure :=
| NoMatch                        (* the expression does not match *)
| Unconverted (rest : list Z)    (* it matches and text is left *)
| YearZero                       (* [datetime_date(0, m, d)] *)
| DayOutOfRange.                 (* no such day in the month *)

Definition parse_ymd (l : list Z) : failure + datetime :=
  match match_ymd l with
  | None => inl NoMatch
  | Some (y, m, d, rest) =>
      match rest with
      | _ :: _ => inl (Unconverted rest)
      | [] =>
          if y =? 0 then inl YearZero
          else if days_in_month y m <? d then inl DayOutOfRange
          else inr (mk_datetime y m d 0 0 0)
      end
  end.

(** [datetime.datetime.strptime(s, "%Y-%m-%d")] on the characters of
    [s]; [None] is its [ValueError]. *)
Definition strptime_ymd (l : list Z) : option datetime :=
  match parse_ymd l with
  | inr dt => Some dt
  | inl _ => None
  end.

(** [dt.replace(hour=23, minute=59, second=59)] *)
Definition end_of_day (dt : datetime) : datetime :=
  mk_datetime (year dt) (month dt) (day dt) 23 59 59.

Definition fields (dt : datetime) : list Z :=
  [year dt; month dt; day dt; hour dt; minute dt; second dt].

Fixpoint lex_ltb (a b : list Z) : bool :=
  match a, b with
  | x :: a', y :: b' => (x <? y) || ((x =? y) && lex_ltb a' b')
  | _, _ => false
  end.

(** [a < b] on datetimes. *)
Definition ltb (a b : datetime) : bool := lex_ltb (fields a) (fields b).

(** [strftime("%H:%M:%S")] *)
Definition strftime_HMS (dt : datetime) : string :=
  Text.pad2 (hour dt) +:+ String ":" (Text.pad2 (minute dt))
    +:+ String ":" (Text.pad2 (second dt)).

(** [strftime("%Y-%m-%d")] *)
Definition strftime_Ymd (dt : datetime) : string :=
  Text.pad4 (year dt) +:+ String "-" (Text.pad2 (month dt))
    +:+ String "-" (Text.pad2 (day dt)).

(** [strftime("%Y-%m-%d %H:%M:%S")] *)
Definition strftime_full (dt : datetime) : string :=
  strftime_Ymd dt +:+ String " " (strftime_HMS dt).

(** [strftime("%Y-%m-%d %H:%M")] *)
Definition strftime_minutes (dt : datetime) : string :=
  strftime_Ymd dt +:+ String " " (Text.pad2 (hour dt))
    +:+ String ":" (Text.pad2 (minute dt)).

End Date.

(** ** Exceptions and stateful computations

    A Python computation over a mutable state [S] either returns a value
    or raises; the state reached so far survives the exception (a list
    that was appended to stays appended to). *)

Module Py.

(** The exception classes [get_agent_response] tells apart; [Other]
    stands for every other subclass of [Exception].  Each carries the
    text of [str(e)]. *)
Inductive exn :=
| RateLimitError (detail : string)
| AuthenticationError (detail : string)
| Other (detail : string).

Definition str_exn (e : exn) : string :=
  match e with
  | RateLimitError d | AuthenticationError d | Other d => d
  end.

Definition M (S A : Type) : Type := S -> (exn + A) * S.

Definition ret {S A} (a : A) : M S A := fun s => (inr a, s).

Definition bind {S A B} (c : M S A) (k : A -> M S B) : M S B :=
  fun s =>
    match c s with
    | (inr a, s') => k a s'
    | (inl e, s') => (inl e, s')
    end.

Definition raise {S A} (e : exn) : M S A := fun s => (inl e, s).

(** [try: c  except Exception as e: h e] *)
Definition try_except {S A} (c : M S A) (h : exn -> M S A) : M S A :=
  fun s =>
    match c s with
    | (inr a, s') => (inr a, s')
    | (inl e, s') => h e s'
    end.

Definition get {S} : M S S := fun s => (inr s, s).

Definition modify {S} (f : S -> S) : M S unit := fun s => (inr tt, f s).

(** Runs a computation on a component of a larger state. *)
Definition zoom {S T A} (proj : T -> S) (inj : S -> T -> T) (c : M S A)
  : M T A :=
  fun t => let '(r, s') := c (proj t) in (r, inj s' t).

End Py.

Declare Scope py_scope.
Delimit Scope py_scope with py.
Notation "x <- c ;; k" := (Py.bind c (fun x => k))
  (at level 100, c at next level, right associativity) : py_scope.
Notation "c ;; k" := (Py.bind c (fun _ => k))
  (at level 100, right associativity) : py_scope.

(** ** The ledger backend

    The spreadsheet is the external collaborator of [tools.py].  It is
    modelled by the table of values a whole-table read returns, with the
    operations the handlers call on a worksheet: whole-table read, row
    append, row deletion by 1-based position, and read and write of the
    five-column range [A{k}:E{k}]. *)

Module Sheet.

Abbreviation row := (list string).

Record ledger := mk_ledger {
  sheet : list row;              (* the table, first row first *)
  backend_fault : option string; (* [Some d]: credentials or connection fail with text [d] *)
  bad_range : string;            (* text of the backend error for an invalid range *)
  now : Date.datetime;           (* [datetime.datetime.now()] *)
  sheet_id : option string       (* [os.getenv("GOOGLE_SHEET_ID")] *)
}.

Definition with_sheet (t : list row) (w : ledger) : ledger :=
  mk_ledger t (backend_fault w) (bad_range w) (now w) (sheet_id w).

Local Open Scope py_scope.

(** [get_creds(); gspread.authorize(creds); client.open_by_key(id).sheet1] *)
Definition open_sheet : Py.M ledger unit :=
  fun w =>
    match backend_fault w with
    | Some d => (inl (Py.Other d), w)
    | None => (inr tt, w)
    end.

(** [sheet.get_all_values()] *)
Definition get_all_values : Py.M ledger (list row) :=
  fun w => (inr (sheet w), w).

(** [sheet.append_row(r)] *)
Definition append_row (r : row) : Py.M ledger unit :=
  Py.modify (fun w => with_sheet (sheet w ++ [r]) w).

(** [sheet.delete_rows(k)]: the [k]-th row goes and the later ones
    move up; a position past the last value names an empty row of the
    grid, whose removal leaves the values as they are. *)
Definition delete_rows (k : Z) : Py.M ledger unit :=
  if k <? 1 then (w <- Py.get ;; Py.raise (Py.Other (bad_range w)))
  else Py.modify (fun w => with_sheet (delete (Z.to_nat (k - 1)) (sheet w)) w).

(** Trailing empty cells are not part of what a ranged read returns. *)
Definition trim_trailing (r : row) : row :=
  fold_right
    (fun c acc =>
       match acc with
       | [] => if Text.nonempty c then [c] else []
       | _ => c :: acc
       end) [] r.

(** [sheet.get("A{k}:E{k}")] *)
Definition get_range (k : Z) : Py.M ledger (list row) :=
  if k <? 1 then (w <- Py.get ;; Py.raise (Py.Other (bad_range w)))
  else
    w <- Py.get ;;
    match sheet w !! Z.to_nat (k - 1) with
    | Some r =>
        match trim_trailing (take 5 r) with
        | [] => Py.ret []
        | t => Py.ret [t]
        end
    | None => Py.ret []
    end.

(** [sheet.update("A{k}:E{k}", [r])]: the cells of columns A to E of
    row [k] take the values of [r]; cells further right stay. *)
Definition write_range (k : Z) (r : row) (t : list row) : list row :=
  let i := Z.to_nat (k - 1) in
  let t' := t ++ replicate (S i - length t) [] in
  <[ i := r ++ drop 5 (default [] (t' !! i)) ]> t'.

Definition update_range (k : Z) (r : row) : Py.M ledger unit :=
  if k <? 1 then (w <- Py.get ;; Py.raise (Py.Other (bad_range w)))
  else Py.modify (fun w => with_sheet (write_range k r (sheet w)) w).

(** [datetime.datetime.now()] *)
Definition clock : Py.M ledger Date.datetime :=
  fun w => (inr (now w), w).

End Sheet.

(** ** [tools.py]: the ledger handlers

    Parameters are typed as the signatures and the tool schema declare
    them: text parameters are [string] ([option string] where the Python
    default is [None]), [amount] is a JSON number, [row_id] an integer
    (on which [int(row_id)] is the identity). *)

Module Tools.

Import Sheet.
Local Open Scope py_scope.

(** A JSON number.  The handlers only render it with [str()]; a float
    is carried by that rendering. *)
Inductive number :=
| NInt (z : Z)
| NFloat (repr : string).

Definition str_number (n : number) : string :=
  match n with
  | NInt z => Text.str_Z z
  | NFloat r => r
  end.

(** [if date:] and the like: [None] and the empty text are false. *)
Definition truthy (o : option string) : bool :=
  match o with
  | Some s => Text.nonempty s
  | None => false
  end.

(** [r[i]] on a row known to be long enough. *)
Definition cell (r : row) (i : nat) : string := default EmptyString (r !! i).

Definition len {A} (l : list A) : Z := Z.of_nat (length l).

(** The time stamp of a new row: the date given, followed by the time
    of day now, or the full time now when no date is given. *)
Definition timestamp_for (date : option string) (t : Date.datetime) : string :=
  match date with
  | Some d =>
      if Text.nonempty d
      then d +:+ String " " (Date.strftime_HMS t)
      else Date.strftime_full t
  | None => Date.strftime_full t
  end.

(** [f"Saved: {date_only} #{row_id} {item_name} {amount_str} ({category})"] *)
Definition saved (date_only : string) (row_id : Z)
    (item_name amount_str category : string) : string :=
  "Saved: " +:+ date_only +:+ " #" +:+ Text.str_Z row_id
    +:+ String " " item_name +:+ String " " amount_str
    +:+ " (" +:+ category +:+ ")".

(** [f"⚠️ Invalid Row ID: {row_id}. (Max is {len(all_values)})"] *)
Definition invalid_row_id (row_id max : Z) : string :=
  "⚠️ Invalid Row ID: " +:+ Text.str_Z row_id
    +:+ ". (Max is " +:+ Text.str_Z max +:+ ")".

(** [f"✅ Deleted record #{row_id}."] *)
Definition deleted_record (row_id : Z) : string :=
  "✅ Deleted record #" +:+ Text.str_Z row_id +:+ ".".

(** [f"✅ Updated record #{row_id}: {r[1]} {r[2]} ({r[3]})"] *)
Definition updated_record (row_id : Z) (r : row) : string :=
  "✅ Updated record #" +:+ Text.str_Z row_id +:+ ": "
    +:+ cell r 1 +:+ String " " (cell r 2)
    +:+ " (" +:+ cell r 3 +:+ ")".

(** [append_to_sheet(item_name, amount, category, date=None,
    currency="€", note="")] *)
Definition append_to_sheet (item_name : string) (amount : number)
    (category : string) (date : option string) (currency : string)
    (note : string) : Py.M ledger string :=
  Py.try_except
    (open_sheet ;;
     t <- clock ;;
     let timestamp := timestamp_for date t in
     let amount_str := str_number amount +:+ currency in
     let full_note := note in
     let row_data := [timestamp; item_name; amount_str; category; full_note] in
     all_values <- get_all_values ;;
     let existing_rows := len all_values in
     let row_id := existing_rows + 1 in
     append_row row_data ;;
     let date_only := Text.before_space timestamp in
     Py.ret (saved date_only row_id item_name amount_str category))
    (fun e => Py.ret ("❌ Recording failed, error details: " +:+ Py.str_exn e)).

(** The slack [delete_specific_row] adds to the row count. *)
Definition slack : Z := 5.

(** [delete_specific_row(row_id)] *)
Definition delete_specific_row (row_id : Z) : Py.M ledger string :=
  Py.try_except
    (open_sheet ;;
     let row_int := row_id in
     all_values <- get_all_values ;;
     if (row_int <? 1) || (row_int >? len all_values + slack)
     then Py.ret (invalid_row_id row_id (len all_values))
     else
       delete_rows row_int ;;
       Py.ret (deleted_record row_id))
    (fun e => Py.ret ("❌ Failed to delete: " +:+ Py.str_exn e)).

(** [delete_last_row()] *)
Definition delete_last_row : Py.M ledger string :=
  Py.try_except
    (open_sheet ;;
     all_values <- get_all_values ;;
     if len all_values <=? 1
     then Py.ret "⚠️ The sheet seems empty (or only has headers)."
     else
       let last_row_index := len all_values in
       delete_rows last_row_index ;;
       Py.ret ("✅ Deleted the last record (Row "
                 +:+ Text.str_Z last_row_index +:+ ")."))
    (fun e => Py.ret ("❌ Failed to delete: " +:+ Py.str_exn e)).

(** [while len(current_row) < 5: current_row.append("")] *)
Definition pad5 (r : row) : row := r ++ replicate (5 - length r) EmptyString.

(** Step 2 of [update_specific_row], the field updates on
    [current_row]; [t] is the clock read when a date is given. *)
Definition overlay (t : Date.datetime) (item_name : option string)
    (amount : option number) (category : option string)
    (date : option string) (currency : string) (note : option string)
    (current_row : row) : row :=
  let current_row :=
    match date with
    | Some d =>
        if Text.nonempty d
        then <[ 0%nat := d +:+ String " " (Date.strftime_HMS t) ]> current_row
        else current_row
    | None => current_row
    end in
  let current_row :=
    match item_name with
    | Some s => if Text.nonempty s then <[ 1%nat := s ]> current_row
                else current_row
    | None => current_row
    end in
  let current_row :=
    match amount with
    | Some a => <[ 2%nat := str_number a +:+ currency ]> current_row
    | None => current_row
    end in
  let current_row :=
    match category with
    | Some s => if Text.nonempty s then <[ 3%nat := s ]> current_row
                else current_row
    | None => current_row
    end in
  match note with
  | Some s => if Text.nonempty s then <[ 4%nat := s ]> current_row
              else current_row
  | None => current_row
  end.

(** [f"⚠️ Row {row_id} seems empty or invalid."] *)
Definition row_empty (row_id : Z) : string :=
  "⚠️ Row " +:+ Text.str_Z row_id +:+ " seems empty or invalid.".

(** [update_specific_row(row_id, item_name=None, amount=None,
    category=None, date=None, currency="€", note=None)] *)
Definition update_specific_row (row_id : Z) (item_name : option string)
    (amount : option number) (category : option string)
    (date : option string) (currency : string) (note : option string)
    : Py.M ledger string :=
  Py.try_except
    (open_sheet ;;
     let row_int := row_id in
     cell_values <- get_range row_int ;;
     match cell_values with
     | [] | [] :: _ => Py.ret (row_empty row_id)
     | r0 :: _ =>
         let current_row := pad5 r0 in
         t <- clock ;;
         let current_row :=
           overlay t item_name amount category date currency note current_row in
         update_range row_int current_row ;;
         Py.ret (updated_record row_id current_row)
     end)
    (fun e => Py.ret ("❌ Failed to update: " +:+ Py.str_exn e)).

(** [get_sheet_url()] *)
Definition get_sheet_url : Py.M ledger string :=
  w <- Py.get ;;
  if truthy (sheet_id w)
  then Py.ret ("https://docs.google.com/spreadsheets/d/"
                 +:+ default EmptyString (sheet_id w))
  else Py.ret "❌ Error: GOOGLE_SHEET_ID not found in .env".

End Tools.

(** ** [tools.py]: [calculate_total] *)

Module Total.

Import Sheet.
Local Open Scope py_scope.

(** [re.sub(r'[^\d.,-]', '', s).replace(',', '.')] *)
Definition keeps (c : Z) : bool :=
  Text.is_decimal c || Text.is_char "." c || Text.is_char "," c
    || Text.is_char "-" c.

Definition comma_to_dot (c : Z) : Z :=
  if Text.is_char "," c then Text.byte "." else c.

(** The characters of the cleaned text. *)
Definition clean (s : string) : list Z :=
  map comma_to_dot (filter (fun c => keeps c = true) (Text.code_points s)).

(** The result shown for a table of at most one row. *)
Definition sheet_empty : string := "0.00 (Sheet empty)".

(** The text of the [ValueError] of [strptime]. *)
Definition strptime_error (s : string) (f : Date.failure) : string :=
  match f with
  | Date.NoMatch =>
      "time data " +:+ Text.repr s +:+ " does not match format '%Y-%m-%d'"
  | Date.Unconverted rest =>
      "unconverted data remains: " +:+ Text.of_code_points rest
  | Date.YearZero => "year 0 is out of range"
  | Date.DayOutOfRange => "day is out of range for month"
  end.

(** [datetime.datetime.strptime(s, "%Y-%m-%d")], raising. *)
Definition strptime (s : string) : Py.M ledger Date.datetime :=
  match Date.parse_ymd (Text.code_points s) with
  | inr dt => Py.ret dt
  | inl f => Py.raise (Py.Other (strptime_error s f))
  end.

(** The body of [for row in all_values:], with [total] and [row_count]
    as the loop state; each [continue] leaves them as they are. *)
Definition scan_row (start_dt end_dt : option Date.datetime)
    (acc : spec_float * Z) (r : row) : spec_float * Z :=
  let '(total, row_count) := acc in
  if Tools.len r <? 3 then acc
  else
    let date_str := Tools.cell r 0 in
    let amount_str := Tools.cell r 2 in
    match Date.strptime_ymd (Text.prefix 10 date_str) with
    | None => acc
    | Some row_date_dt =>
        if match start_dt with
           | Some s => Date.ltb row_date_dt s
           | None => false
           end then acc
        else if match end_dt with
                | Some e => Date.ltb e row_date_dt
                | None => false
                end then acc
        else
          let clean_str := clean amount_str in
          match Float.parse clean_str with
          | Some val => (Float.add total val, row_count + 1)
          | None => acc
          end
    end.

Definition scan (start_dt end_dt : option Date.datetime) (rows : list row)
  : spec_float * Z :=
  fold_left (scan_row start_dt end_dt) rows (Float.zero, 0).

(** [calculate_total(start_date=None, end_date=None)] *)
Definition calculate_total (start_date end_date : option string)
  : Py.M ledger string :=
  Py.try_except
    (open_sheet ;;
     all_values <- get_all_values ;;
     if Tools.len all_values <=? 1 then Py.ret sheet_empty
     else
       start_dt <-
         (if Tools.truthy start_date
          then (d <- strptime (default EmptyString start_date) ;; Py.ret (Some d))
          else Py.ret None) ;;
       end_dt <-
         (if Tools.truthy end_date
          then (d <- strptime (default EmptyString end_date) ;;
                Py.ret (Some (Date.end_of_day d)))
          else Py.ret None) ;;
       let '(total, _) := scan start_dt end_dt all_values in
       Py.ret (Float.format_2f total))
    (fun e => Py.ret ("Error: " +:+ Py.str_exn e)).

(** *** The total as the specification words it

    A row counts when its first ten characters parse as a date that
    lies within the inclusive range of dates (a bound that is omitted
    is open) and its amount text, cleaned, parses as a number. *)

Definition ymd (d : Date.datetime) : list Z :=
  [Date.year d; Date.month d; Date.day d].

(** [a] is a date before [b]. *)
Definition date_ltb (a b : Date.datetime) : bool :=
  Date.lex_ltb (ymd a) (ymd b).

Definition within (first last : option Date.datetime) (d : Date.datetime)
  : bool :=
  negb (match first with Some s => date_ltb d s | None => false end)
  && negb (match last with Some e => date_ltb e d | None => false end).

(** A bound of the range: omitted ([None] or the empty text), or a
    date that has to parse. *)
Definition bound_of (arg : option string) : option (option Date.datetime) :=
  if Tools.truthy arg
  then option_map Some
         (Date.strptime_ymd (Text.code_points (default EmptyString arg)))
  else Some None.

Definition row_date (r : row) : option Date.datetime :=
  match r with
  | c :: _ => Date.strptime_ymd (Text.prefix 10 c)
  | [] => None
  end.

Definition row_value (r : row) : option spec_float :=
  match r with
  | _ :: _ :: a :: _ => Float.parse (clean a)
  | _ => None
  end.

Definition counted (first last : option Date.datetime) (r : row)
  : option spec_float :=
  match row_date r with
  | Some d => if within first last d then row_value r else None
  | None => None
  end.

(** The amounts of the rows that count, in table order. *)
Definition counted_values (first last : option Date.datetime)
    (rows : list row) : list spec_float :=
  omap (counted first last) rows.

Definition float_sum (l : list spec_float) : spec_float :=
  fold_left Float.add l Float.zero.

(** A [datetime] with no time of day, as [strptime] gives for a date. *)
Definition midnight (d : Date.datetime) : Prop :=
  Date.hour d = 0 /\ Date.minute d = 0 /\ Date.second d = 0.

Definition all_midnight (o : option Date.datetime) : Prop :=
  match o with Some d => midnight d | None => True end.

End Total.

(** ** [ai_engine.py]: messages, tool calls and the model service *)

Module Engine.

Import Sheet.
Local Open Scope py_scope.

(** The keyword arguments a tool call carries, decoded.  Every
    parameter name of the tool schema is a field, absent ([None]) or
    present with a value of its declared type; [kw_other] lists the
    keys that no schema declares, and [kw_order] the keys in the order
    of the JSON object. *)
Record kwargs := mk_kwargs {
  kw_item_name : option string;
  kw_amount : option Tools.number;
  kw_category : option string;
  kw_date : option string;
  kw_currency : option string;
  kw_note : option string;
  kw_row_id : option Z;
  kw_start_date : option string;
  kw_end_date : option string;
  kw_summary : option string;
  kw_start_time_str : option string;
  kw_duration_minutes : option Z;
  kw_max_results : option Z;
  kw_event_id : option string;
  kw_other : list string;
  kw_order : list string
}.

Definition no_kwargs : kwargs :=
  mk_kwargs None None None None None None None None None None None None
    None None [] [].

(** What [json.loads] makes of the argument text. *)
Inductive py_args :=
| ArgsObject (kw : kwargs)            (* a JSON object *)
| ArgsOther (type_name : string).     (* any other JSON value *)

(** [tool_call.function.arguments], given by what [json.loads] does on
    it: it raises, or returns a value. *)
Inductive arguments :=
| Malformed (detail : string)
| Wellformed (v : py_args).

Record tool_call := mk_tool_call {
  tc_id : string;
  tc_name : string;
  tc_arguments : arguments
}.

Inductive role := system | user | assistant | tool.

(** A message of the conversation (a Python dict). *)
Record message := mk_message {
  msg_role : role;
  content : option string;
  tool_calls : option (list tool_call);
  tool_call_id : option string;
  name : option string
}.

(** [response_message.model_dump()] *)
Definition model_dump (c : option string) (tcs : option (list tool_call))
  : message :=
  mk_message assistant c tcs None None.

(** [{"tool_call_id": ..., "role": "tool", "name": ..., "content": ...}] *)
Definition tool_message (tc : tool_call) (tool_result : string) : message :=
  mk_message tool (Some tool_result) None (Some (tc_id tc)) (Some (tc_name tc)).

(** A request to the model service: the messages, and whether the tool
    schemas go with them. *)
Record request := mk_request {
  req_messages : list message;
  req_tools : bool
}.

(** What one attempt at the service gives: a model turn, or a failure
    (with whether the client library counts it as worth a retry). *)
Inductive outcome :=
| Completed (c : option string) (tcs : option (list tool_call))
| Failed (e : Py.exn) (retryable : bool).

(** The service is an oracle: the outcome of the [i]-th attempt of the
    process on a given request. *)
Definition service : Type := nat -> request -> outcome.

(** The state [get_agent_response] works on: the conversation list it
    was handed (and mutates in place), the attempts made at the model
    service so far, and the ledger the handlers act on. *)
Record state := mk_state {
  history : list message;
  attempts : list request;
  backend : ledger
}.

Definition with_backend (w : ledger) (s : state) : state :=
  mk_state (history s) (attempts s) w.

(** The state after one more attempt at the service. *)
Definition logged (req : request) (s : state) : state :=
  mk_state (history s) (attempts s ++ [req]) (backend s).

(** [conversation_history.append(m)] *)
Definition append_history (m : message) : Py.M state unit :=
  Py.modify (fun s => mk_state (history s ++ [m]) (attempts s) (backend s)).

(** [client = AsyncOpenAI(api_key=api_key, max_retries=0)] *)
Definition max_retries : nat := 0.

(** One call of [client.chat.completions.create]: attempts are made
    until one completes, fails for good, or the retries run out. *)
Fixpoint create_with (svc : service) (retries : nat) (req : request)
  : Py.M state (option string * option (list tool_call)) :=
  fun s =>
    let i := length (attempts s) in
    let s' := logged req s in
    match svc i req with
    | Completed c tcs => (inr (c, tcs), s')
    | Failed e retryable =>
        match retries with
        | S n => if retryable then create_with svc n req s' else (inl e, s')
        | O => (inl e, s')
        end
    end.

Definition create (svc : service) (req : request)
  : Py.M state (option string * option (list tool_call)) :=
  create_with svc max_retries req.

(** [json.loads(tool_call.function.arguments)] *)
Definition json_loads {S} (a : arguments) : Py.M S py_args :=
  match a with
  | Malformed d => Py.raise (Py.Other d)
  | Wellformed v => Py.ret v
  end.

(** The functions of the [tools] module as the engine calls them:
    [tools.f()] for the two without parameters, [tools.f( **args)] for
    the others (the call binds [args] to the parameters of [f], which
    can raise). *)
Record tools_module := mk_tools {
  t_get_sheet_url : Py.M ledger string;
  t_append_to_sheet : py_args -> Py.M ledger string;
  t_create_calendar_event : py_args -> Py.M ledger string;
  t_list_calendar_events : py_args -> Py.M ledger string;
  t_update_calendar_event : py_args -> Py.M ledger string;
  t_delete_calendar_event : py_args -> Py.M ledger string;
  t_delete_last_row : Py.M ledger string;
  t_delete_specific_row : py_args -> Py.M ledger string;
  t_update_specific_row : py_args -> Py.M ledger string;
  t_calculate_total : py_args -> Py.M ledger string
}.

Definition unknown_tool : string := "Error: Unknown tool".

Definition quota_advice : string :=
  "⚠️ Error: OpenAI API Quota Exceeded (429). Please check your billing details at platform.openai.com.".

Definition auth_advice : string :=
  "⚠️ Error: OpenAI API Key is invalid. Please check your .env file.".

Definition system_error (detail : string) : string :=
  "⚠️ System error: " +:+ detail.

(** The reply of the three [except] clauses. *)
Definition advice_text (e : Py.exn) : string :=
  match e with
  | Py.RateLimitError _ => quota_advice
  | Py.AuthenticationError _ => auth_advice
  | Py.Other d => system_error d
  end.

Section Loop.

Variable tools : tools_module.
Variable svc : service.

(** The [if]/[elif] chain on [function_name]. *)
Definition dispatch (function_name : string) (args : py_args)
  : Py.M ledger string :=
  if String.eqb function_name "get_sheet_url" then t_get_sheet_url tools
  else if String.eqb function_name "append_to_sheet"
  then t_append_to_sheet tools args
  else if String.eqb function_name "create_calendar_event"
  then t_create_calendar_event tools args
  else if String.eqb function_name "list_calendar_events"
  then t_list_calendar_events tools args
  else if String.eqb function_name "update_calendar_event"
  then t_update_calendar_event tools args
  else if String.eqb function_name "delete_calendar_event"
  then t_delete_calendar_event tools args
  else if String.eqb function_name "delete_last_row"
  then t_delete_last_row tools
  else if String.eqb function_name "delete_specific_row"
  then t_delete_specific_row tools args
  else if String.eqb function_name "update_specific_row"
  then t_update_specific_row tools args
  else if String.eqb function_name "calculate_total"
  then t_calculate_total tools args
  else Py.ret unknown_tool.

(** The body of [for tool_call in response_message.tool_calls:] *)
Definition run_tool_call (tc : tool_call) : Py.M state unit :=
  let function_name := tc_name tc in
  args <- json_loads (tc_arguments tc) ;;
  tool_result <- Py.zoom backend with_backend (dispatch function_name args) ;;
  append_history (tool_message tc tool_result).

Fixpoint run_tool_calls (tcs : list tool_call) : Py.M state unit :=
  match tcs with
  | [] => Py.ret tt
  | tc :: rest => run_tool_call tc ;; run_tool_calls rest
  end.

(** The [try] block of [get_agent_response]. *)
Definition respond : Py.M state (option string) :=
  s <- Py.get ;;
  response_message <- create svc (mk_request (history s) true) ;;
  let '(c, tcs) := response_message in
  match tcs with
  | Some (tc :: rest) =>
      append_history (model_dump c tcs) ;;
      run_tool_calls (tc :: rest) ;;
      s <- Py.get ;;
      final_response <- create svc (mk_request (history s) false) ;;
      Py.ret (fst final_response)
  | Some [] | None => Py.ret c
  end.

(** The three [except] clauses. *)
Definition advise (e : Py.exn) : Py.M state (option string) :=
  Py.ret (Some (advice_text e)).

(** [get_agent_response(conversation_history)] *)
Definition get_agent_response : Py.M state (option string) :=
  Py.try_except respond advise.

(** A request returns when its arguments decode and the call of its
    handler comes back with a text, whatever the ledger holds. *)
Definition returns (tc : tool_call) : Prop :=
  exists args,
    tc_arguments tc = Wellformed args
    /\ forall w, exists txt w',
         dispatch (tc_name tc) args w = (inr txt, w').

End Loop.

End Engine.

(** ** The [tools] module as the engine sees it

    A call [tools.f( **args)] first binds the decoded arguments to the
    parameters of [f]: a value that is no mapping, a key that is no
    parameter of [f], or a required parameter without a key raise
    [TypeError] before the body of [f] (and its own [try]) is entered. *)

Module Call.

Import Sheet Engine.
Local Open Scope py_scope.

Definition given {A} (key : string) (o : option A) : list string :=
  match o with Some _ => [key] | None => [] end.

(** The keys of the decoded mapping. *)
Definition keys (kw : kwargs) : list string :=
  given "item_name" (kw_item_name kw) ++ given "amount" (kw_amount kw)
    ++ given "category" (kw_category kw) ++ given "date" (kw_date kw)
    ++ given "currency" (kw_currency kw) ++ given "note" (kw_note kw)
    ++ given "row_id" (kw_row_id kw)
    ++ given "start_date" (kw_start_date kw)
    ++ given "end_date" (kw_end_date kw)
    ++ given "summary" (kw_summary kw)
    ++ given "start_time_str" (kw_start_time_str kw)
    ++ given "duration_minutes" (kw_duration_minutes kw)
    ++ given "max_results" (kw_max_results kw)
    ++ given "event_id" (kw_event_id kw)
    ++ kw_other kw.

Definition mem (k : string) (l : list string) : bool :=
  existsb (String.eqb k) l.

Definition quoted (k : string) : string := String "'" k +:+ "'".

(** ['a'], ['a' and 'b'], ['a', 'b', and 'c'] *)
Definition name_list (l : list string) : string :=
  match l with
  | [] => EmptyString
  | [a] => quoted a
  | [a; b] => quoted a +:+ " and " +:+ quoted b
  | a :: rest =>
      quoted a +:+ ", "
        +:+ (fix tail (l : list string) : string :=
               match l with
               | [] => EmptyString
               | [z] => "and " +:+ quoted z
               | y :: l' => quoted y +:+ ", " +:+ tail l'
               end) rest
  end.

Definition missing_error (f : string) (missing : list string) : Py.exn :=
  Py.Other (f +:+ "() missing " +:+ Text.str_Z (Tools.len missing)
              +:+ " required positional argument"
              +:+ (if Tools.len missing =? 1 then ": " else "s: ")
              +:+ name_list missing).

Definition unexpected_error (f k : string) : Py.exn :=
  Py.Other (f +:+ "() got an unexpected keyword argument " +:+ quoted k).

Definition mapping_error (f type_name : string) : Py.exn :=
  Py.Other ("tools." +:+ f +:+ "() argument after ** must be a mapping, not "
              +:+ type_name).

(** The keys in the order Python meets them: the order of the JSON
    object (a key that order leaves out comes after those it lists). *)
Definition ordered_keys (kw : kwargs) : list string :=
  filter (fun k => mem k (keys kw) = true) (kw_order kw) ++ keys kw.

(** The part of binding that does not depend on the values: [args] is
    a mapping, every key is a parameter (the first that is not is
    named in the error), every required parameter has a key. *)
Definition bind {S} (f : string) (required optional : list string)
    (args : py_args) : Py.M S kwargs :=
  match args with
  | ArgsOther ty => Py.raise (mapping_error f ty)
  | ArgsObject kw =>
      match filter (fun k => mem k (required ++ optional) = false)
              (ordered_keys kw) with
      | k :: _ => Py.raise (unexpected_error f k)
      | [] =>
          match filter (fun k => mem k (keys kw) = false) required with
          | [] => Py.ret kw
          | missing => Py.raise (missing_error f missing)
          end
      end
  end.

(** Reading a required parameter after [bind] has passed. *)
Definition required {S A} (f key : string) (o : option A) : Py.M S A :=
  match o with
  | Some a => Py.ret a
  | None => Py.raise (missing_error f [key])
  end.

Definition attribute_error (f : string) : Py.exn :=
  Py.Other ("module 'tools' has no attribute " +:+ quoted f).

Section WithCalendar.

(** The body of [create_calendar_event], which talks to the calendar
    collaborator only. *)
Variable create_calendar_event : string -> string -> Z -> Py.M ledger string.

Definition call_append_to_sheet (args : py_args) : Py.M ledger string :=
  kw <- bind "append_to_sheet" ["item_name"; "amount"; "category"]
          ["date"; "currency"; "note"] args ;;
  item_name <- required "append_to_sheet" "item_name" (kw_item_name kw) ;;
  amount <- required "append_to_sheet" "amount" (kw_amount kw) ;;
  category <- required "append_to_sheet" "category" (kw_category kw) ;;
  Tools.append_to_sheet item_name amount category (kw_date kw)
    (default "€" (kw_currency kw)) (default EmptyString (kw_note kw)).

Definition call_create_calendar_event (args : py_args) : Py.M ledger string :=
  kw <- bind "create_calendar_event" ["summary"; "start_time_str"]
          ["duration_minutes"] args ;;
  summary <- required "create_calendar_event" "summary" (kw_summary kw) ;;
  start_time_str <- required "create_calendar_event" "start_time_str"
                      (kw_start_time_str kw) ;;
  create_calendar_event summary start_time_str
    (default 60 (kw_duration_minutes kw)).

Definition call_delete_specific_row (args : py_args) : Py.M ledger string :=
  kw <- bind "delete_specific_row" ["row_id"] [] args ;;
  row_id <- required "delete_specific_row" "row_id" (kw_row_id kw) ;;
  Tools.delete_specific_row row_id.

Definition call_update_specific_row (args : py_args) : Py.M ledger string :=
  kw <- bind "update_specific_row" ["row_id"]
          ["item_name"; "amount"; "category"; "date"; "currency"; "note"]
          args ;;
  row_id <- required "update_specific_row" "row_id" (kw_row_id kw) ;;
  Tools.update_specific_row row_id (kw_item_name kw) (kw_amount kw)
    (kw_category kw) (kw_date kw) (default "€" (kw_currency kw))
    (kw_note kw).

Definition call_calculate_total (args : py_args) : Py.M ledger string :=
  kw <- bind "calculate_total" [] ["start_date"; "end_date"] args ;;
  Total.calculate_total (kw_start_date kw) (kw_end_date kw).

(** [tools.py] defines no [list_calendar_events],
    [update_calendar_event] or [delete_calendar_event]: looking the
    name up in the module raises [AttributeError]. *)
Definition py_tools : tools_module :=
  {| t_get_sheet_url := Tools.get_sheet_url;
     t_append_to_sheet := call_append_to_sheet;
     t_create_calendar_event := call_create_calendar_event;
     t_list_calendar_events :=
       fun _ => Py.raise (attribute_error "list_calendar_events");
     t_update_calendar_event :=
       fun _ => Py.raise (attribute_error "update_calendar_event");
     t_delete_calendar_event :=
       fun _ => Py.raise (attribute_error "delete_calendar_event");
     t_delete_last_row := Tools.delete_last_row;
     t_delete_specific_row := call_delete_specific_row;
     t_update_specific_row := call_update_specific_row;
     t_calculate_total := call_calculate_total |}.

End WithCalendar.

End Call.

(** ** [main.py]: the conversation store *)

Module Main.

Import Sheet Engine.

(** What the process reads from its surroundings: the persona template
    [SYSTEM_PROMPT] (a function of the time text put into it) and
    [os.getenv("AUTHORIZED_USER_ID")]. *)
Record config := mk_config {
  system_prompt : string -> string;
  authorized_user_id : option string
}.

(** [memory.json]: absent, unreadable, or the snapshot last written. *)
Inductive file :=
| Absent
| Unreadable
| Saved (data : gmap Z (list message)).

Record bot := mk_bot {
  user_conversations : gmap Z (list message);
  memory_file : file;
  disk_writable : bool;         (* whether [open(MEMORY_FILE, 'w')] succeeds *)
  service_log : list request;   (* attempts made at the model service *)
  world : ledger
}.

Definition with_conversations (m : gmap Z (list message)) (b : bot) : bot :=
  mk_bot m (memory_file b) (disk_writable b) (service_log b) (world b).

(** [load_memory()] *)
Definition load_memory (b : bot) : bot :=
  match memory_file b with
  | Saved data => with_conversations data b
  | Absent | Unreadable => with_conversations ∅ b
  end.

(** [save_memory()] *)
Definition save_memory (b : bot) : bot :=
  if disk_writable b
  then mk_bot (user_conversations b) (Saved (user_conversations b))
         (disk_writable b) (service_log b) (world b)
  else b.

(** [{"role": "system", "content": SYSTEM_PROMPT.format(current_time=...)}] *)
Definition system_message (cfg : config) (b : bot) : message :=
  let current_time := Date.strftime_minutes (now (world b)) in
  mk_message system (Some (system_prompt cfg current_time)) None None None.

(** [user_conversations[user_id].append(m)] *)
Definition append_message (user_id : Z) (m : message) (b : bot) : bot :=
  with_conversations
    (<[ user_id := default [] (user_conversations b !! user_id) ++ [m] ]>
       (user_conversations b)) b.

(** [start]: the [/start] command. *)
Definition start (cfg : config) (user_id : Z) (b : bot) : bot :=
  with_conversations
    (<[ user_id := [system_message cfg b] ]> (user_conversations b)) b.

(** [str(user_id) != auth_id_str] *)
Definition unauthorized (cfg : config) (user_id : Z) : bool :=
  match authorized_user_id cfg with
  | Some a => negb (String.eqb (Text.str_Z user_id) a)
  | None => true
  end.

(** [handle_message]: the engine is handed the very list stored for
    the user, so what it appends stays in the store. *)
Definition handle_message (cfg : config) (tools : tools_module)
    (svc : service) (user_id : Z) (user_text : string) (b : bot) : bot :=
  if unauthorized cfg user_id then b
  else
    let b :=
      match user_conversations b !! user_id with
      | Some _ => b
      | None =>
          save_memory
            (with_conversations
               (<[ user_id := [system_message cfg b] ]> (user_conversations b)) b)
      end in
    let b :=
      save_memory
        (append_message user_id
           (mk_message user (Some user_text) None None None) b) in
    let s :=
      mk_state (default [] (user_conversations b !! user_id))
        (service_log b) (world b) in
    let '(r, s') := get_agent_response tools svc s in
    let b :=
      mk_bot (<[ user_id := history s' ]> (user_conversations b))
        (memory_file b) (disk_writable b) (attempts s') (backend s') in
    match r with
    | inr ai_reply =>
        save_memory
          (append_message user_id
             (mk_message assistant ai_reply None None None) b)
    | inl _ => b
    end.

(** One step of the process or of its surroundings. *)
Inductive step (cfg : config) (tools : tools_module) (svc : service)
  : bot -> bot -> Prop :=
| step_start user_id b :
    step cfg tools svc b (start cfg user_id b)
| step_message user_id user_text b :
    step cfg tools svc b (handle_message cfg tools svc user_id user_text b)
| step_restart b :
    step cfg tools svc b (load_memory b)
| step_surroundings w writable b :
    step cfg tools svc b
      (mk_bot (user_conversations b) (memory_file b) writable (service_log b) w).

(** The states a process can reach from its first start, with no
    usable memory file yet. *)
Inductive reachable (cfg : config) (tools : tools_module) (svc : service)
  : bot -> Prop :=
| reach_fresh b :
    memory_file b = Absent ->
    reachable cfg tools svc (load_memory b)
| reach_unreadable b :
    memory_file b = Unreadable ->
    reachable cfg tools svc (load_memory b)
| reach_step b b' :
    reachable cfg tools svc b -> step cfg tools svc b b' ->
    reachable cfg tools svc b'.

(** The invariant of a conversation: it is not empty and starts with
    the system message. *)
Definition starts_with_system (c : list message) : Prop :=
  exists m rest, c = m :: rest /\ msg_role m = system.

Definition store_ok (m : gmap Z (list message)) : Prop :=
  forall user_id c, m !! user_id = Some c -> starts_with_system c.

Definition file_ok (f : file) : Prop :=
  match f with
  | Saved data => store_ok data
  | Absent | Unreadable => True
  end.

(** Every conversation in memory and in the memory file starts with
    the system message. *)
Definition invariant (b : bot) : Prop :=
  store_ok (user_conversations b) /\ file_ok (memory_file b).

End Main.

(** ** Sample data used in the concrete runs below *)

Module Sample.

Import Sheet Engine.

(** 21 January 2026, 09:05:07. *)
Definition clock : Date.datetime := Date.mk_datetime 2026 1 21 9 5 7.

Definition table : list row :=
  [ ["2026-01-05"; "Coffee"; "3.50€"];
    ["2026-02-01"; "Rent"; "800€"] ].

Definition ledger0 : ledger :=
  mk_ledger table None "invalid range" clock (Some "sheet-1").

(** The same ledger behind a failing connection. *)
Definition ledger_down : ledger :=
  mk_ledger table (Some "connection refused") "invalid range" clock
    (Some "sheet-1").

(** The same ledger a day later, at 10:30:00. *)
Definition later (w : ledger) : ledger :=
  mk_ledger (sheet w) (backend_fault w) (bad_range w)
    (Date.mk_datetime 2026 1 22 10 30 0) (sheet_id w).

(** A table with one expense and no header row. *)
Definition single : ledger :=
  mk_ledger [ ["2026-01-05"; "Coffee"; "3.50€"] ] None "invalid range" clock
    (Some "sheet-1").

Definition conversation : list message :=
  [ mk_message system (Some "persona") None None None;
    mk_message user (Some "undo that, then show me the sheet") None None None ].

Definition state0 : state := mk_state conversation [] ledger0.

(** Two well-formed requests. *)
Definition undo : tool_call :=
  mk_tool_call "call_1" "delete_last_row" (Wellformed (ArgsObject no_kwargs)).

Definition show : tool_call :=
  mk_tool_call "call_2" "get_sheet_url" (Wellformed (ArgsObject no_kwargs)).

(** A request for [append_to_sheet] that lacks all three required
    arguments. *)
Definition bare_append : tool_call :=
  mk_tool_call "call_0" "append_to_sheet" (Wellformed (ArgsObject no_kwargs)).

(** The text of the [TypeError] of that call. *)
Definition bare_append_error : string :=
  "append_to_sheet() missing 3 required positional arguments: 'item_name', 'amount', and 'category'".

(** The calendar collaborator is not exercised by the samples. *)
Definition calendar : string -> string -> Z -> Py.M ledger string :=
  fun _ _ _ => Py.ret "calendar".

Definition tools : tools_module := Call.py_tools calendar.

(** A service whose first turn requests [calls] and whose later turns
    are the text [final]. *)
Definition service_requesting (calls : list tool_call) (final : string)
  : service :=
  fun i _ =>
    match i with
    | O => Completed None (Some calls)
    | S _ => Completed (Some final) None
    end.

(** A service whose every turn is the text [final]. *)
Definition service_text (final : string) : service :=
  fun _ _ => Completed (Some final) None.

(** A service whose first turn requests [calls] and whose later
    attempts fail with [e], marked retryable. *)
Definition service_failing_second (calls : list tool_call) (e : Py.exn)
  : service :=
  fun i _ =>
    match i with
    | O => Completed None (Some calls)
    | S _ => Failed e true
    end.

(** A service that fails every attempt with [e], marked retryable. *)
Definition service_failing (e : Py.exn) : service :=
  fun _ _ => Failed e true.

Definition config : Main.config :=
  Main.mk_config (fun t => "persona at " +:+ t) (Some "42").

Definition bot0 : Main.bot :=
  Main.mk_bot ∅ Main.Absent true [] ledger0.

End Sample.

(** ** The overlay of [update_specific_row] as the specification words it

    "Only None/absence suppresses overwrite": a text field that is given
    replaces the stored one, whatever it is. *)

Module Claimed.

Import Engine.

(** "Exactly one tool-role Message per request, in request order, each
    carrying the tool_call_id of its request": the tool messages among
    the appended ones, read in order, name the requests in order. *)
Definition is_tool (m : message) : bool :=
  match msg_role m with tool => true | _ => false end.

Definition tool_ids (appended : list message) : list (option string) :=
  map tool_call_id (List.filter is_tool appended).

Definition one_message_per_request (appended : list message)
    (requests : list tool_call) : Prop :=
  tool_ids appended = map (fun tc => Some (tc_id tc)) requests.

(** "The loop converts the exception into an error-text ToolResult
    appended as a tool-role Message, and the remaining requests and
    round 2 still execute": the failing request has its message, and
    a second request went to the model service. *)
Definition fails_soft (before after : state) (failing : tool_call) : Prop :=
  In (Some (tc_id failing))
     (tool_ids (drop (length (history before)) (history after)))
  /\ length (attempts after) = S (S (length (attempts before))).

(** "The supplied date concatenated with the current wall-clock time
    of day at the moment of the call." *)
Definition stamped (date : string) (t : Date.datetime) : string :=
  date +:+ String " " (Date.strftime_HMS t).

(** "Never reach the tool-dispatch phase, bypass round 2 entirely":
    the invocation leaves the conversation and the ledger as they
    were and makes one request of the model service. *)
Definition short_circuits (before after : state) : Prop :=
  history after = history before
  /\ backend after = backend before
  /\ length (attempts after) = S (length (attempts before)).

Definition overlay_text (given : option string) (stored : string) : string :=
  match given with
  | Some s => s
  | None => stored
  end.

End Claimed.

(** ** The texts of [delete_last_row] *)

Module Undo.

(** ["⚠️ The sheet seems empty (or only has headers)."] *)
Definition nothing_to_delete : string :=
  "⚠️ The sheet seems empty (or only has headers).".

(** [f"✅ Deleted the last record (Row {last_row_index})."] *)
Definition deleted_last (last_row_index : Z) : string :=
  "✅ Deleted the last record (Row " +:+ Text.str_Z last_row_index +:+ ").".

End Undo.

(** ** Counting the separators of an amount text *)

Module Amount.

(** The dots of a list of characters. *)
Definition dots (l : list Z) : nat :=
  length (filter (fun c => Text.is_char "." c = true) l).

(** The dots and commas of a text. *)
(** The ASCII digits: bytes 48 to 57, each read as its value. *)
Definition digit_byte (b : Z) : Prop :=
  Text.is_decimal b = true /\ Text.decimal_val b = b - 48
  /\ Text.is_char "." b = false /\ Text.is_char "," b = false
  /\ Text.is_char "-" b = false /\ (b <? 128) = true.

Definition separators (s : string) : nat :=
  length
    (filter (fun c => Text.is_char "." c || Text.is_char "," c = true)
       (Text.code_points s)).

End Amount.

(** ** The clock as the process reads it *)

Module Stamp.

(** A date of the calendar with a four-digit year, as
    [datetime.datetime.now()] gives. *)
Definition valid (t : Date.datetime) : Prop :=
  1000 <= Date.year t <= 9999
  /\ 1 <= Date.month t <= 12
  /\ 1 <= Date.day t
  /\ Date.day t <= Date.days_in_month (Date.year t) (Date.month t).

(** The day of a time, at midnight. *)
Definition date_of (t : Date.datetime) : Date.datetime :=
  Date.mk_datetime (Date.year t) (Date.month t) (Date.day t) 0 0 0.

(** The bytes of a text. *)
Definition bytes (s : string) : list Z := map Text.byte (Text.chars s).

(** A text of ASCII characters only. *)
Definition ascii (s : string) : bool :=
  forallb (fun b => b <? 128) (bytes s).

End Stamp.

(** ** The tools the engine offers *)

Module Schema.

(** The names of [TOOLS_SCHEMA], in its order. *)
Definition names : list string :=
  [ "get_sheet_url"; "append_to_sheet"; "create_calendar_event";
    "list_calendar_events"; "update_calendar_event"; "delete_calendar_event";
    "delete_last_row"; "delete_specific_row"; "update_specific_row";
    "calculate_total" ].

(** The three of them [tools.py] does not define. *)
Definition undefined_names : list string :=
  [ "list_calendar_events"; "update_calendar_event"; "delete_calendar_event" ].

End Schema.

(** * Properties of the ledger handlers *)

Module LedgerFacts.

Import Sheet Tools.

Lemma len_app {A} (l : list A) (x : A) : len (l ++ [x]) = len l + 1.
Proof. unfold len. rewrite length_app. simpl. lia. Qed.


(** What a run of [append_to_sheet] does when the backend answers. *)
Lemma append_to_sheet_run item_name amount category date currency note w :
  backend_fault w = None ->
  append_to_sheet item_name amount category date currency note w
  = (inr (saved (Text.before_space (timestamp_for date (now w)))
            (len (sheet w) + 1) item_name
            (str_number amount +:+ currency) category),
     with_sheet
       (sheet w ++ [[timestamp_for date (now w); item_name;
                     str_number amount +:+ currency; category; note]]) w).
Proof.
  intros Hf. unfold append_to_sheet, Py.try_except, Py.bind, open_sheet.
  rewrite Hf. reflexivity.
Qed.

(** What a failing backend makes of it. *)
Lemma append_to_sheet_fault item_name amount category date currency note w d :
  backend_fault w = Some d ->
  append_to_sheet item_name amount category date currency note w
  = (inr ("❌ Recording failed, error details: " +:+ d), w).
Proof.
  intros Hf. unfold append_to_sheet, Py.try_except, Py.bind, open_sheet.
  rewrite Hf. reflexivity.
Qed.

Lemma delete_specific_row_run row_id w :
  backend_fault w = None ->
  delete_specific_row row_id w
  = if (row_id <? 1) || (row_id >? len (sheet w) + slack)
    then (inr (invalid_row_id row_id (len (sheet w))), w)
    else (inr (deleted_record row_id),
          with_sheet (delete (Z.to_nat (row_id - 1)) (sheet w)) w).
Proof.
  intros Hf. unfold delete_specific_row, Py.try_except, Py.bind, open_sheet.
  rewrite Hf. simpl.
  destruct (row_id <? 1) eqn:E1; simpl; [reflexivity|].
  destruct (row_id >? len (sheet w) + slack) eqn:E2; simpl; [reflexivity|].
  unfold delete_rows. rewrite E1. reflexivity.
Qed.

Lemma invalid_is_not_deleted row_id max k :
  invalid_row_id row_id max <> deleted_record k.
Proof. unfold invalid_row_id, deleted_record. simpl. discriminate. Qed.


(** *** Reading a row back through the five-column range *)

Lemma cell_trim_trailing (l : row) (i : nat) :
  cell (trim_trailing l) i = cell l i.
Proof.
  revert i. induction l as [|c l IH]; intros i; [reflexivity|].
  simpl. destruct (trim_trailing l) as [|x t] eqn:E.
  - destruct (Text.nonempty c) eqn:Ec; destruct i as [|j]; try reflexivity.
    + unfold cell in *. simpl. specialize (IH j). simpl in IH. exact IH.
    + destruct c; [reflexivity | discriminate].
    + unfold cell in *. simpl. specialize (IH j). simpl in IH. exact IH.
  - destruct i as [|j]; [reflexivity|]. unfold cell in *. simpl. apply IH.
Qed.

Lemma length_trim_trailing (l : row) :
  (length (trim_trailing l) <= length l)%nat.
Proof.
  induction l as [|c l IH]; simpl; [lia|].
  destruct (trim_trailing l); [destruct (Text.nonempty c)|]; simpl in *; lia.
Qed.

Lemma cell_take (n i : nat) (r : row) :
  (i < n)%nat -> cell (take n r) i = cell r i.
Proof. intros H. unfold cell. by rewrite lookup_take_lt. Qed.

Lemma cell_pad5 (l : row) (i : nat) : cell (pad5 l) i = cell l i.
Proof.
  unfold cell, pad5. destruct (l !! i) eqn:E.
  - by rewrite (lookup_app_l_Some _ _ _ _ E).
  - apply lookup_ge_None in E. rewrite lookup_app_r by lia.
    destruct (replicate (5 - length l) EmptyString !! (i - length l)%nat) eqn:E2;
      [|reflexivity].
    apply lookup_replicate in E2 as [-> _]. reflexivity.
Qed.

Lemma length_pad5 (l : row) : (length l <= 5)%nat -> length (pad5 l) = 5%nat.
Proof. intros H. unfold pad5. rewrite length_app, length_replicate. lia. Qed.

(** The row [update_specific_row] works on: the five cells of the
    stored row, an absent cell reading as the empty text. *)
Lemma current_row_cells (r : row) :
  pad5 (trim_trailing (take 5 r))
  = [cell r 0; cell r 1; cell r 2; cell r 3; cell r 4].
Proof.
  assert (Hc : forall i, (i < 5)%nat ->
            cell (pad5 (trim_trailing (take 5 r))) i = cell r i).
  { intros i Hi. rewrite cell_pad5, cell_trim_trailing. by apply cell_take. }
  assert (Hl : length (pad5 (trim_trailing (take 5 r))) = 5%nat).
  { apply length_pad5. etrans; [apply length_trim_trailing|].
    rewrite length_take. lia. }
  destruct (pad5 (trim_trailing (take 5 r))) as [|a [|b [|c [|d [|e [|f l]]]]]];
    try discriminate Hl.
  rewrite <- (Hc 0%nat), <- (Hc 1%nat), <- (Hc 2%nat), <- (Hc 3%nat), <- (Hc 4%nat)
    by lia.
  reflexivity.
Qed.

Lemma update_specific_row_run row_id item_name amount category date currency
    note w r :
  backend_fault w = None ->
  1 <= row_id ->
  sheet w !! Z.to_nat (row_id - 1) = Some r ->
  trim_trailing (take 5 r) <> [] ->
  let current_row :=
    overlay (now w) item_name amount category date currency note
      [cell r 0; cell r 1; cell r 2; cell r 3; cell r 4] in
  update_specific_row row_id item_name amount category date currency note w
  = (inr (updated_record row_id current_row),
     with_sheet (<[ Z.to_nat (row_id - 1) := current_row ++ drop 5 r ]> (sheet w)) w).
Proof.
  intros Hf Hk Hr Ht. cbv zeta.
  unfold update_specific_row, Py.try_except, Py.bind, open_sheet.
  rewrite Hf. unfold get_range.
  assert (E1 : (row_id <? 1) = false) by lia. rewrite E1.
  unfold Py.bind, Py.get. rewrite Hr.
  pose proof (current_row_cells r) as Hcells.
  destruct (trim_trailing (take 5 r)) as [|x t] eqn:Et; [done|].
  unfold Py.ret at 1. cbv beta iota. rewrite Hcells.
  unfold clock, update_range. rewrite E1. unfold Py.modify, Py.ret.
  f_equal. unfold write_range.
  assert (Hlt : (Z.to_nat (row_id - 1) < length (sheet w))%nat)
    by (eapply lookup_lt_Some; eauto).
  replace (S (Z.to_nat (row_id - 1)) - length (sheet w))%nat with 0%nat by lia.
  simpl. rewrite app_nil_r. rewrite Hr. reflexivity.
Qed.


Lemma cell_overlay t item_name amount category date currency note a b c d e :
  overlay t item_name amount category date currency note [a; b; c; d; e]
  = [ if truthy date
      then default EmptyString date +:+ String " " (Date.strftime_HMS t) else a;
      if truthy item_name then default EmptyString item_name else b;
      match amount with Some n => str_number n +:+ currency | None => c end;
      if truthy category then default EmptyString category else d;
      if truthy note then default EmptyString note else e ].
Proof.
  unfold overlay, truthy.
  destruct date as [x|]; [destruct (Text.nonempty x)|];
    (destruct item_name as [y|]; [destruct (Text.nonempty y)|]);
    (destruct amount as [n|]);
    (destruct category as [z|]; [destruct (Text.nonempty z)|]);
    (destruct note as [u|]; [destruct (Text.nonempty u)|]); reflexivity.
Qed.




(** C9. [delete_specific_row] checks [1 <= row_id <= row count + slack]
    (the slack is 5) before it removes anything: outside these bounds
    it answers with the bounds error and leaves the table as it is;
    within them it removes the row.  Hence, when row [k] has been
    deleted and the same [k] is deleted again, the bounds error shows
    up the second time only if [k] exceeds the new row count (exactly
    when it exceeds it by more than the slack). *)
Theorem delete_specific_row_checks_bounds row_id w :
  backend_fault w = None ->
  slack = 5
  /\ (row_id < 1 \/ row_id > len (sheet w) + slack ->
      delete_specific_row row_id w
      = (inr (invalid_row_id row_id (len (sheet w))), w))
  /\ (1 <= row_id <= len (sheet w) + slack ->
      exists w1,
        delete_specific_row row_id w = (inr (deleted_record row_id), w1)
        /\ sheet w1 = delete (Z.to_nat (row_id - 1)) (sheet w)
        /\ (forall max,
              fst (delete_specific_row row_id w1)
              = inr (invalid_row_id row_id max) ->
              row_id > len (sheet w1))
        /\ (fst (delete_specific_row row_id w1)
            = inr (invalid_row_id row_id (len (sheet w1)))
            <-> row_id > len (sheet w1) + slack)).
Proof.
  intros Hf. split; [reflexivity|]. split.
  - intros Hout. rewrite delete_specific_row_run by exact Hf.
    replace ((row_id <? 1) || (row_id >? len (sheet w) + slack)) with true;
      [reflexivity|].
    symmetry. apply orb_true_iff. lia.
  - intros Hin.
    exists (with_sheet (delete (Z.to_nat (row_id - 1)) (sheet w)) w).
    split; [|split; [reflexivity|]].
    + rewrite delete_specific_row_run by exact Hf.
      replace ((row_id <? 1) || (row_id >? len (sheet w) + slack)) with false;
        [reflexivity|].
      symmetry. apply orb_false_iff. lia.
    + set (w1 := with_sheet _ w).
      assert (Hf1 : backend_fault w1 = None) by exact Hf.
      rewrite (delete_specific_row_run row_id w1 Hf1).
      destruct ((row_id <? 1) || (row_id >? len (sheet w1) + slack)) eqn:E.
      * apply orb_true_iff in E. unfold slack in *.
        split; [intros; lia | split; [intros; lia | reflexivity]].
      * apply orb_false_iff in E. unfold slack in *. cbn [fst]. split.
        -- intros max H. exfalso.
           apply (invalid_is_not_deleted row_id max row_id). congruence.
        -- split; [|lia]. intros H. exfalso.
           apply (invalid_is_not_deleted row_id (len (sheet w1)) row_id).
           congruence.
Qed.

Lemma delete_specific_row_checks_bounds_witness :
  backend_fault Sample.ledger0 = None
  /\ delete_specific_row 8 Sample.ledger0
     = (inr (invalid_row_id 8 2), Sample.ledger0)
  /\ exists w1,
       delete_specific_row 2 Sample.ledger0 = (inr (deleted_record 2), w1)
       /\ sheet w1 = [ ["2026-01-05"; "Coffee"; "3.50€"] ].
Proof.
  split; [reflexivity|].
  destruct (delete_specific_row_checks_bounds 8 Sample.ledger0 eq_refl)
    as (_ & Hout & _).
  destruct (delete_specific_row_checks_bounds 2 Sample.ledger0 eq_refl)
    as (_ & _ & Hin).
  split.
  - apply Hout. right. reflexivity.
  - destruct Hin as (w1 & Hrun & Hsheet & _); [split; discriminate|].
    exists w1. split; [exact Hrun | exact Hsheet].
Defined.


(** C10, as amended.  When a date that is not the empty text is
    supplied, the time stamp cell is that date followed by the time of
    day at the moment of the call: [append_to_sheet] stores it in the
    new row, and [update_specific_row] puts it in place of the stored
    time stamp, whose time of day is thereby lost.  A date supplied as
    the empty text counts as no date: [append_to_sheet] stores the
    full time stamp of the clock, and [update_specific_row] leaves the
    time stamp cell as it was, time of day included. *)
Theorem supplied_date_gets_current_time d w :
  backend_fault w = None ->
  (Text.nonempty d = true ->
   let stamp := d +:+ String " " (Date.strftime_HMS (now w)) in
   (forall item_name amount category currency note,
       sheet (snd (append_to_sheet item_name amount category (Some d)
                     currency note w))
       = sheet w ++ [[stamp; item_name; str_number amount +:+ currency;
                      category; note]])
   /\ (forall row_id item_name amount category currency note r,
         1 <= row_id ->
         sheet w !! Z.to_nat (row_id - 1) = Some r ->
         trim_trailing (take 5 r) <> [] ->
         exists r',
           sheet (snd (update_specific_row row_id item_name amount category
                         (Some d) currency note w)) !! Z.to_nat (row_id - 1)
           = Some r'
           /\ r' !! 0%nat = Some stamp))
  /\ (Text.nonempty d = false ->
      (forall item_name amount category currency note,
          sheet (snd (append_to_sheet item_name amount category (Some d)
                        currency note w))
          = sheet w ++ [[Date.strftime_full (now w); item_name;
                         str_number amount +:+ currency; category; note]])
      /\ (forall row_id item_name amount category currency note r,
            1 <= row_id ->
            sheet w !! Z.to_nat (row_id - 1) = Some r ->
            trim_trailing (take 5 r) <> [] ->
            exists r',
              sheet (snd (update_specific_row row_id item_name amount
                            category (Some d) currency note w))
                !! Z.to_nat (row_id - 1)
              = Some r'
              /\ r' !! 0%nat = Some (cell r 0))).
Proof.
  intros Hf. split; intros Hd; [cbv zeta|]; split.
  - intros. rewrite append_to_sheet_run by exact Hf.
    unfold timestamp_for. rewrite Hd. reflexivity.
  - intros row_id item_name amount category currency note r Hk Hr Ht.
    rewrite (update_specific_row_run _ _ _ _ _ _ _ _ _ Hf Hk Hr Ht).
    cbn [snd]. rewrite cell_overlay. unfold truthy. rewrite Hd.
    eexists. split.
    + cbn [sheet with_sheet]. apply list_lookup_insert_eq.
      eapply lookup_lt_Some; eauto.
    + reflexivity.
  - intros. rewrite append_to_sheet_run by exact Hf.
    unfold timestamp_for. rewrite Hd. reflexivity.
  - intros row_id item_name amount category currency note r Hk Hr Ht.
    rewrite (update_specific_row_run _ _ _ _ _ _ _ _ _ Hf Hk Hr Ht).
    cbn [snd]. rewrite cell_overlay. unfold truthy. rewrite Hd.
    eexists. split.
    + cbn [sheet with_sheet]. apply list_lookup_insert_eq.
      eapply lookup_lt_Some; eauto.
    + reflexivity.
Qed.

Lemma supplied_date_gets_current_time_witness :
  let saved :=
    snd (append_to_sheet "Lunch" (NInt 25) "Food" (Some "2026-01-20") "€"
           EmptyString Sample.ledger0) in
  backend_fault Sample.ledger0 = None
  /\ Text.nonempty "2026-01-20" = true
  /\ sheet saved
     = Sample.table
         ++ [ ["2026-01-20 09:05:07"; "Lunch"; "25€"; "Food"; EmptyString] ]
  /\ exists r',
       sheet (snd (update_specific_row 3 None None None (Some "2026-03-03")
                     "€" None (Sample.later saved))) !! 2%nat = Some r'
       /\ r' !! 0%nat = Some "2026-03-03 10:30:00".
Proof.
  cbv zeta. split; [reflexivity|]. split; [reflexivity|].
  destruct (supplied_date_gets_current_time "2026-01-20" Sample.ledger0
              eq_refl) as [Hgiven _].
  destruct (Hgiven eq_refl) as [Happ _].
  split; [exact (Happ "Lunch" (NInt 25) "Food" "€" EmptyString)|].
  destruct (supplied_date_gets_current_time "2026-03-03"
              (Sample.later
                 (snd (append_to_sheet "Lunch" (NInt 25) "Food"
                         (Some "2026-01-20") "€" EmptyString Sample.ledger0)))
              eq_refl) as [Hgiven' _].
  destruct (Hgiven' eq_refl) as [_ Hupd].
  apply (Hupd 3 None None None "€" None
           ["2026-01-20 09:05:07"; "Lunch"; "25€"; "Food"; EmptyString]).
  - lia.
  - reflexivity.
  - discriminate.
Defined.

(** C10, as the specification states it, fails for a date supplied as
    the empty text: [append_to_sheet] stores the date and time of the
    clock, not the supplied text followed by the time of day, and
    [update_specific_row] keeps the stored time stamp with its time of
    day. *)
Lemma empty_date_is_not_stamped :
  let saved :=
    snd (append_to_sheet "Lunch" (NInt 25) "Food" (Some EmptyString) "€"
           EmptyString Sample.ledger0) in
  let updated :=
    snd (update_specific_row 3 None None None (Some EmptyString) "€" None
           (Sample.later saved)) in
  (exists r, sheet saved !! 2%nat = Some r
             /\ r !! 0%nat = Some "2026-01-21 09:05:07"
             /\ r !! 0%nat
                <> Some (Claimed.stamped EmptyString (now Sample.ledger0)))
  /\ (exists r, sheet updated !! 2%nat = Some r
                /\ r !! 0%nat = Some "2026-01-21 09:05:07"
                /\ r !! 0%nat
                   <> Some (Claimed.stamped EmptyString
                              (now (Sample.later saved)))).
Proof.
  cbv zeta. split; eexists; (split; [reflexivity|]);
    (split; [reflexivity|]); discriminate.
Qed.

(** C7, as amended.  On a row that the ranged read finds non-empty,
    [update_specific_row] reads the five cells (an absent trailing
    cell reads as the empty text) and writes them back with the given
    fields laid over them: a text field (date, item name, category,
    note) is replaced when it is given and not empty, and kept when it
    is [None] or the empty text; the amount is replaced whenever it is
    not [None] and is rendered as the amount followed by the currency.
    With only [category] given, item name, amount and note (and the
    time stamp) keep the values they had. *)
Theorem update_specific_row_overlays
    row_id item_name amount category date currency note w r :
  backend_fault w = None ->
  1 <= row_id ->
  sheet w !! Z.to_nat (row_id - 1) = Some r ->
  trim_trailing (take 5 r) <> [] ->
  exists r' w',
    update_specific_row row_id item_name amount category date currency note w
    = (inr (updated_record row_id (take 5 r')), w')
    /\ sheet w' = <[ Z.to_nat (row_id - 1) := r' ]> (sheet w)
    /\ cell r' 0 = (if truthy date
                   then default EmptyString date
                          +:+ String " " (Date.strftime_HMS (now w))
                   else cell r 0)
    /\ cell r' 1 = (if truthy item_name then default EmptyString item_name
                   else cell r 1)
    /\ cell r' 2 = match amount with
                   | Some a => str_number a +:+ currency
                   | None => cell r 2
                   end
    /\ cell r' 3 = (if truthy category then default EmptyString category
                   else cell r 3)
    /\ cell r' 4 = (if truthy note then default EmptyString note
                   else cell r 4)
    /\ drop 5 r' = drop 5 r
    /\ (item_name = None -> amount = None -> note = None -> date = None ->
        cell r' 0 = cell r 0 /\ cell r' 1 = cell r 1
        /\ cell r' 2 = cell r 2 /\ cell r' 4 = cell r 4).
Proof.
  intros Hf Hk Hr Ht.
  rewrite (update_specific_row_run _ _ _ _ _ _ _ _ _ Hf Hk Hr Ht).
  rewrite cell_overlay.
  match goal with
  | |- context [ (inr (updated_record _ ?row), ?w1) ] =>
      exists (row ++ drop 5 r), w1
  end.
  split; [reflexivity|]. split; [reflexivity|].
  do 6 (split; [reflexivity|]).
  intros -> -> -> ->. repeat split; reflexivity.
Qed.

Lemma update_specific_row_overlays_witness :
  backend_fault Sample.ledger0 = None
  /\ 1 <= 2
  /\ exists r' w',
       update_specific_row 2 None None (Some "Travel") None "€" None
         Sample.ledger0
       = (inr "✅ Updated record #2: Rent 800€ (Travel)", w')
       /\ sheet w' !! 1%nat = Some r'
       /\ cell r' 1 = "Rent" /\ cell r' 2 = "800€" /\ cell r' 3 = "Travel"
       /\ cell r' 4 = EmptyString.
Proof.
  split; [reflexivity|]. split; [lia|].
  destruct (update_specific_row_overlays 2 None None (Some "Travel") None "€"
              None Sample.ledger0 ["2026-02-01"; "Rent"; "800€"]
              eq_refl ltac:(lia) eq_refl ltac:(discriminate))
    as (r' & w' & Hrun & Hsheet & _ & H1 & H2 & H3 & H4 & _).
  exists r', w'. split.
  - rewrite Hrun. f_equal. f_equal. unfold updated_record.
    unfold cell. rewrite !lookup_take_lt by lia.
    fold (cell r' 1) (cell r' 2) (cell r' 3). rewrite H1, H2, H3. reflexivity.
  - split; [rewrite Hsheet; reflexivity|].
    rewrite H1, H2, H3, H4. repeat split; reflexivity.
Defined.

(** C7, as the specification states it, fails: an item name given as
    the empty text is given, yet the stored name stays. *)
Lemma update_specific_row_keeps_name_on_empty_text :
  let w' := snd (update_specific_row 2 (Some EmptyString) None None None "€"
                   None Sample.ledger0) in
  exists r',
    sheet w' !! 1%nat = Some r'
    /\ cell r' 1 = "Rent"
    /\ cell r' 1 <> Claimed.overlay_text (Some EmptyString) "Rent".
Proof.
  eexists. split; [reflexivity|]. split; [reflexivity|]. discriminate.
Qed.

End LedgerFacts.

(** * Properties of [calculate_total] *)

Module TotalFacts.

Import Sheet Total.

Lemma strptime_ymd_midnight s d :
  Date.strptime_ymd s = Some d -> midnight d.
Proof.
  unfold Date.strptime_ymd, Date.parse_ymd. intros H.
  repeat case_match; simplify_eq. by repeat split.
Qed.

(** On dates at midnight the comparison of [datetime] values is the
    comparison of the dates. *)
Lemma ltb_midnight a b :
  midnight a -> midnight b -> Date.ltb a b = date_ltb a b.
Proof.
  intros (Ha1 & Ha2 & Ha3) (Hb1 & Hb2 & Hb3).
  unfold Date.ltb, date_ltb, Date.fields, ymd.
  rewrite Ha1, Ha2, Ha3, Hb1, Hb2, Hb3. reflexivity.
Qed.

(** A date at midnight is later than the end of a day exactly when it
    is a later date. *)
Lemma ltb_end_of_day e d :
  midnight d -> Date.ltb (Date.end_of_day e) d = date_ltb e d.
Proof.
  intros (Hd1 & Hd2 & Hd3).
  unfold Date.ltb, date_ltb, Date.fields, ymd, Date.end_of_day.
  cbn [Date.year Date.month Date.day Date.hour Date.minute Date.second].
  rewrite Hd1, Hd2, Hd3. reflexivity.
Qed.

Lemma bound_of_midnight arg o : bound_of arg = Some o -> all_midnight o.
Proof.
  unfold bound_of. destruct (Tools.truthy arg); [|intros [= <-]; exact I].
  destruct (Date.strptime_ymd (Text.code_points (default EmptyString arg)))
    eqn:E; [|discriminate].
  intros [= <-]. simpl. eapply strptime_ymd_midnight; eauto.
Qed.

(** One turn of the loop adds the amount of the row if the row counts
    and changes nothing otherwise. *)
Lemma scan_row_counted first last acc r :
  all_midnight first -> all_midnight last ->
  scan_row first (option_map Date.end_of_day last) acc r
  = match counted first last r with
    | Some v => (Float.add (fst acc) v, snd acc + 1)
    | None => acc
    end.
Proof.
  intros Hfirst Hlast. destruct acc as [total row_count].
  unfold scan_row, counted, row_date, row_value.
  destruct r as [|a [|b [|c rest]]].
  - reflexivity.
  - cbn. by repeat case_match.
  - cbn. by repeat case_match.
  - assert (E : (Tools.len (a :: b :: c :: rest) <? 3) = false)
      by (apply Z.ltb_ge; unfold Tools.len; rewrite !length_cons; lia).
    rewrite E.
    change (Tools.cell (a :: b :: c :: rest) 0) with a.
    change (Tools.cell (a :: b :: c :: rest) 2) with c.
    destruct (Date.strptime_ymd (Text.prefix 10 a)) as [d|] eqn:Ed;
      [|reflexivity].
    pose proof (strptime_ymd_midnight _ _ Ed) as Hd.
    unfold within.
    destruct first as [s|], last as [e|]; cbn [option_map];
      rewrite ?(ltb_midnight d s Hd Hfirst), ?(ltb_end_of_day e d Hd);
      repeat (case_match; try reflexivity; try discriminate).
Qed.

Lemma scan_from first last rows acc :
  all_midnight first -> all_midnight last ->
  fold_left (scan_row first (option_map Date.end_of_day last)) rows acc
  = (fold_left Float.add (counted_values first last rows) (fst acc),
     snd acc + Tools.len (counted_values first last rows)).
Proof.
  intros Hfirst Hlast. revert acc.
  induction rows as [|r rows IH]; intros [total n].
  - cbn. f_equal. unfold Tools.len. simpl. lia.
  - cbn [fold_left]. rewrite IH, (scan_row_counted first last _ r Hfirst Hlast).
    unfold counted_values. cbn [omap list_omap].
    destruct (counted first last r) as [v|]; cbn [fst snd fold_left].
    + f_equal. unfold Tools.len. cbn [length]. lia.
    + reflexivity.
Qed.


Lemma calculate_total_run start_date end_date first last w :
  backend_fault w = None ->
  bound_of start_date = Some first ->
  bound_of end_date = Some last ->
  calculate_total start_date end_date w
  = (inr (if Tools.len (sheet w) <=? 1 then sheet_empty
          else Float.format_2f
                 (float_sum (counted_values first last (sheet w)))), w).
Proof.
  intros Hf Hs He.
  pose proof (bound_of_midnight _ _ Hs) as Hfirst.
  pose proof (bound_of_midnight _ _ He) as Hlast.
  unfold calculate_total, Py.try_except, Py.bind, open_sheet, strptime.
  rewrite Hf. cbn [get_all_values].
  destruct (Tools.len (sheet w) <=? 1); [reflexivity|].
  unfold bound_of, Date.strptime_ymd in Hs, He.
  destruct (Tools.truthy start_date);
    [destruct (Date.parse_ymd (Text.code_points (default EmptyString start_date)))
       eqn:E1|];
    cbn in Hs; simplify_eq;
    (destruct (Tools.truthy end_date);
     [destruct (Date.parse_ymd (Text.code_points (default EmptyString end_date)))
        eqn:E2|];
     cbn in He; simplify_eq);
    unfold Py.ret, Py.bind; cbn beta iota; unfold scan;
    match goal with
    | |- context [ fold_left (scan_row ?f ?e) _ _ ] =>
        match goal with
        | |- context [ counted_values _ ?l _ ] =>
            change e with (option_map Date.end_of_day l);
            rewrite (scan_from f l (sheet w) _ Hfirst Hlast)
        end
    end; reflexivity.
Qed.

(** What [calculate_total] computes.  On a table of two rows or more
    and for a range whose bounds parse (or are omitted), it returns
    the float sum, formatted to two fractional digits, of the amounts
    of exactly the rows that count: those whose first ten characters
    parse as a date within the inclusive range and whose cleaned
    amount parses.  A row that does not count is passed over and the
    rows after it are still summed.  The two sample rows with the
    range 2026-01-01..2026-01-31 give "3.50". *)
Theorem calculate_total_sums_counted_rows start_date end_date first last w :
  backend_fault w = None ->
  bound_of start_date = Some first ->
  bound_of end_date = Some last ->
  1 < Tools.len (sheet w) ->
  calculate_total start_date end_date w
  = (inr (Float.format_2f
            (float_sum (counted_values first last (sheet w)))), w)
  /\ (forall before r after,
        counted first last r = None ->
        counted_values first last (before ++ r :: after)
        = counted_values first last before ++ counted_values first last after)
  /\ (forall before r v after,
        counted first last r = Some v ->
        counted_values first last (before ++ r :: after)
        = counted_values first last before
            ++ v :: counted_values first last after)
  /\ calculate_total (Some "2026-01-01") (Some "2026-01-31") Sample.ledger0
     = (inr "3.50", Sample.ledger0).
Proof.
  intros Hf Hs He Hlen. split.
  { rewrite (calculate_total_run _ _ _ _ w Hf Hs He).
    assert (E : (Tools.len (sheet w) <=? 1) = false) by (apply Z.leb_gt; lia).
    by rewrite E. }
  unfold counted_values. split; [|split].
  - intros before r after Hr. rewrite omap_app. cbn. by rewrite Hr.
  - intros before r v after Hr. rewrite omap_app. cbn. by rewrite Hr.
  - vm_compute. reflexivity.
Qed.

Lemma calculate_total_sums_counted_rows_witness :
  backend_fault Sample.ledger0 = None
  /\ bound_of (Some "2026-01-01") = Some (Some (Date.mk_datetime 2026 1 1 0 0 0))
  /\ bound_of None = Some None
  /\ 1 < Tools.len (sheet Sample.ledger0)
  /\ fst (calculate_total (Some "2026-01-01") None Sample.ledger0)
     = inr "803.50".
Proof.
  split; [reflexivity|]. split; [reflexivity|]. split; [reflexivity|].
  split; [reflexivity|].
  rewrite (proj1 (calculate_total_sums_counted_rows (Some "2026-01-01") None
                    (Some (Date.mk_datetime 2026 1 1 0 0 0)) None
                    Sample.ledger0 eq_refl eq_refl eq_refl eq_refl)).
  vm_compute. reflexivity.
Defined.

(** C8, at the failing input.  The loop of [calculate_total] is written
    for tables without a header row ("Iterate ALL rows (User might not
    have a header)"), yet the guard before it takes a table of one row
    for an empty one.  On the table that holds the single expense
    (2026-01-05, Coffee, 3.50€) and the range 2026-01-01..2026-01-31,
    the row counts and the sum of the rows that count is "3.50", as
    the claim says; [calculate_total] returns "0.00 (Sheet empty)". *)
Lemma calculate_total_single_row_reads_empty :
  let first := Some (Date.mk_datetime 2026 1 1 0 0 0) in
  let last := Some (Date.mk_datetime 2026 1 31 0 0 0) in
  sheet Sample.single = [ ["2026-01-05"; "Coffee"; "3.50€"] ]
  /\ bound_of (Some "2026-01-01") = Some first
  /\ bound_of (Some "2026-01-31") = Some last
  /\ (exists v, counted_values first last (sheet Sample.single) = [v])
  /\ Float.format_2f (float_sum (counted_values first last (sheet Sample.single)))
     = "3.50"
  /\ calculate_total (Some "2026-01-01") (Some "2026-01-31") Sample.single
     = (inr "0.00 (Sheet empty)", Sample.single)
  /\ fst (calculate_total (Some "2026-01-01") (Some "2026-01-31") Sample.single)
     <> inr (Float.format_2f
               (float_sum (counted_values first last (sheet Sample.single)))).
Proof.
  cbv zeta. split; [reflexivity|]. split; [reflexivity|].
  split; [reflexivity|].
  split; [eexists; vm_compute; reflexivity|].
  split; [vm_compute; reflexivity|].
  split; [vm_compute; reflexivity|].
  vm_compute. discriminate.
Qed.

End TotalFacts.

(** * Properties of the orchestration loop *)

Module EngineFacts.

Import Sheet Engine.

Section WithService.

Variable tools : tools_module.
Variable svc : service.

(** With no retries, a call of the client is one attempt. *)
Lemma create_once req s :
  create svc req s
  = (match svc (length (attempts s)) req with
     | Completed c tcs => inr (c, tcs)
     | Failed e _ => inl e
     end, logged req s).
Proof.
  unfold create, max_retries, create_with, logged.
  destruct (svc (length (attempts s)) req); reflexivity.
Qed.

Lemma run_tool_call_cases tc s :
  run_tool_call tools tc s
  = match tc_arguments tc with
    | Malformed d => (inl (Py.Other d), s)
    | Wellformed args =>
        match dispatch tools (tc_name tc) args (backend s) with
        | (inr txt, w') =>
            (inr tt, mk_state (history s ++ [tool_message tc txt])
                       (attempts s) w')
        | (inl e, w') => (inl e, mk_state (history s) (attempts s) w')
        end
    end.
Proof.
  unfold run_tool_call, Py.bind, json_loads, Py.zoom, with_backend.
  destruct (tc_arguments tc) as [d|args]; [reflexivity|].
  cbn. destruct (dispatch tools (tc_name tc) args (backend s)) as [[e|txt] w'];
    reflexivity.
Qed.

Lemma run_tool_calls_cons tc tcs s :
  run_tool_calls tools (tc :: tcs) s
  = match run_tool_call tools tc s with
    | (inr _, s') => run_tool_calls tools tcs s'
    | (inl e, s') => (inl e, s')
    end.
Proof. reflexivity. Qed.

(** What a batch leaves behind: one tool message for each request of
    a prefix of the batch, in order; the whole batch when it ends
    normally. *)
Lemma run_tool_calls_log tcs s :
  exists results,
    history (snd (run_tool_calls tools tcs s))
    = history s ++ zip_with tool_message tcs results
    /\ attempts (snd (run_tool_calls tools tcs s)) = attempts s
    /\ (length results <= length tcs)%nat
    /\ (fst (run_tool_calls tools tcs s) = inr tt ->
        length results = length tcs)
    /\ (forall e, fst (run_tool_calls tools tcs s) = inl e ->
        (length results < length tcs)%nat)
    /\ (Forall (returns tools) tcs ->
        fst (run_tool_calls tools tcs s) = inr tt).
Proof.
  revert s. induction tcs as [|tc tcs IH]; intros s.
  - exists []. cbn. rewrite app_nil_r. split_and!; try done.
  - rewrite run_tool_calls_cons, run_tool_call_cases.
    destruct (tc_arguments tc) as [d|args] eqn:Ea.
    + exists []. cbn. rewrite app_nil_r. split_and!; try done; try lia.
      intros H. apply Forall_cons in H as [(a & Ha & _) _]. congruence.
    + destruct (dispatch tools (tc_name tc) args (backend s))
        as [[e|txt] w'] eqn:Ed.
      * exists []. cbn. rewrite app_nil_r.
        split_and!; try done; try lia.
        intros H. apply Forall_cons in H as [(a & Ha & Hret) _].
        rewrite Ea in Ha. injection Ha as <-.
        destruct (Hret (backend s)) as (t & w1 & Hd). congruence.
      * destruct (IH (mk_state (history s ++ [tool_message tc txt])
                        (attempts s) w'))
          as (results & Hh & Ha & Hle & Hok & Herr & Hall).
        exists (txt :: results). cbn [zip_with length].
        rewrite Hh. cbn [history attempts]. rewrite <- app_assoc.
        split_and!; try done; try lia.
        -- intros H. specialize (Hok H). lia.
        -- intros e H. specialize (Herr e H). lia.
        -- intros H. apply Forall_cons in H as [_ H]. auto.
Qed.

(** The run of [get_agent_response] when round 1 fails. *)
Lemma round1_failure s e retryable :
  svc (length (attempts s)) (mk_request (history s) true) = Failed e retryable ->
  get_agent_response tools svc s
  = (inr (Some (advice_text e)), logged (mk_request (history s) true) s).
Proof.
  intros H. unfold get_agent_response, Py.try_except, respond, Py.bind, Py.get.
  rewrite create_once, H. reflexivity.
Qed.

(** The run when round 1 is a turn without tool calls. *)
Lemma round1_text s c tcs :
  svc (length (attempts s)) (mk_request (history s) true) = Completed c tcs ->
  tcs = None \/ tcs = Some [] ->
  get_agent_response tools svc s
  = (inr c, logged (mk_request (history s) true) s).
Proof.
  intros H Ht. unfold get_agent_response, Py.try_except, respond, Py.bind, Py.get.
  rewrite create_once, H. destruct Ht as [-> | ->]; reflexivity.
Qed.

(** The run when round 1 is a turn with tool calls. *)
Lemma round1_calls s c tc rest :
  svc (length (attempts s)) (mk_request (history s) true)
  = Completed c (Some (tc :: rest)) ->
  let s1 :=
    mk_state (history s ++ [model_dump c (Some (tc :: rest))])
      (attempts s ++ [mk_request (history s) true]) (backend s) in
  get_agent_response tools svc s
  = match run_tool_calls tools (tc :: rest) s1 with
    | (inl e, s2) => (inr (Some (advice_text e)), s2)
    | (inr _, s2) =>
        match svc (length (attempts s2)) (mk_request (history s2) false) with
        | Completed c2 _ => (inr c2, logged (mk_request (history s2) false) s2)
        | Failed e _ =>
            (inr (Some (advice_text e)),
             logged (mk_request (history s2) false) s2)
        end
    end.
Proof.
  intros H. cbv zeta.
  unfold get_agent_response, Py.try_except, respond.
  unfold Py.bind at 1. unfold Py.get at 1. unfold Py.bind at 1.
  rewrite create_once, H. cbn iota beta.
  unfold Py.bind at 1. unfold append_history at 1, Py.modify, logged.
  cbn [history attempts backend].
  unfold Py.bind at 1.
  destruct (run_tool_calls tools (tc :: rest) _) as [[e|[]] s2]; [reflexivity|].
  unfold Py.bind, Py.get. rewrite create_once.
  destruct (svc (length (attempts s2)) (mk_request (history s2) false));
    reflexivity.
Qed.

End WithService.


(** C2. When the model turn has no tool calls, the loop stops there:
    the reply is the text of the turn as it is, the conversation is
    unchanged (no tool message is appended), the ledger is untouched,
    and exactly one attempt was made at the model service. *)
Theorem text_turn_ends_the_loop tools svc s c tcs :
  svc (length (attempts s)) (mk_request (history s) true) = Completed c tcs ->
  tcs = None \/ tcs = Some [] ->
  let out := get_agent_response tools svc s in
  fst out = inr c
  /\ history (snd out) = history s
  /\ backend (snd out) = backend s
  /\ attempts (snd out) = attempts s ++ [mk_request (history s) true]
  /\ length (attempts (snd out)) = S (length (attempts s)).
Proof.
  intros H Ht out. subst out. rewrite (round1_text tools svc s c tcs H Ht).
  cbn. split_and!; try reflexivity. rewrite length_app. cbn. lia.
Qed.

Lemma text_turn_ends_the_loop_witness :
  Sample.service_text "Hello" (length (attempts Sample.state0))
    (mk_request (history Sample.state0) true) = Completed (Some "Hello") None
  /\ get_agent_response Sample.tools (Sample.service_text "Hello") Sample.state0
     = (inr (Some "Hello"),
        logged (mk_request (history Sample.state0) true) Sample.state0).
Proof.
  split; [reflexivity|].
  destruct (text_turn_ends_the_loop Sample.tools (Sample.service_text "Hello")
              Sample.state0 (Some "Hello") None eq_refl (or_introl eq_refl))
    as (Hr & Hh & Hb & Ha & _).
  destruct (get_agent_response _ _ _) as [r [h a b]].
  cbn in Hr, Hh, Hb, Ha. subst. reflexivity.
Defined.

Lemma lookup_after_one {A} (l : list A) (a req : A) j :
  (l ++ [a]) !! (length l + j)%nat = Some req -> j = 0%nat /\ req = a.
Proof.
  intros H. rewrite lookup_app_r in H by lia.
  replace (length l + j - length l)%nat with j in H by lia.
  destruct j as [|j]; cbn in H; [by simplify_eq|discriminate].
Qed.

(** C3, as amended.  Whichever attempt of an invocation fails - [j = 0]
    is round 1, [j = 1] round 2, and there is no other - the reply is
    the advice for that failure: the quota text for a rate-limit
    failure and the key text for an authentication failure, each word
    for word, and the system-error text followed by the detail of any
    other failure.  The failing attempt is the last one: it is not
    retried, retryable or not, and nothing is asked after it.  When
    round 1 fails, nothing was dispatched: conversation and ledger are
    as they were, and round 2 does not happen.  When round 2 fails, the
    batch of round 1 has run before it, and conversation and ledger
    are as the batch left them. *)
Theorem service_failure_gives_advice tools svc s j req e retryable :
  let out := get_agent_response tools svc s in
  attempts (snd out) !! (length (attempts s) + j)%nat = Some req ->
  svc (length (attempts s) + j)%nat req = Failed e retryable ->
  fst out
  = inr (Some
           match e with
           | Py.RateLimitError _ =>
               "⚠️ Error: OpenAI API Quota Exceeded (429). Please check your billing details at platform.openai.com."
           | Py.AuthenticationError _ =>
               "⚠️ Error: OpenAI API Key is invalid. Please check your .env file."
           | Py.Other detail => "⚠️ System error: " +:+ detail
           end)
  /\ length (attempts (snd out)) = S (length (attempts s) + j)
  /\ (j = 0%nat \/ j = 1%nat)
  /\ (j = 0%nat ->
      history (snd out) = history s /\ backend (snd out) = backend s
      /\ attempts (snd out) = attempts s ++ [mk_request (history s) true])
  /\ (j = 1%nat ->
      exists c tc rest s2,
        svc (length (attempts s)) (mk_request (history s) true)
        = Completed c (Some (tc :: rest))
        /\ run_tool_calls tools (tc :: rest)
             (mk_state (history s ++ [model_dump c (Some (tc :: rest))])
                (attempts s ++ [mk_request (history s) true]) (backend s))
           = (inr tt, s2)
        /\ snd out = logged (mk_request (history s2) false) s2).
Proof.
  intros out Hreq Hfail. subst out.
  destruct (svc (length (attempts s)) (mk_request (history s) true))
    as [c tcs|e0 r0] eqn:E1.
  - destruct tcs as [[|tc rest]|].
    + rewrite (round1_text tools svc s c _ E1 (or_intror eq_refl)) in *.
      cbn in Hreq. apply lookup_after_one in Hreq as [-> ->].
      rewrite Nat.add_0_r in Hfail. congruence.
    + pose proof (round1_calls tools svc s c tc rest E1) as Hrun.
      cbv zeta in Hrun. rewrite Hrun in *. clear Hrun.
      destruct (run_tool_calls_log tools (tc :: rest)
                  (mk_state (history s ++ [model_dump c (Some (tc :: rest))])
                     (attempts s ++ [mk_request (history s) true]) (backend s)))
        as (results & _ & Hatt & _).
      destruct (run_tool_calls tools (tc :: rest) _) as [[e1|[]] s2] eqn:Erun.
      * cbn in Hatt. cbn in Hreq. rewrite Hatt in Hreq.
        apply lookup_after_one in Hreq as [-> ->].
        rewrite Nat.add_0_r in Hfail. congruence.
      * cbn in Hatt.
        assert (Hlen : length (attempts s2) = S (length (attempts s)))
          by (rewrite Hatt, length_app; cbn; lia).
        destruct (svc (length (attempts s2)) (mk_request (history s2) false))
          as [c2 t2|e2 r2] eqn:E2; cbn in Hreq; rewrite Hatt in Hreq;
          rewrite <- app_assoc in Hreq; cbn in Hreq.
        -- destruct j as [|[|j]].
           ++ rewrite Nat.add_0_r in *.
              rewrite lookup_app_r in Hreq by lia.
              rewrite Nat.sub_diag in Hreq. cbn in Hreq. congruence.
           ++ rewrite lookup_app_r in Hreq by lia.
              replace (length (attempts s) + 1 - length (attempts s))%nat
                with 1%nat in Hreq by lia.
              cbn in Hreq. injection Hreq as <-.
              replace (length (attempts s) + 1)%nat
                with (length (attempts s2)) in Hfail by lia.
              congruence.
           ++ rewrite lookup_app_r in Hreq by lia.
              replace (length (attempts s) + S (S j) - length (attempts s))%nat
                with (S (S j)) in Hreq by lia.
              discriminate.
        -- destruct j as [|[|j]].
           ++ rewrite Nat.add_0_r in *.
              rewrite lookup_app_r in Hreq by lia.
              rewrite Nat.sub_diag in Hreq. cbn in Hreq. congruence.
           ++ rewrite lookup_app_r in Hreq by lia.
              replace (length (attempts s) + 1 - length (attempts s))%nat
                with 1%nat in Hreq by lia.
              cbn in Hreq. injection Hreq as <-.
              replace (length (attempts s) + 1)%nat
                with (length (attempts s2)) in Hfail by lia.
              rewrite E2 in Hfail. injection Hfail as <- <-.
              cbn [fst snd]. split; [by destruct e2|]. split.
              ** cbn. rewrite length_app. cbn. lia.
              ** split; [by right|]. split; [discriminate|].
                 intros _. exists c, tc, rest, s2. by split_and!.
           ++ rewrite lookup_app_r in Hreq by lia.
              replace (length (attempts s) + S (S j) - length (attempts s))%nat
                with (S (S j)) in Hreq by lia.
              discriminate.
    + rewrite (round1_text tools svc s c _ E1 (or_introl eq_refl)) in *.
      cbn in Hreq. apply lookup_after_one in Hreq as [-> ->].
      rewrite Nat.add_0_r in Hfail. congruence.
  - rewrite (round1_failure tools svc s e0 r0 E1) in *.
    cbn in Hreq. apply lookup_after_one in Hreq as [-> ->].
    rewrite Nat.add_0_r in Hfail. rewrite E1 in Hfail. injection Hfail as <- <-.
    cbn [fst snd]. split; [by destruct e0|]. split.
    + cbn. rewrite length_app. cbn. lia.
    + split; [by left|]. split; [done | discriminate].
Qed.

Lemma service_failure_gives_advice_witness :
  let svc :=
    Sample.service_failing_second [Sample.undo] (Py.RateLimitError "429") in
  let out := get_agent_response Sample.tools svc Sample.state0 in
  attempts (snd out) !! 1%nat
  = Some (mk_request (history (snd out)) false)
  /\ svc 1%nat (mk_request (history (snd out)) false)
     = Failed (Py.RateLimitError "429") true
  /\ fst out
     = inr (Some "⚠️ Error: OpenAI API Quota Exceeded (429). Please check your billing details at platform.openai.com.")
  /\ length (attempts (snd out)) = 2%nat.
Proof.
  cbv zeta. split; [reflexivity|]. split; [reflexivity|].
  destruct (service_failure_gives_advice Sample.tools
              (Sample.service_failing_second [Sample.undo]
                 (Py.RateLimitError "429"))
              Sample.state0 1
              (mk_request
                 (history
                    (snd (get_agent_response Sample.tools
                            (Sample.service_failing_second [Sample.undo]
                               (Py.RateLimitError "429"))
                            Sample.state0))) false)
              (Py.RateLimitError "429") true eq_refl eq_refl)
    as (Hr & Hl & _).
  split; [exact Hr | exact Hl].
Defined.

(** C3, as the specification states it, fails: a rate-limit failure of
    round 2 gives the quota text, but it comes after the dispatch of
    the batch of round 1 - the ledger has lost its last row, a tool
    message is in the conversation - and after a first model call. *)
Lemma quota_failure_after_dispatch :
  let svc :=
    Sample.service_failing_second [Sample.undo] (Py.RateLimitError "429") in
  let out := get_agent_response Sample.tools svc Sample.state0 in
  svc 1%nat (mk_request (history (snd out)) false)
  = Failed (Py.RateLimitError "429") true
  /\ attempts (snd out)
     = [mk_request Sample.conversation true;
        mk_request (history (snd out)) false]
  /\ fst out = inr (Some quota_advice)
  /\ sheet (backend (snd out)) = [ ["2026-01-05"; "Coffee"; "3.50€"] ]
  /\ Claimed.tool_ids (drop 2 (history (snd out))) = [Some "call_1"]
  /\ ~ Claimed.short_circuits Sample.state0 (snd out).
Proof.
  cbv zeta. split_and!; try reflexivity.
  intros (Hh & _). vm_compute in Hh. discriminate Hh.
Qed.



(** *** The messages of a batch *)

Lemma tool_ids_of_batch tcs (results : list string) :
  Claimed.tool_ids (zip_with tool_message tcs results)
  = map (fun tc => Some (tc_id tc)) (take (length results) tcs).
Proof.
  revert results. induction tcs as [|tc tcs IH]; intros [|r results];
    try reflexivity.
  cbn. f_equal. apply IH.
Qed.

Lemma history_after_calls tools svc s c tc rest :
  svc (length (attempts s)) (mk_request (history s) true)
  = Completed c (Some (tc :: rest)) ->
  exists results : list string,
    history (snd (get_agent_response tools svc s))
    = history s
        ++ model_dump c (Some (tc :: rest))
        :: zip_with tool_message (tc :: rest) results
    /\ (length results <= length (tc :: rest))%nat
    /\ (Forall (returns tools) (tc :: rest) ->
        length results = length (tc :: rest)).
Proof.
  intros H. pose proof (round1_calls tools svc s c tc rest H) as Hrun.
  cbv zeta in Hrun. rewrite Hrun. clear Hrun.
  destruct (run_tool_calls_log tools (tc :: rest)
              (mk_state (history s ++ [model_dump c (Some (tc :: rest))])
                 (attempts s ++ [mk_request (history s) true]) (backend s)))
    as (results & Hh & _ & Hle & Hok & _ & Hall).
  exists results.
  destruct (run_tool_calls tools (tc :: rest) _) as [[e|[]] s2];
    cbn [fst snd history] in *.
  - rewrite Hh, <- app_assoc. split; [reflexivity|]. split; [exact Hle|].
    intros Hr. specialize (Hall Hr). discriminate.
  - destruct (svc (length (attempts s2)) (mk_request (history s2) false));
      cbn [snd logged history]; rewrite Hh, <- app_assoc;
      (split; [reflexivity|]; split; [exact Hle|]; intros _; auto).
Qed.

Lemma run_tool_calls_app tools pre post s :
  run_tool_calls tools (pre ++ post) s
  = match run_tool_calls tools pre s with
    | (inr _, s') => run_tool_calls tools post s'
    | (inl e, s') => (inl e, s')
    end.
Proof.
  revert s. induction pre as [|tc pre IH]; intros s; [reflexivity|].
  cbn [app]. rewrite !run_tool_calls_cons.
  destruct (run_tool_call tools tc s) as [[e|[]] s1]; [reflexivity|].
  apply IH.
Qed.

Lemma raising_call_keeps_history tools tc s e s' :
  run_tool_call tools tc s = (inl e, s') ->
  history s' = history s /\ attempts s' = attempts s.
Proof.
  rewrite run_tool_call_cases.
  destruct (tc_arguments tc) as [d|args]; [by intros [= <- <-]|].
  destruct (dispatch tools (tc_name tc) args (backend s)) as [[e1|txt] w'];
    [by intros [= <- <-] | discriminate].
Qed.

(** C1, as amended.  When the model turn carries tool calls, the loop
    appends the turn itself and then one tool-role message for each
    request of a prefix of the batch, in request order, each with the
    [tool_call_id] of its request.  The prefix is the whole batch when
    every request returns (its arguments decode and its call comes
    back with a text).  A request that raises ends the loop: the
    messages are those of the requests before it, one each, and it
    and the requests after it get none. *)
Theorem batch_appends_tool_messages tools svc s c tc rest :
  svc (length (attempts s)) (mk_request (history s) true)
  = Completed c (Some (tc :: rest)) ->
  let tcs := tc :: rest in
  let appended :=
    drop (length (history s)) (history (snd (get_agent_response tools svc s))) in
  exists results : list string,
    appended = model_dump c (Some tcs) :: zip_with tool_message tcs results
    /\ (length results <= length tcs)%nat
    /\ Claimed.tool_ids appended
       = map (fun tc => Some (tc_id tc)) (take (length results) tcs)
    /\ (Forall (returns tools) tcs ->
        length results = length tcs
        /\ Claimed.one_message_per_request appended tcs)
    /\ (forall pre failing post e s2 s3,
          tcs = pre ++ failing :: post ->
          run_tool_calls tools pre
            (mk_state (history s ++ [model_dump c (Some tcs)])
               (attempts s ++ [mk_request (history s) true]) (backend s))
          = (inr tt, s2) ->
          run_tool_call tools failing s2 = (inl e, s3) ->
          length results = length pre
          /\ appended
             = model_dump c (Some tcs) :: zip_with tool_message pre results
          /\ Claimed.one_message_per_request appended pre).
Proof.
  intros H. cbv zeta.
  destruct (history_after_calls tools svc s c tc rest H)
    as (results & Hh & Hle & Hall).
  exists results. rewrite Hh, drop_app_length.
  split; [reflexivity|]. split; [exact Hle|].
  assert (Hids :
    Claimed.tool_ids (model_dump c (Some (tc :: rest))
                        :: zip_with tool_message (tc :: rest) results)
    = map (fun tc => Some (tc_id tc)) (take (length results) (tc :: rest))).
  { change (Claimed.tool_ids (model_dump c (Some (tc :: rest))
                                :: zip_with tool_message (tc :: rest) results))
      with (Claimed.tool_ids (zip_with tool_message (tc :: rest) results)).
    apply tool_ids_of_batch. }
  split; [exact Hids|]. split.
  { intros Hr. specialize (Hall Hr). split; [exact Hall|].
    unfold Claimed.one_message_per_request. rewrite Hids, Hall.
    by rewrite firstn_all. }
  intros pre failing post e s2 s3 Hsplit Hpre Hfail.
  set (s1 := mk_state (history s ++ [model_dump c (Some (tc :: rest))])
               (attempts s ++ [mk_request (history s) true]) (backend s))
    in *.
  (* the run of the whole batch ends at the raise *)
  assert (Hrun : get_agent_response tools svc s
                 = (inr (Some (advice_text e)), s3)).
  { pose proof (round1_calls tools svc s c tc rest H) as Hr.
    cbv zeta in Hr. rewrite Hr. fold s1.
    rewrite Hsplit, run_tool_calls_app, Hpre, run_tool_calls_cons, Hfail.
    reflexivity. }
  destruct (raising_call_keeps_history tools failing s2 e s3 Hfail)
    as [Hh3 _].
  destruct (run_tool_calls_log tools pre s1)
    as (results' & Hh' & _ & _ & Hok & _).
  rewrite Hpre in Hh', Hok. cbn [fst snd] in Hh', Hok.
  specialize (Hok eq_refl).
  rewrite Hrun in Hh. cbn [snd] in Hh.
  rewrite Hh3, Hh' in Hh. subst s1. cbn [history] in Hh.
  rewrite <- app_assoc in Hh. apply app_inv_head in Hh.
  assert (Hz : zip_with tool_message (tc :: rest) results
               = zip_with tool_message pre results')
    by (cbn [app] in Hh; congruence).
  assert (Hlen : length results = length pre).
  { apply (f_equal length) in Hz.
    rewrite (length_zip_with_r _ (tc :: rest) results Hle) in Hz.
    rewrite (length_zip_with_r_eq _ pre results' Hok) in Hz. lia. }
  assert (Hzip : zip_with tool_message (tc :: rest) results
                 = zip_with tool_message pre results).
  { rewrite Hsplit. clear -Hlen. revert results Hlen.
    induction pre as [|p pre IH]; intros [|r results] Hlen;
      try discriminate Hlen; try reflexivity.
    cbn [app zip_with]. f_equal. apply IH.
    by injection Hlen. }
  split; [exact Hlen|]. split; [by rewrite Hzip|].
  unfold Claimed.one_message_per_request. rewrite Hids, Hlen, Hsplit.
  by rewrite take_app_length.
Qed.



(** *** The handlers catch what their bodies raise *)

Lemma try_except_returns {S A} (c : Py.M S A) (h : Py.exn -> A) s :
  exists a s', Py.try_except c (fun e => Py.ret (h e)) s = (inr a, s').
Proof.
  unfold Py.try_except, Py.ret. destruct (c s) as [[e|a] s']; eauto.
Qed.

Lemma append_to_sheet_returns item_name amount category date currency note w :
  exists txt w',
    Tools.append_to_sheet item_name amount category date currency note w
    = (inr txt, w').
Proof. apply try_except_returns. Qed.

Lemma delete_specific_row_returns row_id w :
  exists txt w', Tools.delete_specific_row row_id w = (inr txt, w').
Proof. apply try_except_returns. Qed.

Lemma delete_last_row_returns w :
  exists txt w', Tools.delete_last_row w = (inr txt, w').
Proof. apply try_except_returns. Qed.

Lemma update_specific_row_returns row_id item_name amount category date
    currency note w :
  exists txt w',
    Tools.update_specific_row row_id item_name amount category date currency
      note w = (inr txt, w').
Proof. apply try_except_returns. Qed.

Lemma calculate_total_returns start_date end_date w :
  exists txt w', Total.calculate_total start_date end_date w = (inr txt, w').
Proof. apply try_except_returns. Qed.

Lemma get_sheet_url_returns w :
  exists txt w', Tools.get_sheet_url w = (inr txt, w').
Proof.
  unfold Tools.get_sheet_url, Py.bind, Py.get.
  destruct (Tools.truthy (sheet_id w)); eauto.
Qed.

Lemma undo_returns : returns Sample.tools Sample.undo.
Proof.
  eexists. split; [reflexivity|]. intros w. apply delete_last_row_returns.
Qed.

Lemma show_returns : returns Sample.tools Sample.show.
Proof.
  eexists. split; [reflexivity|]. intros w. apply get_sheet_url_returns.
Qed.

Lemma batch_appends_tool_messages_witness :
  let svc := Sample.service_requesting [Sample.undo; Sample.show] "Done." in
  let out := get_agent_response Sample.tools svc Sample.state0 in
  let calls := [Sample.undo; Sample.bare_append; Sample.show] in
  let out' :=
    get_agent_response Sample.tools (Sample.service_requesting calls "Done.")
      Sample.state0 in
  svc 0%nat (mk_request Sample.conversation true)
  = Completed None (Some [Sample.undo; Sample.show])
  /\ Forall (returns Sample.tools) [Sample.undo; Sample.show]
  /\ Claimed.tool_ids (drop 2 (history (snd out)))
     = [Some "call_1"; Some "call_2"]
  /\ calls = [Sample.undo] ++ Sample.bare_append :: [Sample.show]
  /\ Claimed.tool_ids (drop 2 (history (snd out'))) = [Some "call_1"].
Proof.
  cbv zeta. split; [reflexivity|].
  assert (Hret : Forall (returns Sample.tools) [Sample.undo; Sample.show])
    by (repeat constructor; [apply undo_returns | apply show_returns]).
  split; [exact Hret|].
  destruct (batch_appends_tool_messages Sample.tools
              (Sample.service_requesting [Sample.undo; Sample.show] "Done.")
              Sample.state0 None Sample.undo [Sample.show] eq_refl)
    as (results & _ & _ & _ & Hall & _).
  destruct (Hall Hret) as [_ Hone]. split; [exact Hone|].
  split; [reflexivity|].
  destruct (batch_appends_tool_messages Sample.tools
              (Sample.service_requesting
                 [Sample.undo; Sample.bare_append; Sample.show] "Done.")
              Sample.state0 None Sample.undo
              [Sample.bare_append; Sample.show] eq_refl)
    as (results' & _ & _ & _ & _ & Hraise).
  destruct (Hraise [Sample.undo] Sample.bare_append [Sample.show]
              (Py.Other Sample.bare_append_error) _ _ eq_refl eq_refl
              eq_refl)
    as (_ & _ & Hpre).
  exact Hpre.
Defined.

(** C1, as the specification states it, fails: of three requests the
    second lacks its required arguments, and only the first gets a
    tool message. *)
Lemma batch_stops_at_raising_request :
  let calls := [Sample.undo; Sample.bare_append; Sample.show] in
  let svc := Sample.service_requesting calls "Done." in
  let out := get_agent_response Sample.tools svc Sample.state0 in
  svc 0%nat (mk_request Sample.conversation true) = Completed None (Some calls)
  /\ Claimed.tool_ids (drop 2 (history (snd out))) = [Some "call_1"]
  /\ ~ Claimed.one_message_per_request (drop 2 (history (snd out))) calls.
Proof.
  cbv zeta. split; [reflexivity|]. split; [vm_compute; reflexivity|].
  unfold Claimed.one_message_per_request. vm_compute. discriminate.
Qed.


(** *** A request that raises *)


(** C4, as amended.  The loop itself catches nothing.  The ledger
    handlers catch every exception raised in their bodies and return
    it as a text (the text of the failure when the backend is down),
    which the loop appends as a tool message like any other result.
    An exception that reaches the loop - arguments that do not decode
    or do not bind to the parameters of the handler (a missing
    required argument), or a handler that raises - ends the batch: the
    requests before it keep their messages, the failing request gets
    none, the requests after it and round 2 are skipped, and the reply
    of [get_agent_response] is the advice for that exception (the
    system-error text with its detail for an ordinary exception). *)
Theorem raising_request_ends_the_batch
    tools svc s c tc rest pre failing post e s2 s3 :
  svc (length (attempts s)) (mk_request (history s) true)
  = Completed c (Some (tc :: rest)) ->
  tc :: rest = pre ++ failing :: post ->
  run_tool_calls tools pre
    (mk_state (history s ++ [model_dump c (Some (tc :: rest))])
       (attempts s ++ [mk_request (history s) true]) (backend s))
  = (inr tt, s2) ->
  run_tool_call tools failing s2 = (inl e, s3) ->
  get_agent_response tools svc s = (inr (Some (advice_text e)), s3)
  /\ history s3 = history s2
  /\ attempts s3 = attempts s ++ [mk_request (history s) true]
  /\ (forall d, advice_text (Py.Other d) = system_error d)
  /\ (forall item_name amount category date currency note w,
        exists txt w',
          Tools.append_to_sheet item_name amount category date currency note w
          = (inr txt, w'))
  /\ (forall row_id w,
        exists txt w', Tools.delete_specific_row row_id w = (inr txt, w'))
  /\ (forall w, exists txt w', Tools.delete_last_row w = (inr txt, w'))
  /\ (forall row_id item_name amount category date currency note w,
        exists txt w',
          Tools.update_specific_row row_id item_name amount category date
            currency note w = (inr txt, w'))
  /\ (forall start_date end_date w,
        exists txt w',
          Total.calculate_total start_date end_date w = (inr txt, w'))
  /\ (forall item_name amount category date currency note w d,
        backend_fault w = Some d ->
        Tools.append_to_sheet item_name amount category date currency note w
        = (inr ("❌ Recording failed, error details: " +:+ d), w)).
Proof.
  intros H Hsplit Hpre Hfail.
  pose proof (round1_calls tools svc s c tc rest H) as Hrun.
  cbv zeta in Hrun. rewrite Hrun. clear Hrun.
  rewrite Hsplit at 1. rewrite run_tool_calls_app, Hpre.
  rewrite run_tool_calls_cons, Hfail.
  destruct (raising_call_keeps_history _ _ _ _ _ Hfail) as [Hh Ha].
  destruct (run_tool_calls_log tools pre
              (mk_state (history s ++ [model_dump c (Some (tc :: rest))])
                 (attempts s ++ [mk_request (history s) true]) (backend s)))
    as (results & _ & Hatt & _).
  rewrite Hpre in Hatt. cbn in Hatt.
  split_and!; try done.
  - by rewrite Ha.
  - apply append_to_sheet_returns.
  - apply delete_specific_row_returns.
  - apply delete_last_row_returns.
  - apply update_specific_row_returns.
  - apply calculate_total_returns.
  - intros item_name amount category date currency note w d Hd.
    unfold Tools.append_to_sheet, Py.try_except, Py.bind, open_sheet.
    by rewrite Hd.
Qed.


Lemma raising_request_ends_the_batch_witness :
  let calls := [Sample.bare_append; Sample.undo] in
  let svc := Sample.service_requesting calls "Done." in
  let s1 :=
    mk_state (Sample.conversation ++ [model_dump None (Some calls)])
      [mk_request Sample.conversation true] Sample.ledger0 in
  svc 0%nat (mk_request Sample.conversation true) = Completed None (Some calls)
  /\ calls = [] ++ Sample.bare_append :: [Sample.undo]
  /\ run_tool_calls Sample.tools [] s1 = (inr tt, s1)
  /\ run_tool_call Sample.tools Sample.bare_append s1
     = (inl (Py.Other Sample.bare_append_error), s1)
  /\ get_agent_response Sample.tools svc Sample.state0
     = (inr (Some (system_error Sample.bare_append_error)), s1).
Proof.
  cbv zeta. split; [reflexivity|]. split; [reflexivity|].
  split; [reflexivity|]. split; [vm_compute; reflexivity|].
  set (s1 := mk_state _ _ _).
  refine (proj1 (raising_request_ends_the_batch Sample.tools
           (Sample.service_requesting [Sample.bare_append; Sample.undo] "Done.")
           Sample.state0 None Sample.bare_append [Sample.undo] []
           Sample.bare_append [Sample.undo] (Py.Other Sample.bare_append_error)
           s1 s1 _ _ _ _)).
  - reflexivity.
  - reflexivity.
  - reflexivity.
  - vm_compute. reflexivity.
Defined.

(** C4, as the specification states it, fails: the request without its
    required arguments gets no tool message, the request after it is
    not run (the ledger still has its two rows), round 2 is not asked
    for, and the reply is the system-error text. *)
Lemma missing_argument_is_not_soft :
  let calls := [Sample.bare_append; Sample.undo] in
  let svc := Sample.service_requesting calls "Done." in
  let out := get_agent_response Sample.tools svc Sample.state0 in
  svc 0%nat (mk_request Sample.conversation true) = Completed None (Some calls)
  /\ fst out = inr (Some (system_error Sample.bare_append_error))
  /\ Claimed.tool_ids (drop 2 (history (snd out))) = []
  /\ sheet (backend (snd out)) = Sample.table
  /\ length (attempts (snd out)) = 1%nat
  /\ ~ Claimed.fails_soft Sample.state0 (snd out) Sample.bare_append.
Proof.
  cbv zeta. split; [reflexivity|]. split; [vm_compute; reflexivity|].
  split; [vm_compute; reflexivity|]. split; [vm_compute; reflexivity|].
  split; [vm_compute; reflexivity|].
  intros [_ Hround2]. vm_compute in Hround2. discriminate.
Qed.


(** Through the engine, a new amount without a currency is rendered
    with the default of the signature, the euro sign. *)
Example update_call_defaults_to_euro :
  let args :=
    ArgsObject
      (mk_kwargs None (Some (Tools.NInt 50)) None None None None (Some 2)
         None None None None None None None [] []) in
  exists w',
    dispatch Sample.tools "update_specific_row" args Sample.ledger0
    = (inr "✅ Updated record #2: Rent 50€ ()", w')
    /\ sheet w' !! 1%nat
       = Some ["2026-02-01"; "Rent"; "50€"; EmptyString; EmptyString].
Proof. cbv zeta. eexists. split; vm_compute; reflexivity. Qed.

End EngineFacts.

(** * Properties of the conversation store *)

Module MainFacts.

Import Sheet Engine Main.

Lemma starts_with_system_app c ext :
  starts_with_system c -> starts_with_system (c ++ ext).
Proof.
  intros (m & rest & -> & Hm). exists m, (rest ++ ext). by split.
Qed.

Lemma store_ok_insert m user_id c :
  store_ok m -> starts_with_system c -> store_ok (<[ user_id := c ]> m).
Proof.
  intros Hm Hc u c' Hu. destruct (decide (user_id = u)) as [->|Hne].
  - rewrite lookup_insert_eq in Hu. by simplify_eq.
  - rewrite lookup_insert_ne in Hu by done. eauto.
Qed.

Lemma store_ok_empty : store_ok ∅.
Proof. intros u c Hu. by rewrite lookup_empty in Hu. Qed.

(** [get_agent_response] only appends to the conversation. *)
Lemma engine_appends tools svc s :
  exists ext,
    history (snd (get_agent_response tools svc s)) = history s ++ ext.
Proof.
  destruct (svc (length (attempts s)) (mk_request (history s) true))
    as [c [[|tc rest]|]|e r] eqn:E.
  - rewrite (EngineFacts.round1_text tools svc s c _ E (or_intror eq_refl)).
    exists []. cbn. by rewrite app_nil_r.
  - destruct (EngineFacts.history_after_calls tools svc s c tc rest E)
      as (results & Hh & _).
    eexists. exact Hh.
  - rewrite (EngineFacts.round1_text tools svc s c _ E (or_introl eq_refl)).
    exists []. cbn. by rewrite app_nil_r.
  - rewrite (EngineFacts.round1_failure tools svc s e r E).
    exists []. cbn. by rewrite app_nil_r.
Qed.

Lemma save_memory_invariant b : invariant b -> invariant (save_memory b).
Proof.
  intros [Hs Hf]. unfold save_memory. destruct (disk_writable b); by split.
Qed.

Lemma append_message_invariant user_id m b :
  invariant b ->
  is_Some (user_conversations b !! user_id) ->
  invariant (append_message user_id m b).
Proof.
  intros [Hs Hf] [c Hc]. split; [|exact Hf].
  cbn. rewrite Hc. apply store_ok_insert; [exact Hs|].
  apply starts_with_system_app. eauto.
Qed.

Lemma system_message_starts cfg b :
  starts_with_system [system_message cfg b].
Proof. eexists _, []. by split. Qed.

Lemma save_memory_conversations b :
  user_conversations (save_memory b) = user_conversations b.
Proof. unfold save_memory. by destruct (disk_writable b). Qed.

Lemma handle_message_invariant cfg tools svc user_id user_text b :
  invariant b -> invariant (handle_message cfg tools svc user_id user_text b).
Proof.
  intros Hb. unfold handle_message.
  destruct (unauthorized cfg user_id); [exact Hb|].
  set (b1 := match user_conversations b !! user_id with
             | Some _ => b
             | None => _
             end).
  assert (Hb1 : invariant b1 /\ is_Some (user_conversations b1 !! user_id)).
  { subst b1. destruct (user_conversations b !! user_id) as [c|] eqn:Ec.
    - split; [exact Hb | by rewrite Ec].
    - split.
      + apply save_memory_invariant. destruct Hb as [Hs Hf].
        split; [|exact Hf]. cbn. apply store_ok_insert; [exact Hs|].
        apply system_message_starts.
      + rewrite save_memory_conversations. cbn.
        rewrite lookup_insert_eq. eauto. }
  destruct Hb1 as [Hb1 [c1 Hc1]].
  set (b2 := save_memory (append_message user_id _ b1)).
  assert (Hb2 : invariant b2)
    by (apply save_memory_invariant, append_message_invariant; eauto).
  assert (Hc2 : user_conversations b2 !! user_id
                = Some (c1 ++ [mk_message user (Some user_text) None None None])).
  { subst b2. rewrite save_memory_conversations. cbn.
    rewrite Hc1. cbn. by rewrite lookup_insert_eq. }
  rewrite Hc2. cbn [default from_option id].
  set (s := mk_state _ (service_log b2) (world b2)).
  destruct (engine_appends tools svc s) as [ext Hext].
  destruct (get_agent_response tools svc s) as [r s'].
  cbn [snd] in Hext.
  set (b3 := mk_bot _ (memory_file b2) (disk_writable b2) (attempts s')
               (backend s')).
  assert (Hb3 : invariant b3 /\ is_Some (user_conversations b3 !! user_id)).
  { subst b3. destruct Hb2 as [Hs Hf]. split; [split; [|exact Hf]|].
    - cbn. apply store_ok_insert; [exact Hs|]. rewrite Hext.
      apply starts_with_system_app. subst s. cbn.
      apply (Hs user_id). exact Hc2.
    - cbn. rewrite lookup_insert_eq. eauto. }
  destruct Hb3 as [Hb3 Hsome]. destruct r as [e|ai_reply]; [exact Hb3|].
  by apply save_memory_invariant, append_message_invariant.
Qed.

Lemma step_invariant cfg tools svc b b' :
  step cfg tools svc b b' -> invariant b -> invariant b'.
Proof.
  intros Hstep Hb. destruct Hstep.
  - destruct Hb as [Hs Hf]. split; [|exact Hf]. cbn.
    apply store_ok_insert; [exact Hs | apply system_message_starts].
  - by apply handle_message_invariant.
  - destruct Hb as [Hs Hf]. unfold load_memory.
    destruct (memory_file b) as [| |data] eqn:E;
      (split; [|unfold with_conversations; cbn [memory_file];
                rewrite E; exact Hf]); cbn.
    + apply store_ok_empty.
    + apply store_ok_empty.
    + exact Hf.
  - exact Hb.
Qed.

Lemma reachable_invariant cfg tools svc b :
  reachable cfg tools svc b -> invariant b.
Proof.
  induction 1 as [b E | b E | b b' _ IH Hstep].
  - unfold load_memory. rewrite E. split; [apply store_ok_empty|].
    unfold file_ok. cbn. by rewrite E.
  - unfold load_memory. rewrite E. split; [apply store_ok_empty|].
    unfold file_ok. cbn. by rewrite E.
  - eapply step_invariant; eauto.
Qed.


(** C5. In every state the process can reach, each conversation holds
    at least one message and its first message has role [system] (and
    so does each conversation in the memory file).  This holds right
    after creation - by [start], which makes the conversation the
    system message alone, and by the first message of a user, which
    creates it before the user message is appended - and every step,
    hence every append of a user, assistant or tool message, keeps
    it. *)
Theorem conversations_start_with_system cfg tools svc b :
  reachable cfg tools svc b ->
  store_ok (user_conversations b)
  /\ file_ok (memory_file b)
  /\ (forall user_id,
        user_conversations (start cfg user_id b) !! user_id
        = Some [system_message cfg b])
  /\ (forall user_id user_text,
        unauthorized cfg user_id = false ->
        user_conversations b !! user_id = None ->
        exists rest,
          user_conversations
            (handle_message cfg tools svc user_id user_text b) !! user_id
          = Some (system_message cfg b
                    :: mk_message user (Some user_text) None None None
                    :: rest))
  /\ (forall user_id m c,
        user_conversations b !! user_id = Some c ->
        user_conversations (append_message user_id m b) !! user_id
        = Some (c ++ [m])
        /\ starts_with_system (c ++ [m]))
  /\ (forall b',
        step cfg tools svc b b' ->
        store_ok (user_conversations b') /\ file_ok (memory_file b')).
Proof.
  intros Hreach. pose proof (reachable_invariant _ _ _ _ Hreach) as [Hs Hf].
  split; [exact Hs|]. split; [exact Hf|]. split_and!.
  - intros user_id. cbn. by rewrite lookup_insert_eq.
  - intros user_id user_text Hauth Hnone. unfold handle_message.
    rewrite Hauth, Hnone.
    set (b1 := save_memory (with_conversations _ b)).
    assert (Hc1 : user_conversations b1 !! user_id
                  = Some [system_message cfg b]).
    { subst b1. rewrite save_memory_conversations. cbn.
      by rewrite lookup_insert_eq. }
    set (b2 := save_memory (append_message user_id _ b1)).
    assert (Hc2 : user_conversations b2 !! user_id
                  = Some [system_message cfg b;
                          mk_message user (Some user_text) None None None]).
    { subst b2. rewrite save_memory_conversations. cbn.
      rewrite Hc1. cbn. by rewrite lookup_insert_eq. }
    rewrite Hc2. cbn [default from_option id].
    set (s := mk_state _ (service_log b2) (world b2)).
    destruct (engine_appends tools svc s) as [ext Hext].
    destruct (get_agent_response tools svc s) as [[e|ai_reply] s'];
      cbn [snd] in Hext; subst s; cbn [history] in Hext.
    + exists ext. cbn. by rewrite lookup_insert_eq, Hext.
    + exists (ext ++ [mk_message assistant ai_reply None None None]).
      rewrite save_memory_conversations.
      cbn [append_message with_conversations user_conversations].
      rewrite !lookup_insert_eq. cbn [default from_option id].
      by rewrite Hext.
  - intros user_id m c Hc. split.
    + cbn. rewrite Hc. cbn. by rewrite lookup_insert_eq.
    + apply starts_with_system_app. eauto.
  - intros b' Hstep. eapply step_invariant; [exact Hstep | by split].
Qed.

Lemma conversations_start_with_system_witness :
  let b1 :=
    handle_message Sample.config Sample.tools (Sample.service_text "Hello")
      42 "hi" (load_memory Sample.bot0) in
  reachable Sample.config Sample.tools (Sample.service_text "Hello") b1
  /\ store_ok (user_conversations b1)
  /\ user_conversations b1 !! 42
     = Some [ mk_message system (Some "persona at 2026-01-21 09:05")
                None None None;
              mk_message user (Some "hi") None None None;
              mk_message assistant (Some "Hello") None None None ].
Proof.
  cbv zeta.
  assert (Hreach :
    reachable Sample.config Sample.tools (Sample.service_text "Hello")
      (handle_message Sample.config Sample.tools (Sample.service_text "Hello")
         42 "hi" (load_memory Sample.bot0))).
  { apply (reach_step _ _ _ (load_memory Sample.bot0)).
    - apply (reach_fresh _ _ _ Sample.bot0). reflexivity.
    - apply step_message. }
  split; [exact Hreach|]. split.
  - exact (proj1 (conversations_start_with_system _ _ _ _ Hreach)).
  - vm_compute. reflexivity.
Defined.

End MainFacts.

(** * Further properties of the ledger handlers *)

Module LedgerMore.

Import Sheet Tools.

Lemma with_sheet_same w : with_sheet (sheet w) w = w.
Proof. by destruct w. Qed.

Lemma delete_last_row_run w :
  backend_fault w = None ->
  delete_last_row w
  = if len (sheet w) <=? 1 then (inr Undo.nothing_to_delete, w)
    else (inr (Undo.deleted_last (len (sheet w))),
          with_sheet (delete (Z.to_nat (len (sheet w) - 1)) (sheet w)) w).
Proof.
  intros Hf. unfold delete_last_row, Py.try_except, Py.bind, open_sheet.
  rewrite Hf. cbn [get_all_values].
  destruct (len (sheet w) <=? 1) eqn:E; [reflexivity|].
  unfold delete_rows.
  assert (E1 : (len (sheet w) <? 1) = false).
  { apply Z.ltb_ge. apply Z.leb_gt in E. lia. }
  rewrite E1. reflexivity.
Qed.

Lemma delete_last_index {A} (t : list A) (r : A) :
  delete (Z.to_nat (len (t ++ [r]) - 1)) (t ++ [r]) = t.
Proof.
  rewrite LedgerFacts.len_app. replace (len t + 1 - 1) with (len t) by lia.
  unfold len. rewrite Nat2Z.id, delete_middle. apply app_nil_r.
Qed.

(** [delete_last_row] removes the last row, and only it, of a table of
    two rows or more, and names its position; a table of at most one
    row is left as it is, with the text for an empty sheet. *)
Theorem delete_last_row_removes_last_row w :
  backend_fault w = None ->
  (len (sheet w) <= 1 ->
   delete_last_row w = (inr Undo.nothing_to_delete, w))
  /\ (forall t r,
       sheet w = t ++ [r] -> t <> [] ->
       delete_last_row w
       = (inr (Undo.deleted_last (len t + 1)), with_sheet t w)).
Proof.
  intros Hf. rewrite (delete_last_row_run w Hf). split.
  - intros Hle. apply Z.leb_le in Hle. by rewrite Hle.
  - intros t r Ht Hne. rewrite Ht.
    assert (E : (len (t ++ [r]) <=? 1) = false).
    { apply Z.leb_gt. rewrite LedgerFacts.len_app. unfold len.
      destruct t; [done|]. rewrite length_cons. lia. }
    rewrite E, delete_last_index, LedgerFacts.len_app. reflexivity.
Qed.

Lemma delete_last_row_removes_last_row_witness :
  backend_fault Sample.ledger0 = None
  /\ delete_last_row Sample.ledger0
     = (inr "✅ Deleted the last record (Row 2).",
        with_sheet [ ["2026-01-05"; "Coffee"; "3.50€"] ] Sample.ledger0)
  /\ delete_last_row Sample.single
     = (inr Undo.nothing_to_delete, Sample.single).
Proof.
  split; [reflexivity|]. split.
  - apply (proj2 (delete_last_row_removes_last_row Sample.ledger0 eq_refl)
             [ ["2026-01-05"; "Coffee"; "3.50€"] ]
             ["2026-02-01"; "Rent"; "800€"] eq_refl).
    discriminate.
  - apply (proj1 (delete_last_row_removes_last_row Sample.single eq_refl)).
    unfold len. cbn. lia.
Defined.

(** Undo after append: on a table that was not empty, [delete_last_row]
    right after [append_to_sheet] gives back the ledger as it was and
    names the index the append reported.  The first row of an empty
    table cannot be undone: the table then has one row, which
    [delete_last_row] takes for a header. *)
Theorem append_then_delete_last_row
    item_name amount category date currency note w :
  backend_fault w = None ->
  let appended :=
    snd (append_to_sheet item_name amount category date currency note w) in
  (sheet w <> [] ->
   delete_last_row appended
   = (inr (Undo.deleted_last (len (sheet w) + 1)), w))
  /\ (sheet w = [] ->
      delete_last_row appended = (inr Undo.nothing_to_delete, appended)
      /\ len (sheet appended) = 1).
Proof.
  intros Hf appended. subst appended.
  rewrite (LedgerFacts.append_to_sheet_run _ _ _ _ _ _ w Hf). cbn [snd].
  set (r := [timestamp_for date (now w); _; _; _; _]).
  assert (Hf1 : backend_fault (with_sheet (sheet w ++ [r]) w) = None) by exact Hf.
  rewrite (delete_last_row_run _ Hf1).
  change (sheet (with_sheet (sheet w ++ [r]) w)) with (sheet w ++ [r]).
  split.
  - intros Hne.
    assert (E : (len (sheet w ++ [r]) <=? 1) = false).
    { apply Z.leb_gt. rewrite LedgerFacts.len_app. unfold len.
      destruct (sheet w); [done|]. rewrite length_cons. lia. }
    rewrite E, delete_last_index, LedgerFacts.len_app.
    f_equal. destruct w; reflexivity.
  - intros He. rewrite He. split; reflexivity.
Qed.

Lemma append_then_delete_last_row_witness :
  backend_fault Sample.ledger0 = None
  /\ Sample.table <> []
  /\ delete_last_row
       (snd (append_to_sheet "Lunch" (NInt 25) "Food" None "€" EmptyString
               Sample.ledger0))
     = (inr "✅ Deleted the last record (Row 3).", Sample.ledger0).
Proof.
  split; [reflexivity|]. split; [discriminate|].
  apply (proj1 (append_then_delete_last_row "Lunch" (NInt 25) "Food" None "€"
                  EmptyString Sample.ledger0 eq_refl)).
  discriminate.
Defined.

(** *** Deleting a row by its number *)

Lemma delete_past_end {A} (t : list A) (i : nat) :
  (length t <= i)%nat -> delete i t = t.
Proof.
  intros H. rewrite delete_take_drop, take_ge, drop_ge by lia.
  apply app_nil_r.
Qed.

(** Row numbers after a deletion: [delete_specific_row] on a row of
    the table removes that row; the rows before it keep their numbers
    and every later row moves up by one, so that the number a row was
    saved under no longer names it. *)
Theorem delete_specific_row_shifts_later_rows row_id w :
  backend_fault w = None ->
  1 <= row_id <= len (sheet w) ->
  exists w',
    delete_specific_row row_id w = (inr (deleted_record row_id), w')
    /\ len (sheet w') = len (sheet w) - 1
    /\ (forall k, 1 <= k < row_id ->
          sheet w' !! Z.to_nat (k - 1) = sheet w !! Z.to_nat (k - 1))
    /\ (forall k, row_id <= k ->
          sheet w' !! Z.to_nat (k - 1) = sheet w !! Z.to_nat (k + 1 - 1)).
Proof.
  intros Hf [Hlo Hhi]. unfold len in *.
  rewrite (LedgerFacts.delete_specific_row_run row_id w Hf).
  assert (E1 : (row_id <? 1) = false) by (apply Z.ltb_ge; lia).
  assert (E2 : (row_id >? len (sheet w) + slack) = false).
  { rewrite Z.gtb_ltb. apply Z.ltb_ge. unfold len, slack. lia. }
  rewrite E1, E2. cbn [orb].
  eexists. split; [reflexivity|]. cbn [sheet with_sheet]. split; [|split].
  - unfold len. rewrite length_delete.
    + lia.
    + apply lookup_lt_is_Some. lia.
  - intros k Hk. apply list_lookup_delete_lt. lia.
  - intros k Hk. rewrite list_lookup_delete_ge by lia.
    f_equal. lia.
Qed.

Lemma delete_specific_row_shifts_later_rows_witness :
  backend_fault Sample.ledger0 = None
  /\ 1 <= 1 <= len (sheet Sample.ledger0)
  /\ exists w',
       delete_specific_row 1 Sample.ledger0 = (inr "✅ Deleted record #1.", w')
       /\ sheet w' !! 0%nat = Some ["2026-02-01"; "Rent"; "800€"].
Proof.
  split; [reflexivity|]. split; [by vm_compute|].
  destruct (delete_specific_row_shifts_later_rows 1 Sample.ledger0 eq_refl)
    as (w' & Hrun & _ & _ & Hshift); [by vm_compute|].
  exists w'. split; [exact Hrun|].
  exact (Hshift 1 (Z.le_refl 1)).
Defined.

(** The slack of five rows: for a number past the last row, but by no
    more than five, [delete_specific_row] reports a deleted record
    although the table is left exactly as it was. *)
Theorem delete_specific_row_past_the_end row_id w :
  backend_fault w = None ->
  len (sheet w) < row_id <= len (sheet w) + 5 ->
  delete_specific_row row_id w = (inr (deleted_record row_id), w).
Proof.
  intros Hf [Hlo Hhi].
  rewrite (LedgerFacts.delete_specific_row_run row_id w Hf).
  assert (Hlen : 0 <= len (sheet w)) by (unfold len; lia).
  assert (E1 : (row_id <? 1) = false) by (apply Z.ltb_ge; lia).
  assert (E2 : (row_id >? len (sheet w) + slack) = false).
  { rewrite Z.gtb_ltb. apply Z.ltb_ge. unfold slack. lia. }
  rewrite E1, E2. cbn [orb].
  rewrite delete_past_end by (unfold len in *; lia).
  by rewrite with_sheet_same.
Qed.

Lemma delete_specific_row_past_the_end_witness :
  backend_fault Sample.ledger0 = None
  /\ len (sheet Sample.ledger0) < 7 <= len (sheet Sample.ledger0) + 5
  /\ delete_specific_row 7 Sample.ledger0
     = (inr "✅ Deleted record #7.", Sample.ledger0).
Proof.
  split; [reflexivity|]. split; [by vm_compute|].
  apply (delete_specific_row_past_the_end 7 Sample.ledger0 eq_refl).
  by vm_compute.
Defined.

(** *** A backend that does not answer *)

(** When the credentials or the connection fail with text [d], every
    ledger handler comes back with its own failure text followed by
    [d], and nothing is written. *)
Theorem backend_fault_is_reported w d :
  backend_fault w = Some d ->
  (forall item_name amount category date currency note,
      append_to_sheet item_name amount category date currency note w
      = (inr ("❌ Recording failed, error details: " +:+ d), w))
  /\ (forall row_id,
        delete_specific_row row_id w = (inr ("❌ Failed to delete: " +:+ d), w))
  /\ delete_last_row w = (inr ("❌ Failed to delete: " +:+ d), w)
  /\ (forall row_id item_name amount category date currency note,
        update_specific_row row_id item_name amount category date currency
          note w
        = (inr ("❌ Failed to update: " +:+ d), w))
  /\ (forall start_date end_date,
        Total.calculate_total start_date end_date w
        = (inr ("Error: " +:+ d), w)).
Proof.
  intros Hf. split_and!; intros;
    unfold append_to_sheet, delete_specific_row, delete_last_row,
      update_specific_row, Total.calculate_total,
      Py.try_except, Py.bind, open_sheet;
    rewrite Hf; reflexivity.
Qed.

Lemma backend_fault_is_reported_witness :
  backend_fault Sample.ledger_down = Some "connection refused"
  /\ delete_last_row Sample.ledger_down
     = (inr "❌ Failed to delete: connection refused", Sample.ledger_down)
  /\ Total.calculate_total None None Sample.ledger_down
     = (inr "Error: connection refused", Sample.ledger_down).
Proof.
  split; [reflexivity|].
  destruct (backend_fault_is_reported Sample.ledger_down "connection refused"
              eq_refl) as (_ & _ & Hlast & _ & Htotal).
  split; [exact Hlast | exact (Htotal None None)].
Defined.

(** *** Updating a row *)

Lemma trim_trailing_empty (l : row) :
  Forall (fun c => c = EmptyString) l -> trim_trailing l = [].
Proof.
  induction 1 as [|c l -> _ IH]; [reflexivity|].
  change (trim_trailing (EmptyString :: l))
    with (match trim_trailing l with
          | [] => if Text.nonempty EmptyString then [EmptyString] else []
          | _ => EmptyString :: trim_trailing l
          end).
  by rewrite IH.
Qed.

Lemma length_overlay t item_name amount category date currency note r :
  length (overlay t item_name amount category date currency note r) = length r.
Proof.
  unfold overlay.
  destruct date as [x|]; [destruct (Text.nonempty x)|];
    (destruct item_name as [y|]; [destruct (Text.nonempty y)|]);
    (destruct amount as [n|]);
    (destruct category as [z|]; [destruct (Text.nonempty z)|]);
    (destruct note as [u|]; [destruct (Text.nonempty u)|]);
    by rewrite ?length_insert.
Qed.

(** The run of [update_specific_row] when the backend answers. *)
Lemma update_specific_row_cases row_id item_name amount category date
    currency note w :
  backend_fault w = None ->
  update_specific_row row_id item_name amount category date currency note w
  = if row_id <? 1
    then (inr ("❌ Failed to update: " +:+ bad_range w), w)
    else
      match sheet w !! Z.to_nat (row_id - 1) with
      | None => (inr (row_empty row_id), w)
      | Some r =>
          match trim_trailing (take 5 r) with
          | [] => (inr (row_empty row_id), w)
          | _ =>
              let current_row :=
                overlay (now w) item_name amount category date currency note
                  [cell r 0; cell r 1; cell r 2; cell r 3; cell r 4] in
              (inr (updated_record row_id current_row),
               with_sheet
                 (<[ Z.to_nat (row_id - 1) := current_row ++ drop 5 r ]>
                    (sheet w)) w)
          end
      end.
Proof.
  intros Hf. destruct (row_id <? 1) eqn:E1.
  - unfold update_specific_row, Py.try_except, Py.bind, open_sheet.
    rewrite Hf. unfold get_range. rewrite E1. reflexivity.
  - destruct (sheet w !! Z.to_nat (row_id - 1)) as [r|] eqn:Er.
    + destruct (trim_trailing (take 5 r)) as [|x t] eqn:Et.
      * unfold update_specific_row, Py.try_except, Py.bind, open_sheet.
        rewrite Hf. unfold get_range. rewrite E1.
        unfold Py.bind, Py.get. rewrite Er, Et. reflexivity.
      * apply LedgerFacts.update_specific_row_run; try done.
        -- apply Z.ltb_ge in E1. lia.
        -- by rewrite Et.
    + unfold update_specific_row, Py.try_except, Py.bind, open_sheet.
      rewrite Hf. unfold get_range. rewrite E1.
      unfold Py.bind, Py.get. rewrite Er. reflexivity.
Qed.

(** [update_specific_row] writes nothing unless the row holds a value
    in one of its first five cells: for a row past the table, or one
    whose cells A to E are all empty, it answers that the row seems
    empty, whatever new values were given; for a number below 1 the
    ranged read fails and the answer is the failure text with the
    backend's error. *)
Theorem update_specific_row_needs_a_row
    row_id item_name amount category date currency note w :
  backend_fault w = None ->
  (1 <= row_id ->
   Forall (fun c => c = EmptyString)
     (take 5 (default [] (sheet w !! Z.to_nat (row_id - 1)))) ->
   update_specific_row row_id item_name amount category date currency note w
   = (inr (row_empty row_id), w))
  /\ (row_id < 1 ->
      update_specific_row row_id item_name amount category date currency
        note w
      = (inr ("❌ Failed to update: " +:+ bad_range w), w)).
Proof.
  intros Hf. rewrite (update_specific_row_cases _ _ _ _ _ _ _ w Hf). split.
  - intros Hk He.
    assert (E1 : (row_id <? 1) = false) by (apply Z.ltb_ge; lia).
    rewrite E1. destruct (sheet w !! Z.to_nat (row_id - 1)) as [r|];
      [|reflexivity].
    cbn in He. by rewrite (trim_trailing_empty _ He).
  - intros Hk. assert (E1 : (row_id <? 1) = true) by (apply Z.ltb_lt; lia).
    by rewrite E1.
Qed.

Lemma update_specific_row_needs_a_row_witness :
  backend_fault Sample.ledger0 = None
  /\ update_specific_row 3 (Some "Pizza") (Some (NInt 12)) None None "€" None
       Sample.ledger0
     = (inr "⚠️ Row 3 seems empty or invalid.", Sample.ledger0)
  /\ update_specific_row 0 (Some "Pizza") None None None "€" None
       Sample.ledger0
     = (inr "❌ Failed to update: invalid range", Sample.ledger0).
Proof.
  split; [reflexivity|].
  split.
  - apply (proj1 (update_specific_row_needs_a_row 3 (Some "Pizza")
                    (Some (NInt 12)) None None "€" None Sample.ledger0
                    eq_refl)).
    + by vm_compute.
    + constructor.
  - apply (proj2 (update_specific_row_needs_a_row 0 (Some "Pizza") None None
                    None "€" None Sample.ledger0 eq_refl)).
    by vm_compute.
Defined.

Local Ltac unchanged :=
  cbn [snd]; split_and!;
  [ done | done | intros; congruence | apply with_sheet_same ].

(** What [update_specific_row] never touches, whatever its arguments
    and whatever the outcome: the number of rows, every row other than
    the one named, the cells of that row right of column E, and the
    surroundings of the table. *)
Theorem update_specific_row_keeps_other_rows
    row_id item_name amount category date currency note w :
  let w' :=
    snd (update_specific_row row_id item_name amount category date currency
           note w) in
  length (sheet w') = length (sheet w)
  /\ (forall j, j <> Z.to_nat (row_id - 1) -> sheet w' !! j = sheet w !! j)
  /\ (forall r r',
        sheet w !! Z.to_nat (row_id - 1) = Some r ->
        sheet w' !! Z.to_nat (row_id - 1) = Some r' ->
        drop 5 r' = drop 5 r)
  /\ with_sheet (sheet w) w' = w.
Proof.
  cbv zeta. destruct (backend_fault w) as [d|] eqn:Hf.
  { assert (E : update_specific_row row_id item_name amount category date
                  currency note w
                = (inr ("❌ Failed to update: " +:+ d), w)).
    { unfold update_specific_row, Py.try_except, Py.bind, open_sheet.
      by rewrite Hf. }
    rewrite E. unchanged. }
  rewrite (update_specific_row_cases _ _ _ _ _ _ _ w Hf).
  destruct (row_id <? 1); [unchanged|].
  destruct (sheet w !! Z.to_nat (row_id - 1)) as [r|] eqn:Er; [|unchanged].
  destruct (trim_trailing (take 5 r)) as [|x t]; [unchanged|].
  cbn [snd sheet with_sheet]. split_and!.
  - apply length_insert.
  - intros j Hj. by apply list_lookup_insert_ne.
  - intros r0 r' H1 H2. simplify_eq.
    rewrite list_lookup_insert_eq in H2 by (eapply lookup_lt_Some; eauto).
    simplify_eq.
    rewrite drop_app_length'; [done|].
    by rewrite length_overlay.
  - destruct w; reflexivity.
Qed.

Lemma update_specific_row_keeps_other_rows_witness :
  sheet (snd (update_specific_row 2 None (Some (NInt 50)) None None "€" None
                Sample.ledger0)) !! 0%nat
  = Some ["2026-01-05"; "Coffee"; "3.50€"].
Proof.
  etrans.
  - apply (proj1 (proj2 (update_specific_row_keeps_other_rows 2 None
                           (Some (NInt 50)) None None "€" None
                           Sample.ledger0)) 0%nat).
    by vm_compute.
  - reflexivity.
Defined.

End LedgerMore.

(** * Further properties of the total *)

Module TotalMore.

Import Sheet Total.

(** [calculate_total] and [get_sheet_url] only read: whatever the
    arguments and the state of the backend, each returns a text and
    leaves the ledger exactly as it was. *)
Theorem reading_handlers_change_nothing w :
  (forall start_date end_date,
      exists txt, calculate_total start_date end_date w = (inr txt, w))
  /\ (exists txt, Tools.get_sheet_url w = (inr txt, w)).
Proof.
  split.
  - intros start_date end_date.
    unfold calculate_total, Py.try_except, Py.bind, open_sheet.
    destruct (backend_fault w); [by eexists|].
    cbn [get_all_values].
    destruct (Tools.len (sheet w) <=? 1); [by eexists|].
    unfold strptime.
    destruct (Tools.truthy start_date);
      [destruct (Date.parse_ymd
                   (Text.code_points (default EmptyString start_date)))|];
      cbn; try (by eexists);
      (destruct (Tools.truthy end_date);
       [destruct (Date.parse_ymd
                    (Text.code_points (default EmptyString end_date)))|]);
      cbn; try (by eexists);
      match goal with
      | |- context [scan ?a ?b ?c] => destruct (scan a b c)
      end; by eexists.
  - unfold Tools.get_sheet_url, Py.bind, Py.get.
    destruct (Tools.truthy (sheet_id w)); by eexists.
Qed.

(** A bound that is given and is not a date: on a table of two rows or
    more the result is the text ["Error: "] followed by the text of
    the error, and no total; on a table of at most one row the bounds
    are not looked at. *)
Theorem calculate_total_rejects_bad_bound start_date end_date w :
  backend_fault w = None ->
  (1 < Tools.len (sheet w) ->
   bound_of start_date = None \/ bound_of end_date = None ->
   exists detail,
     calculate_total start_date end_date w = (inr ("Error: " +:+ detail), w))
  /\ (Tools.len (sheet w) <= 1 ->
      calculate_total start_date end_date w = (inr sheet_empty, w)).
Proof.
  intros Hf. unfold calculate_total, Py.try_except, Py.bind, open_sheet.
  rewrite Hf. cbn [get_all_values]. split.
  - intros Hlen Hbad.
    assert (E : (Tools.len (sheet w) <=? 1) = false) by (apply Z.leb_gt; lia).
    rewrite E. unfold bound_of, strptime, Date.strptime_ymd in *.
    destruct (Tools.truthy start_date);
      [destruct (Date.parse_ymd
                   (Text.code_points (default EmptyString start_date)))|];
      cbn; try (by eexists);
      (destruct (Tools.truthy end_date);
       [destruct (Date.parse_ymd
                    (Text.code_points (default EmptyString end_date)))|]);
      cbn; try (by eexists);
      by destruct Hbad.
  - intros Hlen.
    assert (E : (Tools.len (sheet w) <=? 1) = true) by (apply Z.leb_le; lia).
    by rewrite E.
Qed.

Lemma calculate_total_rejects_bad_bound_witness :
  backend_fault Sample.ledger0 = None
  /\ (exists detail,
        calculate_total (Some "January") None Sample.ledger0
        = (inr ("Error: " +:+ detail), Sample.ledger0))
  /\ calculate_total (Some "January") None Sample.ledger0
     = (inr "Error: time data 'January' does not match format '%Y-%m-%d'",
        Sample.ledger0)
  /\ calculate_total (Some "2026-02-30") None Sample.ledger0
     = (inr "Error: day is out of range for month", Sample.ledger0)
  /\ calculate_total None (Some "2026-01-31 ") Sample.ledger0
     = (inr "Error: unconverted data remains:  ", Sample.ledger0)
  /\ calculate_total (Some "January") None Sample.single
     = (inr "0.00 (Sheet empty)", Sample.single).
Proof.
  split; [reflexivity|]. split.
  - apply (proj1 (calculate_total_rejects_bad_bound (Some "January") None
                    Sample.ledger0 eq_refl)).
    + by vm_compute.
    + left. by vm_compute.
  - split; [by vm_compute|]. split; [by vm_compute|].
    split; [by vm_compute|].
    apply (proj2 (calculate_total_rejects_bad_bound (Some "January") None
                    Sample.single eq_refl)).
    by vm_compute.
Defined.

(** *** Amounts with more than one separator *)

Lemma filter_bool_cons {A} (f : A -> bool) (c : A) (l : list A) :
  filter (fun x => f x = true) (c :: l)
  = if f c then c :: filter (fun x => f x = true) l
    else filter (fun x => f x = true) l.
Proof.
  rewrite filter_cons.
  destruct (decide (f c = true)) as [H|H]; destruct (f c); done.
Qed.

Lemma is_char_eq a c : Text.is_char a c = true -> c = Text.byte a.
Proof. unfold Text.is_char. apply Z.eqb_eq. Qed.

Lemma comma_to_dot_is_dot c :
  Text.is_char "." (comma_to_dot c)
  = Text.is_char "." c || Text.is_char "," c.
Proof.
  unfold comma_to_dot. destruct (Text.is_char "," c) eqn:E.
  - by rewrite orb_true_r.
  - by rewrite orb_false_r.
Qed.

Lemma dots_clean s : Amount.dots (clean s) = Amount.separators s.
Proof.
  unfold clean, Amount.dots, Amount.separators.
  induction (Text.code_points s) as [|c l IH]; [reflexivity|].
  rewrite (filter_bool_cons keeps).
  rewrite (filter_bool_cons
             (fun c => Text.is_char "." c || Text.is_char "," c)).
  cbn beta. destruct (keeps c) eqn:Ek.
  - cbn [map]. rewrite (filter_bool_cons (fun c => Text.is_char "." c)).
    cbn beta. rewrite comma_to_dot_is_dot.
    destruct (Text.is_char "." c || Text.is_char "," c); cbn [length];
      by rewrite IH.
  - unfold keeps in Ek.
    apply orb_false_elim in Ek as [Ek _].
    apply orb_false_elim in Ek as [Ek E2].
    apply orb_false_elim in Ek as [_ E1].
    rewrite E1, E2. exact IH.
Qed.

Lemma split_dot_cons c l :
  Float.split_dot (c :: l)
  = if Text.is_char "." c then ([], Some l)
    else let '(a, b) := Float.split_dot l in (c :: a, b).
Proof. reflexivity. Qed.

Lemma dots_cons c l :
  Amount.dots (c :: l)
  = ((if Text.is_char "." c then 1 else 0) + Amount.dots l)%nat.
Proof.
  unfold Amount.dots.
  rewrite (filter_bool_cons (fun c => Text.is_char "." c)).
  by destruct (Text.is_char "." c).
Qed.

Lemma dotted_not_digits l :
  (1 <= Amount.dots l)%nat -> forallb Text.is_decimal l = false.
Proof.
  induction l as [|c l IH]; [cbn; lia|].
  rewrite dots_cons. cbn [forallb].
  destruct (Text.is_char "." c) eqn:Ec.
  - apply is_char_eq in Ec as ->. reflexivity.
  - intros H. rewrite IH by (cbn in H; lia). apply andb_false_r.
Qed.

Lemma parse_unsigned_two_dots neg l :
  (2 <= Amount.dots l)%nat -> Float.parse_unsigned neg l = None.
Proof.
  intros H. unfold Float.parse_unsigned.
  assert (Hs : exists ip rest,
             Float.split_dot l = (ip, Some rest)
             /\ (1 <= Amount.dots rest)%nat).
  { induction l as [|c l IH]; [cbn in H; lia|].
    rewrite split_dot_cons. rewrite dots_cons in H.
    destruct (Text.is_char "." c).
    - exists [], l. split; [reflexivity|lia].
    - destruct IH as (ip & rest & -> & Hr); [cbn in H; lia|].
      exists (c :: ip), rest. by split. }
  destruct Hs as (ip & rest & -> & Hr). cbn [default from_option id].
  rewrite (dotted_not_digits rest Hr). by rewrite andb_false_r.
Qed.

Lemma parse_two_separators s :
  (2 <= Amount.separators s)%nat -> Float.parse (clean s) = None.
Proof.
  rewrite <- dots_clean. unfold Float.parse.
  destruct (clean s) as [|c l]; [reflexivity|].
  intros H. destruct (Text.is_char "-" c) eqn:Ec.
  - apply parse_unsigned_two_dots. rewrite dots_cons in H.
    apply is_char_eq in Ec as ->. exact H.
  - by apply parse_unsigned_two_dots.
Qed.

(** An amount written with a thousands separator is not counted: when
    the amount cell of a row holds two or more dots and commas (as in
    [1,234.56] or [1.234,56]), the loop of [calculate_total] passes
    over the row without a word, whatever its date and the range. *)
Theorem amount_with_two_separators_is_skipped start_dt end_dt acc r :
  (2 <= Amount.separators (Tools.cell r 2))%nat ->
  scan_row start_dt end_dt acc r = acc.
Proof.
  intros H. unfold scan_row. destruct acc as [total row_count].
  rewrite (parse_two_separators _ H).
  destruct (Tools.len r <? 3); [reflexivity|].
  destruct (Date.strptime_ymd _); [|reflexivity].
  by repeat case_match.
Qed.

Lemma amount_with_two_separators_is_skipped_witness :
  (2 <= Amount.separators "1,234.56€")%nat
  /\ scan_row None None (Float.zero, 0)
       ["2026-01-07"; "Laptop"; "1,234.56€"; "Others"]
     = (Float.zero, 0).
Proof.
  split; [vm_compute; lia|].
  apply (amount_with_two_separators_is_skipped None None (Float.zero, 0)
           ["2026-01-07"; "Laptop"; "1,234.56€"; "Others"]).
  vm_compute. lia.
Defined.

End TotalMore.

(** * From [append_to_sheet] to [calculate_total] *)

Module RoundTrip.

Import Sheet Total.

Lemma chars_app a b : Text.chars (a +:+ b) = Text.chars a ++ Text.chars b.
Proof.
  unfold Text.chars. induction a as [|c a IH]; [reflexivity|].
  simpl. f_equal. exact IH.
Qed.

Lemma bytes_app a b : Stamp.bytes (a +:+ b) = Stamp.bytes a ++ Stamp.bytes b.
Proof. unfold Stamp.bytes. by rewrite chars_app, map_app. Qed.

(** ASCII bytes are their own code points. *)
Lemma decode_ascii l r :
  forallb (fun b => b <? 128) l = true ->
  Text.decode (l ++ r) = l ++ Text.decode r.
Proof.
  induction l as [|b l IH]; [reflexivity|]. cbn [forallb].
  intros [Hb Hl]%andb_prop. cbn [app Text.decode]. rewrite Hb.
  by rewrite (IH Hl).
Qed.

Lemma code_points_ascii_app a b :
  Stamp.ascii a = true ->
  Text.code_points (a +:+ b) = Stamp.bytes a ++ Text.code_points b.
Proof.
  intros H. unfold Text.code_points.
  change (map Text.byte (Text.chars (a +:+ b))) with (Stamp.bytes (a +:+ b)).
  rewrite bytes_app. by apply decode_ascii.
Qed.


Lemma in_range (P : Z -> bool) (lo n : Z) :
  forallb P (map (fun i => lo + Z.of_nat i) (seq 0 (Z.to_nat n))) = true ->
  forall z, lo <= z < lo + n -> P z = true.
Proof.
  intros H z Hz. rewrite forallb_forall in H. apply H.
  apply in_map_iff. exists (Z.to_nat (z - lo)). split; [lia|].
  apply in_seq. lia.
Qed.

Lemma year_text y :
  1000 <= y <= 9999 ->
  match Stamp.bytes (Text.pad4 y) with
  | [a; b; c; d] =>
      forallb (fun b => b <? 128) [a; b; c; d]
      && forallb Text.is_decimal [a; b; c; d]
      && (Text.digits_val [a; b; c; d] =? y)
  | _ => false
  end = true.
Proof.
  intros H.
  apply (in_range
           (fun y =>
              match Stamp.bytes (Text.pad4 y) with
              | [a; b; c; d] =>
                  forallb (fun b => b <? 128) [a; b; c; d]
                  && forallb Text.is_decimal [a; b; c; d]
                  && (Text.digits_val [a; b; c; d] =? y)
              | _ => false
              end) 1000 9000); [by vm_compute | lia].
Qed.

Lemma month_text m :
  1 <= m <= 12 ->
  match Stamp.bytes (Text.pad2 m) with
  | [a; b] =>
      forallb (fun b => b <? 128) [a; b]
      && match Date.month_group [a; b] with
         | Some (m', []) => m' =? m
         | _ => false
         end
  | _ => false
  end = true.
Proof.
  intros H.
  apply (in_range
           (fun m =>
              match Stamp.bytes (Text.pad2 m) with
              | [a; b] =>
                  forallb (fun b => b <? 128) [a; b]
                  && match Date.month_group [a; b] with
                     | Some (m', []) => m' =? m
                     | _ => false
                     end
              | _ => false
              end) 1 12); [by vm_compute | lia].
Qed.

Lemma day_text d :
  1 <= d <= 31 ->
  match Stamp.bytes (Text.pad2 d) with
  | [a; b] =>
      forallb (fun b => b <? 128) [a; b]
      && match Date.day_group [a; b] with
         | Some (d', []) => d' =? d
         | _ => false
         end
  | _ => false
  end = true.
Proof.
  intros H.
  apply (in_range
           (fun d =>
              match Stamp.bytes (Text.pad2 d) with
              | [a; b] =>
                  forallb (fun b => b <? 128) [a; b]
                  && match Date.day_group [a; b] with
                     | Some (d', []) => d' =? d
                     | _ => false
                     end
              | _ => false
              end) 1 31); [by vm_compute | lia].
Qed.

(** A group that takes both of two characters takes them whatever
    follows. *)
Lemma month_group_two a b m rest :
  Date.month_group [a; b] = Some (m, []) ->
  Date.month_group (a :: b :: rest) = Some (m, rest).
Proof.
  unfold Date.month_group. intros H.
  repeat case_match; simplify_eq; reflexivity.
Qed.

Lemma day_group_two a b d rest :
  Date.day_group [a; b] = Some (d, []) ->
  Date.day_group (a :: b :: rest) = Some (d, rest).
Proof.
  unfold Date.day_group. intros H.
  repeat case_match; simplify_eq; reflexivity.
Qed.

Lemma days_in_month_le y m : Date.days_in_month y m <= 31.
Proof. unfold Date.days_in_month. repeat case_match; lia. Qed.

(** The first ten characters of a full time stamp parse back to its
    date. *)
Lemma stamp_parses_back t :
  Stamp.valid t ->
  Date.strptime_ymd (Text.prefix 10 (Date.strftime_full t))
  = Some (Stamp.date_of t).
Proof.
  intros (Hy & Hm & Hd1 & Hd2).
  pose proof (days_in_month_le (Date.year t) (Date.month t)) as Hle.
  pose proof (year_text _ Hy) as Y.
  pose proof (month_text _ Hm) as M.
  pose proof (day_text (Date.day t) ltac:(lia)) as D.
  unfold Text.prefix, Text.code_points.
  change (map Text.byte (Text.chars (Date.strftime_full t)))
    with (Stamp.bytes (Date.strftime_full t)).
  unfold Date.strftime_full, Date.strftime_Ymd.
  rewrite !bytes_app.
  change (Stamp.bytes (String "-" ?x)) with (45 :: Stamp.bytes x).
  destruct (Stamp.bytes (Text.pad4 (Date.year t)))
    as [|y1 [|y2 [|y3 [|y4 [|]]]]]; try discriminate Y.
  destruct (Stamp.bytes (Text.pad2 (Date.month t)))
    as [|m1 [|m2 [|]]]; try discriminate M.
  destruct (Stamp.bytes (Text.pad2 (Date.day t)))
    as [|d1 [|d2 [|]]]; try discriminate D.
  apply andb_prop in Y as [Y1 Y3]. apply andb_prop in Y1 as [Y1 Y2].
  apply Z.eqb_eq in Y3.
  apply andb_prop in M as [M1 M2]. apply andb_prop in D as [D1 D2].
  destruct (Date.month_group [m1; m2]) as [[m' [|]]|] eqn:Em;
    try discriminate M2.
  apply Z.eqb_eq in M2. subst m'.
  destruct (Date.day_group [d1; d2]) as [[d' [|]]|] eqn:Ed;
    try discriminate D2.
  apply Z.eqb_eq in D2. subst d'.
  set (tail := Stamp.bytes (String " " (Date.strftime_HMS t))).
  assert (Hdec : take 10
                   (Text.decode
                      (([y1; y2; y3; y4] ++ [45; m1; m2] ++ [45; d1; d2])
                         ++ tail))
                 = [y1; y2; y3; y4; 45; m1; m2; 45; d1; d2]).
  { rewrite decode_ascii.
    - reflexivity.
    - cbn [app forallb] in *.
      apply andb_prop in Y1 as (? & (? & (? & (? & _)%andb_prop)%andb_prop)%andb_prop).
      apply andb_prop in M1 as (? & (? & _)%andb_prop).
      apply andb_prop in D1 as (? & (? & _)%andb_prop).
      by repeat (apply andb_true_intro; split). }
  rewrite Hdec.
  unfold Date.strptime_ymd, Date.parse_ymd, Date.match_ymd, Date.year_group.
  rewrite Y2, Y3. cbn [Date.minus].
  change (Text.is_char "-" 45) with true. cbv iota.
  rewrite (month_group_two m1 m2 _ _ Em). cbn [Date.minus].
  change (Text.is_char "-" 45) with true. cbv iota.
  rewrite Ed.
  assert (E1 : (Date.year t =? 0) = false) by (apply Z.eqb_neq; lia).
  assert (E2 : (Date.days_in_month (Date.year t) (Date.month t) <? Date.day t)
               = false) by (apply Z.ltb_ge; lia).
  rewrite E1, E2. reflexivity.
Qed.


(** The total of a table that has just received a row whose date is
    [day] and whose amount text reads as [v]. *)
Lemma total_after_append item_name amount category date currency note
    start_date end_date first last day v w :
  backend_fault w = None ->
  sheet w <> [] ->
  Date.strptime_ymd (Text.prefix 10 (Tools.timestamp_for date (now w)))
  = Some day ->
  Float.parse (clean (Tools.str_number amount +:+ currency)) = Some v ->
  bound_of start_date = Some first ->
  bound_of end_date = Some last ->
  within first last day = true ->
  let w' :=
    snd (Tools.append_to_sheet item_name amount category date currency note
           w) in
  calculate_total start_date end_date w'
  = (inr (Float.format_2f
            (float_sum (counted_values first last (sheet w) ++ [v]))), w').
Proof.
  intros Hf Hne Hday Hv Hs He Hin. cbv zeta.
  rewrite (LedgerFacts.append_to_sheet_run _ _ _ _ _ _ w Hf). cbn [snd].
  set (r := [Tools.timestamp_for date (now w); _; _; _; _]).
  rewrite (TotalFacts.calculate_total_run start_date end_date first last
             (with_sheet (sheet w ++ [r]) w) Hf Hs He).
  cbn [sheet with_sheet].
  assert (E : (Tools.len (sheet w ++ [r]) <=? 1) = false).
  { apply Z.leb_gt. rewrite LedgerFacts.len_app. unfold Tools.len.
    destruct (sheet w); [done|]. rewrite length_cons. lia. }
  rewrite E. unfold counted_values. rewrite omap_app.
  assert (Hr : counted first last r = Some v).
  { unfold counted, row_date, row_value, r. by rewrite Hday, Hin. }
  cbn [omap list_omap]. rewrite Hr. reflexivity.
Qed.

(** A record saved without a date is found again: the time stamp
    [append_to_sheet] writes from the clock reads back, in
    [calculate_total], as the day of that clock, so that the new row
    is counted, with the value its amount text reads as, in every
    range that holds today. *)
Theorem append_without_date_is_counted_today
    item_name amount category date currency note
    start_date end_date first last v w :
  backend_fault w = None ->
  sheet w <> [] ->
  Stamp.valid (now w) ->
  Tools.truthy date = false ->
  Float.parse (clean (Tools.str_number amount +:+ currency)) = Some v ->
  bound_of start_date = Some first ->
  bound_of end_date = Some last ->
  within first last (Stamp.date_of (now w)) = true ->
  let w' :=
    snd (Tools.append_to_sheet item_name amount category date currency note
           w) in
  calculate_total start_date end_date w'
  = (inr (Float.format_2f
            (float_sum (counted_values first last (sheet w) ++ [v]))), w').
Proof.
  intros Hf Hne Hvalid Hdate Hv Hs He Hin.
  apply (total_after_append _ _ _ _ _ _ _ _ _ _ (Stamp.date_of (now w)));
    try done.
  assert (Ht : Tools.timestamp_for date (now w) = Date.strftime_full (now w)).
  { unfold Tools.timestamp_for, Tools.truthy in *.
    destruct date as [d|]; [by rewrite Hdate | reflexivity]. }
  rewrite Ht. by apply stamp_parses_back.
Qed.

Lemma append_without_date_is_counted_today_witness :
  let w' :=
    snd (Tools.append_to_sheet "Lunch" (Tools.NInt 25) "Food" None "€"
           EmptyString Sample.ledger0) in
  Stamp.valid (now Sample.ledger0)
  /\ Float.parse (clean "25€") = Some (Float.of_decimal false 25 0)
  /\ calculate_total (Some "2026-01-01") (Some "2026-01-31") w'
     = (inr "28.50", w').
Proof.
  cbv zeta. split; [|split].
  - unfold Stamp.valid. by vm_compute.
  - by vm_compute.
  - etrans.
    + apply (append_without_date_is_counted_today "Lunch" (Tools.NInt 25)
               "Food" None "€" EmptyString (Some "2026-01-01")
               (Some "2026-01-31")
               (Some (Date.mk_datetime 2026 1 1 0 0 0))
               (Some (Date.mk_datetime 2026 1 31 0 0 0))
               (Float.of_decimal false 25 0) Sample.ledger0);
        by vm_compute.
    + by vm_compute.
Defined.



End RoundTrip.

(** * Whole amounts *)

Module WholeAmount.

Import Total.

Lemma digit_bytes :
  forallb
    (fun k => Text.is_decimal (48 + k) && (Text.decimal_val (48 + k) =? k)
              && negb (Text.is_char "." (48 + k))
              && negb (Text.is_char "," (48 + k))
              && negb (Text.is_char "-" (48 + k)))
    [0; 1; 2; 3; 4; 5; 6; 7; 8; 9] = true.
Proof. by vm_compute. Qed.

Lemma digit_byte_intro k :
  In k [0; 1; 2; 3; 4; 5; 6; 7; 8; 9] -> Amount.digit_byte (48 + k).
Proof.
  intros Hk. pose proof digit_bytes as H. rewrite forallb_forall in H.
  specialize (H k Hk).
  repeat (apply andb_prop in H as [H ?]).
  unfold Amount.digit_byte. split_and!; try done.
  - apply Z.eqb_eq in H3. lia.
  - by apply negb_true_iff.
  - by apply negb_true_iff.
  - by apply negb_true_iff.
  - cbn [In] in Hk. apply Z.ltb_lt. lia.
Qed.

Lemma uint_bytes u :
  Forall Amount.digit_byte (Stamp.bytes (NilEmpty.string_of_uint u)).
Proof.
  induction u; cbn [NilEmpty.string_of_uint]; [constructor|..];
    (constructor; [|exact IHu]).
  - apply (digit_byte_intro 0). cbn; tauto.
  - apply (digit_byte_intro 1). cbn; tauto.
  - apply (digit_byte_intro 2). cbn; tauto.
  - apply (digit_byte_intro 3). cbn; tauto.
  - apply (digit_byte_intro 4). cbn; tauto.
  - apply (digit_byte_intro 5). cbn; tauto.
  - apply (digit_byte_intro 6). cbn; tauto.
  - apply (digit_byte_intro 7). cbn; tauto.
  - apply (digit_byte_intro 8). cbn; tauto.
  - apply (digit_byte_intro 9). cbn; tauto.
Qed.

Lemma digits_acc u acc :
  fold_left (fun a c => 10 * a + Text.decimal_val c)
    (Stamp.bytes (NilEmpty.string_of_uint u)) (Z.pos acc)
  = Z.pos (Pos.of_uint_acc u acc).
Proof.
  revert acc. induction u; intros acc;
    cbn [NilEmpty.string_of_uint Pos.of_uint_acc]; [reflexivity|..];
    match goal with
    | |- fold_left _ (Stamp.bytes (String ?c ?s)) _ = _ =>
        change (Stamp.bytes (String c s))
          with (Text.byte c :: Stamp.bytes s)
    end;
    cbn [fold_left];
    match goal with
    | |- fold_left _ _ (10 * _ + Text.decimal_val (Text.byte ?c)) = _ =>
        let v := eval vm_compute in (Text.decimal_val (Text.byte c)) in
        change (Text.decimal_val (Text.byte c)) with v
    end;
    match goal with
    | |- fold_left _ _ ?a = Z.pos (Pos.of_uint_acc _ ?b) =>
        replace a with (Z.pos b) by lia
    end; apply IHu.
Qed.

Lemma digits_uint u :
  Text.digits_val (Stamp.bytes (NilEmpty.string_of_uint u))
  = Z.of_N (Pos.of_uint u).
Proof.
  unfold Text.digits_val.
  induction u; cbn [NilEmpty.string_of_uint Pos.of_uint];
    [reflexivity|..];
    match goal with
    | |- fold_left _ (Stamp.bytes (String ?c ?s)) _ = _ =>
        change (Stamp.bytes (String c s))
          with (Text.byte c :: Stamp.bytes s)
    end;
    cbn [fold_left];
    match goal with
    | |- fold_left _ _ (10 * 0 + Text.decimal_val (Text.byte ?c)) = _ =>
        let v := eval vm_compute in (10 * 0 + Text.decimal_val (Text.byte c)) in
        change (10 * 0 + Text.decimal_val (Text.byte c)) with v
    end;
    [exact IHu | apply digits_acc..].
Qed.

Lemma digit_bytes_ascii l :
  Forall Amount.digit_byte l -> forallb (fun b => b <? 128) l = true.
Proof.
  induction 1 as [|b l (_ & _ & _ & _ & _ & Hb) _ IH]; [reflexivity|].
  cbn [forallb]. by rewrite Hb, IH.
Qed.

Lemma digit_bytes_decimal l :
  Forall Amount.digit_byte l -> forallb Text.is_decimal l = true.
Proof.
  induction 1 as [|b l (Hb & _) _ IH]; [reflexivity|].
  cbn [forallb]. by rewrite Hb, IH.
Qed.

Lemma clean_dropped l :
  forallb (fun c => negb (keeps c)) l = true ->
  filter (fun c => keeps c = true) l = [].
Proof.
  induction l as [|c l IH]; [reflexivity|]. cbn [forallb].
  intros [Hc Hl]%andb_prop. rewrite (TotalMore.filter_bool_cons keeps).
  apply negb_true_iff in Hc. rewrite Hc. by apply IH.
Qed.

Lemma clean_kept l :
  Forall Amount.digit_byte l ->
  map comma_to_dot (filter (fun c => keeps c = true) l) = l.
Proof.
  induction 1 as [|b l (Hb & _ & _ & Hc & _) _ IH]; [reflexivity|].
  rewrite (TotalMore.filter_bool_cons keeps).
  unfold keeps at 1. rewrite Hb. cbn [orb map]. rewrite IH.
  f_equal. unfold comma_to_dot. by rewrite Hc.
Qed.

Lemma split_dot_digits l :
  Forall Amount.digit_byte l -> Float.split_dot l = (l, None).
Proof.
  induction 1 as [|b l (_ & _ & Hd & _) _ IH]; [reflexivity|].
  by rewrite TotalMore.split_dot_cons, IH, Hd.
Qed.

Lemma parse_unsigned_digits neg l :
  Forall Amount.digit_byte l -> l <> [] ->
  Float.parse_unsigned neg l
  = Some (Float.of_decimal neg (Text.digits_val l) 0).
Proof.
  intros Hd Hne. unfold Float.parse_unsigned.
  rewrite (split_dot_digits l Hd). cbn [default from_option id forallb length].
  rewrite (digit_bytes_decimal l Hd), app_nil_r, Nat.add_0_r.
  destruct l; [done|]. reflexivity.
Qed.

Lemma to_uint_digits p :
  let l := Stamp.bytes (NilEmpty.string_of_uint (Pos.to_uint p)) in
  Stamp.bytes (NilZero.string_of_uint (Pos.to_uint p)) = l
  /\ Forall Amount.digit_byte l /\ l <> [] /\ Text.digits_val l = Z.pos p.
Proof.
  cbv zeta. pose proof (DecimalPos.Unsigned.of_to p) as H.
  split_and!.
  - destruct (Pos.to_uint p); [discriminate H|reflexivity..].
  - apply uint_bytes.
  - destruct (Pos.to_uint p); [discriminate H|discriminate..].
  - by rewrite digits_uint, H.
Qed.

(** The bytes of [str(n)]: a minus sign for a negative number, then
    the digits of its absolute value. *)
Lemma str_Z_bytes n :
  exists digits,
    Stamp.bytes (Text.str_Z n)
    = (if n <? 0 then [Text.byte "-"] else []) ++ digits
    /\ Forall Amount.digit_byte digits /\ digits <> []
    /\ Text.digits_val digits = Z.abs n.
Proof.
  unfold Text.str_Z.
  destruct n as [|p|p]; cbn [Z.to_int NilZero.string_of_int Z.abs Z.ltb
    Z.compare app].
  - exists [48]. split_and!; try done.
    constructor; [|constructor]. apply (digit_byte_intro 0). cbn; tauto.
  - destruct (to_uint_digits p) as (-> & Hd & Hne & Hv). eauto.
  - destruct (to_uint_digits p) as (Hs & Hd & Hne & Hv).
    eexists. split; [|eauto].
    change (Stamp.bytes (String "-" ?s)) with (Text.byte "-" :: Stamp.bytes s).
    by rewrite Hs.
Qed.

(** A whole amount comes back as it went in: the text
    [append_to_sheet] writes for an integer amount and a currency
    without decimal digits (of any script), dots, commas and minus
    signs reads, in [calculate_total], as the float nearest to that
    integer, negative amounts included. *)
Theorem whole_amount_reads_back n currency :
  forallb (fun c => negb (keeps c)) (Text.code_points currency) = true ->
  Float.parse (clean (Tools.str_number (Tools.NInt n) +:+ currency))
  = Some (Float.of_decimal (n <? 0) (Z.abs n) 0).
Proof.
  intros Hc. cbn [Tools.str_number].
  destruct (str_Z_bytes n) as (digits & Hb & Hd & Hne & Hv).
  assert (Hascii : Stamp.ascii (Text.str_Z n) = true).
  { unfold Stamp.ascii. rewrite Hb, forallb_app, (digit_bytes_ascii _ Hd).
    by destruct (n <? 0). }
  unfold clean.
  rewrite (RoundTrip.code_points_ascii_app _ _ Hascii), Hb.
  rewrite !filter_app, (clean_dropped _ Hc), app_nil_r, map_app.
  rewrite (clean_kept _ Hd). unfold Float.parse.
  destruct (n <? 0).
  - rewrite (TotalMore.filter_bool_cons keeps).
    change (keeps (Text.byte "-")) with true. cbn [filter map app].
    change (filter (fun c => keeps c = true) []) with (@nil Z).
    cbn [map app].
    change (Text.is_char "-" (comma_to_dot (Text.byte "-"))) with true.
    cbv iota. by rewrite (parse_unsigned_digits true _ Hd Hne), Hv.
  - change (filter (fun c => keeps c = true) []) with (@nil Z).
    cbn [map app].
    destruct digits as [|c l]; [done|].
    assert (Hm : Text.is_char "-" c = false).
    { apply Forall_cons in Hd as [(_ & _ & _ & _ & Hm & _) _]. exact Hm. }
    by rewrite Hm, (parse_unsigned_digits false (c :: l) Hd Hne), Hv.
Qed.

Lemma whole_amount_reads_back_witness :
  forallb (fun c => negb (keeps c)) (Text.code_points "€") = true
  /\ Float.parse (clean "-40€") = Some (Float.of_decimal true 40 0)
  /\ Float.format_2f (Float.of_decimal true 40 0) = "-40.00".
Proof.
  split; [by vm_compute|]. split; [|by vm_compute].
  apply (whole_amount_reads_back (-40) "€"). by vm_compute.
Defined.

End WholeAmount.
(** * Further properties of the engine *)

Module EngineMore.

Import Sheet Engine.

Local Ltac listed :=
  repeat first [ left; reflexivity | right ].

Lemma dispatch_unknown tools function_name args :
  ~ In function_name Schema.names ->
  dispatch tools function_name args = Py.ret unknown_tool.
Proof.
  intros Hn. unfold dispatch.
  repeat match goal with
         | |- context [String.eqb function_name ?b] =>
             destruct (String.eqb function_name b) eqn:E;
             [ apply String.eqb_eq in E; exfalso; apply Hn; rewrite E;
               unfold Schema.names; cbn [In]; listed
             | clear E ]
         end.
  reflexivity.
Qed.

(** A request for a name outside the schema is answered, not refused:
    when its arguments decode, its tool message holds the text
    ["Error: Unknown tool"], the ledger is not touched, and the loop
    goes on with the next request. *)
Theorem unknown_tool_is_answered tools tc args rest s :
  ~ In (tc_name tc) Schema.names ->
  tc_arguments tc = Wellformed args ->
  let s' :=
    mk_state (history s ++ [tool_message tc "Error: Unknown tool"])
      (attempts s) (backend s) in
  run_tool_call tools tc s = (inr tt, s')
  /\ run_tool_calls tools (tc :: rest) s = run_tool_calls tools rest s'.
Proof.
  intros Hn Ha. cbv zeta.
  assert (E : run_tool_call tools tc s
              = (inr tt,
                 mk_state (history s ++ [tool_message tc "Error: Unknown tool"])
                   (attempts s) (backend s))).
  { rewrite EngineFacts.run_tool_call_cases, Ha.
    by rewrite (dispatch_unknown tools _ args Hn). }
  split; [exact E|].
  by rewrite EngineFacts.run_tool_calls_cons, E.
Qed.

Lemma unknown_tool_is_answered_witness :
  let tc := mk_tool_call "call_9" "send_email" (Wellformed (ArgsOther "list")) in
  ~ In "send_email" Schema.names
  /\ run_tool_calls Sample.tools [tc; Sample.show] Sample.state0
     = (inr tt,
        mk_state
          (Sample.conversation
             ++ [tool_message tc "Error: Unknown tool";
                 tool_message Sample.show
                   "https://docs.google.com/spreadsheets/d/sheet-1"])
          [] Sample.ledger0).
Proof.
  cbv zeta.
  assert (Hn : ~ In "send_email" Schema.names).
  { unfold Schema.names. cbn [In]. intros H.
    repeat (destruct H as [H|H]; [discriminate H|]). exact H. }
  split; [exact Hn|].
  rewrite (proj2 (unknown_tool_is_answered Sample.tools
                    (mk_tool_call "call_9" "send_email"
                       (Wellformed (ArgsOther "list")))
                    (ArgsOther "list") [Sample.show] Sample.state0 Hn
                    eq_refl)).
  by vm_compute.
Defined.

(** *** Tools the schema offers and [tools.py] does not define *)

Lemma dispatch_undefined cal function_name args w :
  In function_name Schema.undefined_names ->
  dispatch (Call.py_tools cal) function_name args w
  = (inl (Call.attribute_error function_name), w).
Proof.
  unfold Schema.undefined_names. cbn [In].
  intros [<-|[<-|[<-|[]]]]; reflexivity.
Qed.

(** The schema offers [list_calendar_events], [update_calendar_event]
    and [delete_calendar_event], which [tools.py] does not define.  A
    turn whose first request names one of them ends there, whatever
    the arguments: no tool message is written, no later request is
    run, the ledger is not touched, round 2 is not asked for, and the
    reply is the system-error text naming the missing attribute. *)
Theorem undefined_tool_ends_the_turn cal svc s c tc rest args :
  svc (length (attempts s)) (mk_request (history s) true)
  = Completed c (Some (tc :: rest)) ->
  tc_arguments tc = Wellformed args ->
  In (tc_name tc) Schema.undefined_names ->
  get_agent_response (Call.py_tools cal) svc s
  = (inr (Some ("⚠️ System error: module 'tools' has no attribute '"
                  +:+ tc_name tc +:+ "'")),
     mk_state (history s ++ [model_dump c (Some (tc :: rest))])
       (attempts s ++ [mk_request (history s) true]) (backend s)).
Proof.
  intros Hsvc Ha Hn.
  rewrite (EngineFacts.round1_calls _ svc s c tc rest Hsvc).
  rewrite EngineFacts.run_tool_calls_cons, EngineFacts.run_tool_call_cases, Ha.
  cbn [backend]. rewrite (dispatch_undefined cal _ args _ Hn).
  reflexivity.
Qed.

Lemma undefined_tool_ends_the_turn_witness :
  let tc :=
    mk_tool_call "call_1" "list_calendar_events"
      (Wellformed (ArgsObject no_kwargs)) in
  let svc := Sample.service_requesting [tc; Sample.undo] "Done." in
  svc 0%nat (mk_request Sample.conversation true)
  = Completed None (Some [tc; Sample.undo])
  /\ In "list_calendar_events" Schema.undefined_names
  /\ get_agent_response Sample.tools svc Sample.state0
     = (inr (Some "⚠️ System error: module 'tools' has no attribute 'list_calendar_events'"),
        mk_state
          (Sample.conversation ++ [model_dump None (Some [tc; Sample.undo])])
          [mk_request Sample.conversation true] Sample.ledger0).
Proof.
  cbv zeta. split; [reflexivity|]. split; [by left|].
  apply (undefined_tool_ends_the_turn Sample.calendar
           (Sample.service_requesting
              [mk_tool_call "call_1" "list_calendar_events"
                 (Wellformed (ArgsObject no_kwargs)); Sample.undo] "Done.")
           Sample.state0 None
           (mk_tool_call "call_1" "list_calendar_events"
              (Wellformed (ArgsObject no_kwargs)))
           [Sample.undo] (ArgsObject no_kwargs) eq_refl eq_refl).
  by left.
Defined.

(** *** The shape of every invocation *)

(** [get_agent_response] always answers: whatever the service and the
    tools do, it returns (it never raises), it only appends to the
    conversation it was handed, and it asks the service once or twice:
    first with the conversation as handed in and the tool schemas,
    then, if at all, with the conversation as it leaves it and no
    tools. *)
Theorem get_agent_response_always_answers tools svc s :
  exists reply s' ext,
    get_agent_response tools svc s = (inr reply, s')
    /\ history s' = history s ++ ext
    /\ (attempts s' = attempts s ++ [mk_request (history s) true]
        \/ attempts s'
           = attempts s
               ++ [mk_request (history s) true;
                   mk_request (history s') false]).
Proof.
  destruct (svc (length (attempts s)) (mk_request (history s) true))
    as [c [[|tc rest]|]|e r] eqn:E.
  - rewrite (EngineFacts.round1_text tools svc s c _ E (or_intror eq_refl)).
    exists c, (logged (mk_request (history s) true) s), [].
    split_and!; [done | by rewrite app_nil_r | by left].
  - rewrite (EngineFacts.round1_calls tools svc s c tc rest E).
    set (s1 := mk_state _ _ (backend s)).
    destruct (EngineFacts.run_tool_calls_log tools (tc :: rest) s1)
      as (results & Hh & Ha & _).
    destruct (run_tool_calls tools (tc :: rest) s1) as [[e|[]] s2].
    + cbn [snd] in Hh, Ha. eexists _, s2, _. split; [reflexivity|].
      split; [rewrite Hh; subst s1; cbn [history];
              by rewrite <- app_assoc|].
      left. rewrite Ha. reflexivity.
    + cbn [snd] in Hh, Ha.
      assert (Hlog : forall r0 : option string,
                 exists reply s' ext,
                   (inr r0 : Py.exn + option string,
                    logged (mk_request (history s2) false) s2)
                   = (inr reply, s')
                   /\ history s' = history s ++ ext
                   /\ (attempts s' = attempts s ++ [mk_request (history s) true]
                       \/ attempts s'
                          = attempts s
                              ++ [mk_request (history s) true;
                                  mk_request (history s') false])).
      { intros r0. eexists r0, _, _. split; [reflexivity|].
        cbn [logged history attempts]. split.
        - rewrite Hh. subst s1. cbn [history]. by rewrite <- app_assoc.
        - right. rewrite Ha. subst s1. cbn [attempts].
          by rewrite <- app_assoc. }
      destruct (svc (length (attempts s2)) (mk_request (history s2) false));
        apply Hlog.
  - rewrite (EngineFacts.round1_text tools svc s c _ E (or_introl eq_refl)).
    exists c, (logged (mk_request (history s) true) s), [].
    split_and!; [done | by rewrite app_nil_r | by left].
  - rewrite (EngineFacts.round1_failure tools svc s e r E).
    exists (Some (advice_text e)), (logged (mk_request (history s) true) s), [].
    split_and!; [done | by rewrite app_nil_r | by left].
Qed.

(** *** One round of tools *)

(** The engine runs one round of tools and no more: after a batch that
    went through, the text of the second turn is the reply as it is,
    and the tool calls that turn may carry are dropped - nothing is
    run for them, nothing is appended, and the service is not asked
    again. *)
Theorem second_turn_is_final tools svc s c tc rest s2 c2 tcs2 :
  svc (length (attempts s)) (mk_request (history s) true)
  = Completed c (Some (tc :: rest)) ->
  run_tool_calls tools (tc :: rest)
    (mk_state (history s ++ [model_dump c (Some (tc :: rest))])
       (attempts s ++ [mk_request (history s) true]) (backend s))
  = (inr tt, s2) ->
  svc (S (length (attempts s))) (mk_request (history s2) false)
  = Completed c2 tcs2 ->
  get_agent_response tools svc s
  = (inr c2,
     mk_state (history s2)
       (attempts s ++ [mk_request (history s) true;
                       mk_request (history s2) false])
       (backend s2)).
Proof.
  intros Hsvc Hrun H2.
  rewrite (EngineFacts.round1_calls tools svc s c tc rest Hsvc).
  destruct (EngineFacts.run_tool_calls_log tools (tc :: rest)
              (mk_state (history s ++ [model_dump c (Some (tc :: rest))])
                 (attempts s ++ [mk_request (history s) true]) (backend s)))
    as (results & _ & Ha & _).
  rewrite Hrun in *. cbn [snd attempts] in Ha.
  assert (Hl : length (attempts s2) = S (length (attempts s))).
  { rewrite Ha, length_app. cbn. lia. }
  rewrite Hl, H2. unfold logged. rewrite Ha, <- app_assoc. reflexivity.
Qed.

Lemma second_turn_is_final_witness :
  let again := fun (i : nat) (_ : request) =>
                 Completed (Some "One more.") (Some [Sample.undo]) in
  exists s2,
    run_tool_calls Sample.tools [Sample.undo]
      (mk_state (Sample.conversation ++ [model_dump (Some "One more.") (Some [Sample.undo])])
         [mk_request Sample.conversation true] Sample.ledger0)
    = (inr tt, s2)
    /\ fst (get_agent_response Sample.tools again Sample.state0)
       = inr (Some "One more.")
    /\ sheet (backend (snd (get_agent_response Sample.tools again
                              Sample.state0)))
       = [ ["2026-01-05"; "Coffee"; "3.50€"] ].
Proof.
  cbv zeta. eexists. split; [by vm_compute|].
  rewrite (second_turn_is_final Sample.tools
             (fun _ _ => Completed (Some "One more.") (Some [Sample.undo]))
             Sample.state0 (Some "One more.") Sample.undo [] _
             (Some "One more.") (Some [Sample.undo]) eq_refl
             ltac:(by vm_compute) eq_refl).
  split; reflexivity.
Defined.

(** *** Tools without parameters *)

(** [get_sheet_url] and [delete_last_row] are called without the
    decoded arguments: whatever a request for one of them carries -
    keys no parameter answers to, or a value that is not an object -
    the call is the same and returns, where the other handlers raise
    on such arguments. *)
Theorem parameterless_tools_ignore_arguments cal function_name :
  function_name = "get_sheet_url" \/ function_name = "delete_last_row" ->
  (forall args args' w,
      dispatch (Call.py_tools cal) function_name args w
      = dispatch (Call.py_tools cal) function_name args' w)
  /\ (forall args w,
        exists txt w',
          dispatch (Call.py_tools cal) function_name args w = (inr txt, w'))
  /\ (forall type_name w,
        dispatch (Call.py_tools cal) "delete_specific_row"
          (ArgsOther type_name) w
        = (inl (Call.mapping_error "delete_specific_row" type_name), w)).
Proof.
  intros Hn. split_and!.
  - intros args args' w. by destruct Hn as [-> | ->].
  - intros args w. destruct Hn as [-> | ->].
    + apply EngineFacts.get_sheet_url_returns.
    + apply EngineFacts.delete_last_row_returns.
  - reflexivity.
Qed.

Lemma parameterless_tools_ignore_arguments_witness :
  dispatch Sample.tools "delete_last_row" (ArgsOther "NoneType") Sample.ledger0
  = dispatch Sample.tools "delete_last_row" (ArgsObject no_kwargs)
      Sample.ledger0.
Proof.
  apply (proj1 (parameterless_tools_ignore_arguments Sample.calendar
                  "delete_last_row" (or_intror eq_refl))).
Defined.

End EngineMore.

(** * Binding the arguments of a request *)

Module CallMore.

Import Sheet Engine.

Lemma mem_In k l : Call.mem k l = true <-> In k l.
Proof.
  unfold Call.mem. rewrite existsb_exists. split.
  - intros (x & Hx & E). apply String.eqb_eq in E. by subst.
  - intros H. exists k. split; [exact H | apply String.eqb_refl].
Qed.

Lemma filter_none {A} (f : A -> bool) (l : list A) :
  (forall x, In x l -> f x = true) ->
  filter (fun x => f x = false) l = [].
Proof.
  induction l as [|x l IH]; [reflexivity|]. intros H.
  rewrite filter_cons. destruct (decide (f x = false)) as [E|_].
  - rewrite (H x (or_introl eq_refl)) in E. discriminate E.
  - apply IH. intros y Hy. apply H. by right.
Qed.

Lemma filter_some {A} (f : A -> bool) (l : list A) x :
  In x l -> f x = false -> filter (fun x => f x = false) l <> [].
Proof.
  intros Hin Hx E.
  assert (Hf : x ∈ filter (fun x => f x = false) l).
  { apply list_elem_of_filter. split; [exact Hx|].
    by apply list_elem_of_In. }
  rewrite E in Hf. by apply not_elem_of_nil in Hf.
Qed.

Lemma ordered_keys_In kw k :
  In k (Call.ordered_keys kw) <-> In k (Call.keys kw).
Proof.
  unfold Call.ordered_keys. rewrite in_app_iff. split; [|tauto].
  intros [H|H]; [|exact H].
  apply list_elem_of_In, list_elem_of_filter in H as [H _].
  by apply mem_In.
Qed.

Lemma given_In {A} key (o : option A) (a : A) :
  o = Some a -> In key (Call.given key o).
Proof. intros ->. by left. Qed.

(** A request for [append_to_sheet] is bound like a Python call: with
    the three required keys and no key but the six parameters, the
    handler runs with the values given, the euro sign for a currency
    left out and the empty text for a note left out; with a key that
    is no parameter, the call raises before the handler runs, and
    nothing is recorded. *)
Theorem append_request_binds_defaults cal kw w :
  let params :=
    ["item_name"; "amount"; "category"; "date"; "currency"; "note"] in
  (forall item_name amount category,
      kw_item_name kw = Some item_name ->
      kw_amount kw = Some amount ->
      kw_category kw = Some category ->
      (forall k, In k (Call.keys kw) -> In k params) ->
      dispatch (Call.py_tools cal) "append_to_sheet" (ArgsObject kw) w
      = Tools.append_to_sheet item_name amount category (kw_date kw)
          (default "€" (kw_currency kw)) (default EmptyString (kw_note kw)) w)
  /\ (forall k,
        In k (Call.keys kw) -> ~ In k params ->
        exists k',
          dispatch (Call.py_tools cal) "append_to_sheet" (ArgsObject kw) w
          = (inl (Call.unexpected_error "append_to_sheet" k'), w)).
Proof.
  cbv zeta.
  change (dispatch (Call.py_tools cal) "append_to_sheet" (ArgsObject kw))
    with (Call.call_append_to_sheet (ArgsObject kw)).
  unfold Call.call_append_to_sheet, Call.bind, Py.bind. split.
  - intros item_name amount category Hi Ha Hc Hk.
    rewrite (filter_none
               (fun k =>
                  Call.mem k
                    (["item_name"; "amount"; "category"]
                       ++ ["date"; "currency"; "note"]))
               (Call.ordered_keys kw))
      by (intros k Hin; apply mem_In, (Hk k), ordered_keys_In, Hin).
    rewrite (filter_none (fun k => Call.mem k (Call.keys kw))
               ["item_name"; "amount"; "category"]).
    + unfold Call.required, Py.ret. cbv beta iota.
      rewrite Hi, Ha, Hc. reflexivity.
    + intros k Hin. apply mem_In. unfold Call.keys.
      destruct Hin as [<-|[<-|[<-|[]]]]; rewrite !in_app_iff.
      * left. by apply (given_In _ _ item_name).
      * right. left. by apply (given_In _ _ amount).
      * right. right. left. by apply (given_In _ _ category).
  - intros k Hin Hout.
    pose proof (filter_some
                  (fun k =>
                     Call.mem k
                       (["item_name"; "amount"; "category"]
                          ++ ["date"; "currency"; "note"]))
                  (Call.ordered_keys kw) k
                  (proj2 (ordered_keys_In kw k) Hin)) as Hne.
    destruct (filter _ (Call.ordered_keys kw)) as [|k' rest].
    + exfalso. apply Hne; [|reflexivity].
      apply not_true_is_false. intros Hm. by apply mem_In in Hm.
    + by exists k'.
Qed.

Lemma append_request_binds_defaults_witness :
  let kw :=
    mk_kwargs (Some "Lunch") (Some (Tools.NInt 25)) (Some "Food") None None
      None None None None None None None None None [] [] in
  dispatch Sample.tools "append_to_sheet" (ArgsObject kw) Sample.ledger0
  = Tools.append_to_sheet "Lunch" (Tools.NInt 25) "Food" None "€" EmptyString
      Sample.ledger0.
Proof.
  cbv zeta.
  apply (proj1 (append_request_binds_defaults Sample.calendar
                  (mk_kwargs (Some "Lunch") (Some (Tools.NInt 25))
                     (Some "Food") None None None None None None None None
                     None None None [] [])
                  Sample.ledger0) "Lunch" (Tools.NInt 25) "Food" eq_refl
           eq_refl eq_refl).
  intros k Hk. cbn in Hk.
  destruct Hk as [<-|[<-|[<-|[]]]]; cbn; tauto.
Defined.

End CallMore.

(** * Further properties of the message handlers *)

Module MainMore.

Import Sheet Engine Main.

Lemma engine_returns tools svc s :
  exists reply s', get_agent_response tools svc s = (inr reply, s').
Proof.
  apply (EngineFacts.try_except_returns (respond tools svc)
           (fun e => Some (advice_text e))).
Qed.

(** What [handle_message] does for the authorised user, in one
    equation. *)
Lemma handle_message_run cfg tools svc user_id user_text b :
  unauthorized cfg user_id = false ->
  let base :=
    default [system_message cfg b] (user_conversations b !! user_id) in
  let asked := base ++ [mk_message user (Some user_text) None None None] in
  exists reply s',
    get_agent_response tools svc (mk_state asked (service_log b) (world b))
    = (inr reply, s')
    /\ let convs :=
         <[ user_id := history s'
                         ++ [mk_message assistant reply None None None] ]>
           (user_conversations b) in
       handle_message cfg tools svc user_id user_text b
       = mk_bot convs (if disk_writable b then Saved convs else memory_file b)
           (disk_writable b) (attempts s') (backend s').
Proof.
  intros Hu. cbv zeta.
  destruct (engine_returns tools svc
              (mk_state
                 (default [system_message cfg b] (user_conversations b !! user_id)
                    ++ [mk_message user (Some user_text) None None None])
                 (service_log b) (world b))) as (reply & s' & Hrun).
  exists reply, s'. split; [exact Hrun|].
  unfold handle_message. rewrite Hu.
  destruct b as [m f wr l w].
  cbn [user_conversations memory_file disk_writable service_log world] in *.
  unfold system_message in *. cbn [world] in *.
  destruct (m !! user_id) as [c0|] eqn:E; destruct wr;
    unfold save_memory, append_message, with_conversations;
    cbn [user_conversations memory_file disk_writable service_log world
         default from_option id] in *;
    rewrite ?E, ?lookup_insert_eq;
    cbn [user_conversations memory_file disk_writable service_log world
         default from_option id] in *;
    rewrite ?lookup_insert_eq;
    cbn [default from_option id];
    rewrite Hrun;
    cbn [user_conversations memory_file disk_writable service_log world
         default from_option id];
    rewrite ?lookup_insert_eq; cbn [default from_option id];
    rewrite ?insert_insert_eq; reflexivity.
Qed.

(** [handle_message] touches the conversation of the sender only, and
    that one only for the authorised user: for any other sender
    nothing changes at all - no conversation is created or extended,
    nothing is saved, the model service is not asked and the ledger is
    not touched - also when the sender has a conversation, and always
    when no authorised user is configured. *)
Theorem handle_message_touches_only_the_sender
    cfg tools svc user_id user_text b :
  let b' := handle_message cfg tools svc user_id user_text b in
  (forall other, other <> user_id ->
     user_conversations b' !! other = user_conversations b !! other)
  /\ (unauthorized cfg user_id = true -> b' = b)
  /\ (authorized_user_id cfg = None -> b' = b).
Proof.
  cbv zeta.
  assert (Hno : unauthorized cfg user_id = true ->
                handle_message cfg tools svc user_id user_text b = b).
  { intros Hu. unfold handle_message. by rewrite Hu. }
  split_and!.
  - intros other Hne. destruct (unauthorized cfg user_id) eqn:Hu.
    + by rewrite Hno.
    + destruct (handle_message_run cfg tools svc user_id user_text b Hu)
        as (reply & s' & _ & ->).
      cbn [user_conversations]. by rewrite lookup_insert_ne.
  - exact Hno.
  - intros Hnone. apply Hno. unfold unauthorized. by rewrite Hnone.
Qed.

Lemma handle_message_touches_only_the_sender_witness :
  unauthorized Sample.config 7 = true
  /\ handle_message Sample.config Sample.tools (Sample.service_text "Hello")
       7 "hi" Sample.bot0
     = Sample.bot0.
Proof.
  split; [reflexivity|].
  apply (proj1 (proj2 (handle_message_touches_only_the_sender Sample.config
                         Sample.tools (Sample.service_text "Hello") 7 "hi"
                         Sample.bot0))).
  reflexivity.
Defined.

(** A message of the authorised user makes the conversation grow at
    its end and nowhere else: to the conversation as it was (the
    system message alone for a user without one) are added the user
    message, what the engine appends, and the reply as an assistant
    message.  The engine is handed the conversation up to the user
    message, and its attempts and the ledger it leaves are kept. *)
Theorem handle_message_extends_the_conversation
    cfg tools svc user_id user_text b :
  unauthorized cfg user_id = false ->
  let b' := handle_message cfg tools svc user_id user_text b in
  let base :=
    default [system_message cfg b] (user_conversations b !! user_id) in
  let asked := base ++ [mk_message user (Some user_text) None None None] in
  exists ext reply s',
    get_agent_response tools svc (mk_state asked (service_log b) (world b))
    = (inr reply, s')
    /\ history s' = asked ++ ext
    /\ user_conversations b' !! user_id
       = Some (asked ++ ext ++ [mk_message assistant reply None None None])
    /\ service_log b' = attempts s'
    /\ world b' = backend s'.
Proof.
  intros Hu. cbv zeta.
  destruct (handle_message_run cfg tools svc user_id user_text b Hu)
    as (reply & s' & Hrun & ->).
  destruct (MainFacts.engine_appends tools svc
              (mk_state
                 (default [system_message cfg b]
                    (user_conversations b !! user_id)
                    ++ [mk_message user (Some user_text) None None None])
                 (service_log b) (world b))) as [ext Hext].
  rewrite Hrun in Hext. cbn [snd history] in Hext.
  exists ext, reply, s'. split_and!; try done.
  cbn [user_conversations]. rewrite lookup_insert_eq, Hext.
  by rewrite <- app_assoc.
Qed.

Lemma handle_message_extends_the_conversation_witness :
  unauthorized Sample.config 42 = false
  /\ exists ext reply,
       user_conversations
         (handle_message Sample.config Sample.tools
            (Sample.service_text "Hello") 42 "hi" Sample.bot0) !! 42
       = Some ([system_message Sample.config Sample.bot0;
                mk_message user (Some "hi") None None None]
                 ++ ext ++ [mk_message assistant reply None None None]).
Proof.
  split; [reflexivity|].
  destruct (handle_message_extends_the_conversation Sample.config
              Sample.tools (Sample.service_text "Hello") 42 "hi" Sample.bot0
              eq_refl) as (ext & reply & s' & _ & _ & Hc & _).
  exists ext, reply. exact Hc.
Defined.



(** [start] is open to every user and is not saved: for any sender,
    authorised or not, it makes the sender's conversation the system
    message alone, dropping what was there, and leaves the other
    conversations alone; the memory file is not written, so that a
    restart right after [start] brings back what the file held. *)
Theorem start_resets_without_saving cfg user_id b :
  let b' := start cfg user_id b in
  user_conversations b' !! user_id = Some [system_message cfg b]
  /\ (forall other, other <> user_id ->
        user_conversations b' !! other = user_conversations b !! other)
  /\ memory_file b' = memory_file b
  /\ load_memory b' = load_memory b.
Proof.
  cbv zeta. unfold start. split_and!.
  - cbn [with_conversations user_conversations]. apply lookup_insert_eq.
  - intros other Hne. cbn [with_conversations user_conversations].
    by apply lookup_insert_ne.
  - reflexivity.
  - unfold load_memory, with_conversations.
    cbn [memory_file disk_writable service_log world].
    by destruct (memory_file b).
Qed.

Lemma start_resets_without_saving_witness :
  unauthorized Sample.config 7 = true
  /\ user_conversations (start Sample.config 7 Sample.bot0) !! 7
     = Some [system_message Sample.config Sample.bot0]
  /\ user_conversations (start Sample.config 7 Sample.bot0) !! 42
     = user_conversations Sample.bot0 !! 42
  /\ load_memory (start Sample.config 7 Sample.bot0) = load_memory Sample.bot0.
Proof.
  split; [reflexivity|].
  destruct (start_resets_without_saving Sample.config 7 Sample.bot0)
    as (Hs & Ho & _ & Hl).
  split; [exact Hs|]. split; [|exact Hl].
  apply Ho. discriminate.
Defined.

End MainMore.

